(** * Hackathon_bot backend: donation platform

    A shallow embedding of the Go backend (handlers.go, the database
    gateway, minio.go and the models) together with the properties of the
    donation lifecycle, verification gating, chat messages, pagination,
    JSON responses and object-URL normalisation.

    Conventions of the embedding.
    - Go [int64]/[int] values are [Z]; every value that occurs stays far
      inside the 64-bit range, no arithmetic of the modelled code wraps.
    - Money columns are [DECIMAL(15,2)]: an amount is the integer number of
      hundredths of a currency unit ([Money]).  Go's [int(amount)] on the
      [float64] it read is truncation toward zero, [Z.quot _ 100].
    - [time.Time] is a number of seconds ([Time]); [NOW()] and [time.Now()]
      are read from the request environment.
    - Money columns are read into [float64] and written back at two
      decimals; within the range of the column that detour is exact.
    - A table is the list of its rows in insertion order; a query is a
      function on that list.  Failures of the database connection are
      outside the model; bcrypt, the JWT signer, the parsers of Go's
      library and the object store's PutObject are parameters, and so is
      the database server's treatment of a text sent for a column
      ([DB.Server]).
    - A handler is a function from the store and the request to the new
      store and the response (status code and JSON body). *)

From Stdlib Require Import ZArith List String Ascii Bool Lia DecimalString.
Import ListNotations.

Local Open Scope string_scope.
Local Open Scope Z_scope.

(** ** The fragment of Go's [strings] package the code uses *)

Module GoStrings.

(** [strings.HasPrefix(s, prefix)] *)
Definition HasPrefix (s pre : string) : bool := String.prefix pre s.

(** [strings.Contains(s, substr)] *)
Fixpoint Contains (s substr : string) : bool :=
  if String.prefix substr s then true
  else match s with
       | EmptyString => false
       | String _ s' => Contains s' substr
       end.

(** [strings.Split(s, sep)] for a separator of one byte, which is what
    both call sites pass (a slash, a colon). The result is never empty:
    splitting the empty string gives one empty piece. *)
Fixpoint Split (s : string) (sep : ascii) : list string :=
  match s with
  | EmptyString => [EmptyString]
  | String c s' =>
      if Ascii.eqb c sep then EmptyString :: Split s' sep
      else match Split s' sep with
           | [] => [String c EmptyString]
           | piece :: rest => String c piece :: rest
           end
  end.

(** [strings.ReplaceAll(s, old, new)] for a one-byte [old]. *)
Fixpoint ReplaceAll (s : string) (old : ascii) (new : string) : string :=
  match s with
  | EmptyString => EmptyString
  | String c s' =>
      if Ascii.eqb c old then new ++ ReplaceAll s' old new
      else String c (ReplaceAll s' old new)
  end.

(** [strings.ToLower] on the ASCII letters.  The results are only
    compared with, or searched for, lower-case ASCII words made of
    letters that no other code point lowers to. *)
Definition lowerChar (c : ascii) : ascii :=
  let n := nat_of_ascii c in
  if (Nat.leb 65 n && Nat.leb n 90)%bool then ascii_of_nat (n + 32) else c.

Fixpoint ToLower (s : string) : string :=
  match s with
  | EmptyString => EmptyString
  | String c s' => String (lowerChar c) (ToLower s')
  end.

(** [filepath.Ext]: the suffix from the last dot of the last path
    element, empty when that element has no dot. *)
Fixpoint Ext (path : string) : string :=
  match path with
  | EmptyString => EmptyString
  | String c rest =>
      if Contains rest "." || Contains rest "/" then Ext rest
      else if Ascii.eqb c "."%char then path
      else EmptyString
  end.

(** The [%d] verb of [fmt.Sprintf]. *)
Definition itoa (n : Z) : string := NilZero.string_of_int (Z.to_int n).

(** [strings.Join(elems, sep)] *)
Definition Join (elems : list string) (sep : string) : string :=
  String.concat sep elems.

End GoStrings.

(** ** minio.go: object URLs *)

Module Minio.
Import GoStrings.

Definition BucketUserPhotos := "user-photos".
Definition BucketVerificationDocs := "verification-docs".
Definition BucketPostMedia := "post-media".
Definition BucketDonationReceipts := "donation-receipts".
Definition BucketChatAttachments := "chat-attachments".

Record MinIOConfig := {
  Endpoint : string;
  AccessKeyID : string;
  SecretAccessKey : string;
  UseSSL : bool;
  BucketName : string;
  Region : string
}.

(** The comparison chain of the loop body in [ConvertMinIOURLToBackendURL]. *)
Definition isBucket (part : string) : bool :=
  String.eqb part BucketUserPhotos || String.eqb part BucketVerificationDocs
  || String.eqb part BucketPostMedia || String.eqb part BucketDonationReceipts
  || String.eqb part BucketChatAttachments.

(** The port is dropped from the stored URL: [parts[0]] of the endpoint
    split at its colons, when it has one. *)
Definition storedHost (endpoint : string) : string :=
  if Contains endpoint ":" then hd EmptyString (Split endpoint ":"%char) else endpoint.

(** [GetObjectURL]: scheme from [UseSSL], the endpoint without its port,
    then bucket and key. *)
Definition GetObjectURL (cfg : MinIOConfig) (bucket objectKey : string) : string :=
  let scheme := if UseSSL cfg then "https" else "http" in
  let endpoint := storedHost (Endpoint cfg) in
  scheme ++ "://" ++ endpoint ++ "/" ++ bucket ++ "/" ++ objectKey.

(** The [for i, part := range parts] loop: the index of the first part
    that is a bucket name, skipping empty parts, the protocol, parts with
    a colon and everything before index 3. *)
Fixpoint findBucket (i : nat) (parts : list string) : option nat :=
  match parts with
  | [] => None
  | part :: rest =>
      if String.eqb part "" || String.eqb part "http:" || String.eqb part "https:"
      then findBucket (S i) rest
      else if Contains part ":" || Nat.ltb i 3
      then findBucket (S i) rest
      else if isBucket part then Some i
      else findBucket (S i) rest
  end.

Definition ConvertMinIOURLToBackendURL (url : string) : string :=
  if String.eqb url "" then url
  else if HasPrefix url "/files/" then url
  else
    let parts := Split url "/"%char in
    match findBucket 0 parts with
    | Some bucketIndex =>
        let bucket := nth bucketIndex parts EmptyString in
        let objectKey := Join (skipn (S bucketIndex) parts) "/" in
        "/files/" ++ bucket ++ "/" ++ objectKey
    | None => url
    end.

End Minio.

(** ** models.go: entities and request DTOs *)

Definition Time := Z.

(** A [DECIMAL(15,2)] amount in hundredths of a currency unit. *)
Definition Money := Z.

Module User.
Record t := {
  ID : Z;
  Phone : string;
  PasswordHash : string;          (* json:"-" *)
  FirstName : string;
  LastName : string;
  PhotoURL : option string;       (* omitempty *)
  Role : string;
  HelperName : option string;     (* omitempty *)
  CreatedAt : Time;
  UpdatedAt : Time;
  IsActive : bool
}.

Definition withPasswordHash (h : string) (u : t) : t :=
  {| ID := ID u; Phone := Phone u; PasswordHash := h;
     FirstName := FirstName u; LastName := LastName u;
     PhotoURL := PhotoURL u; Role := Role u; HelperName := HelperName u;
     CreatedAt := CreatedAt u; UpdatedAt := UpdatedAt u;
     IsActive := IsActive u |}.

Definition withPhotoURL (p : option string) (u : t) : t :=
  {| ID := ID u; Phone := Phone u; PasswordHash := PasswordHash u;
     FirstName := FirstName u; LastName := LastName u;
     PhotoURL := p; Role := Role u; HelperName := HelperName u;
     CreatedAt := CreatedAt u; UpdatedAt := UpdatedAt u;
     IsActive := IsActive u |}.
End User.

Module Verification.
Record t := {
  ID : Z;
  UserID : Z;
  UserPhotoURL : option string;
  LastName : string;
  FirstName : string;
  MiddleName : option string;
  BirthDate : Time;
  PassportSeries : string;
  PassportNumber : string;
  PassportIssuer : string;
  PassportDate : Time;
  DocType : string;
  INN : option string;
  SNILS : option string;
  PassportScansURLs : list string;
  Consent1 : bool;
  Consent2 : bool;
  Consent3 : bool;
  Status : string;
  SubmittedAt : Time;
  ReviewedAt : option Time;
  ReviewedBy : option Z;
  RejectionReason : option string
}.
End Verification.

Module Post.
Record t := {
  ID : Z;
  UserID : Z;
  Title : string;
  Description : string;
  Amount : Money;
  Collected : Money;
  Recipient : string;
  Bank : string;
  Phone : string;
  Status : string;
  CreatedAt : Time;
  UpdatedAt : Time;
  IsEditable : bool
}.
End Post.

Module PostMedia.
Record t := {
  ID : Z;
  PostID : Z;
  MediaURL : string;
  MediaType : string;
  OrderIndex : Z;
  CreatedAt : Time
}.
End PostMedia.

Module Donation.
Record t := {
  ID : Z;
  PostID : Z;
  DonorID : Z;
  Amount : Money;
  ReceiptURL : option string;
  Status : string;
  ConfirmedAt : option Time;
  ConfirmedBy : option Z;
  CreatedAt : Time
}.
End Donation.

Module Message.
Record t := {
  ID : Z;
  ChatID : Z;
  SenderID : Z;
  Text : option string;
  AttachmentURL : option string;
  IsRead : bool;
  IsEdited : bool;
  CreatedAt : Time;
  UpdatedAt : Time
}.
End Message.

Module Rating.
Record t := {
  ID : Z;
  UserID : Z;
  Points : Z;
  TotalDonated : Money;
  Status : option string;
  UpdatedAt : Time
}.
End Rating.

(** UserInfo and PostInfo, the short forms embedded in detail responses. *)
Module UserInfo.
Record t := { ID : Z; Name : string; Avatar : option string }.
End UserInfo.

Module PostInfo.
Record t := { ID : Z; Title : string; Amount : Money; Collected : Money }.
End PostInfo.

(** ** JSON values, as [encoding/json] writes the response structs *)

Module Json.
#[local] Unset Elimination Schemes.
Inductive value :=
| Null
| Bool (b : bool)
| Int (n : Z)
| Decimal (m : Money)
| Str (s : string)
| Timestamp (t : Time)
| Arr (items : list value)
| Obj (fields : list (string * value)).
#[local] Set Elimination Schemes.

Definition field := (string * value)%type.

(** A pointer field tagged [omitempty] is left out when nil. *)
Definition omitempty {A : Type} (key : string) (enc : A -> value) (o : option A)
  : list field :=
  match o with
  | None => []
  | Some a => [(key, enc a)]
  end.

(** A slice field tagged [omitempty] is left out when empty. *)
Definition omitemptyList {A : Type} (key : string) (enc : A -> value) (l : list A)
  : list field :=
  match l with
  | [] => []
  | _ => [(key, Arr (map enc l))]
  end.

(** A pointer stored in a [map[string]interface{}]: nil is written [null]. *)
Definition nullable {A : Type} (enc : A -> value) (o : option A) : value :=
  match o with
  | None => Null
  | Some a => enc a
  end.

Definition userFields (u : User.t) : list field :=
  [("id", Int (User.ID u)); ("phone", Str (User.Phone u));
   ("first_name", Str (User.FirstName u)); ("last_name", Str (User.LastName u))]
  ++ omitempty "photo_url" Str (User.PhotoURL u)
  ++ [("role", Str (User.Role u))]
  ++ omitempty "helper_name" Str (User.HelperName u)
  ++ [("created_at", Timestamp (User.CreatedAt u));
      ("updated_at", Timestamp (User.UpdatedAt u));
      ("is_active", Bool (User.IsActive u))].

Definition ofUser (u : User.t) : value := Obj (userFields u).

Definition ofUserInfo (i : UserInfo.t) : value :=
  Obj ([("id", Int (UserInfo.ID i)); ("name", Str (UserInfo.Name i))]
       ++ omitempty "avatar" Str (UserInfo.Avatar i)).

Definition ofPostInfo (i : PostInfo.t) : value :=
  Obj [("id", Int (PostInfo.ID i)); ("title", Str (PostInfo.Title i));
       ("amount", Decimal (PostInfo.Amount i));
       ("collected", Decimal (PostInfo.Collected i))].

Definition postFields (p : Post.t) : list field :=
  [("id", Int (Post.ID p)); ("user_id", Int (Post.UserID p));
   ("title", Str (Post.Title p)); ("description", Str (Post.Description p));
   ("amount", Decimal (Post.Amount p)); ("collected", Decimal (Post.Collected p));
   ("recipient", Str (Post.Recipient p)); ("bank", Str (Post.Bank p));
   ("phone", Str (Post.Phone p)); ("status", Str (Post.Status p));
   ("created_at", Timestamp (Post.CreatedAt p));
   ("updated_at", Timestamp (Post.UpdatedAt p));
   ("is_editable", Bool (Post.IsEditable p))].

Definition ofPostMedia (m : PostMedia.t) : value :=
  Obj [("id", Int (PostMedia.ID m)); ("post_id", Int (PostMedia.PostID m));
       ("media_url", Str (PostMedia.MediaURL m));
       ("media_type", Str (PostMedia.MediaType m));
       ("order_index", Int (PostMedia.OrderIndex m));
       ("created_at", Timestamp (PostMedia.CreatedAt m))].

(** PostWithDetails: the embedded Post, then author and media. *)
Definition ofPostWithDetails (p : Post.t) (author : option UserInfo.t)
           (media : list PostMedia.t) : value :=
  Obj (postFields p ++ omitempty "author" ofUserInfo author
       ++ omitemptyList "media" ofPostMedia media).

Definition donationFields (d : Donation.t) : list field :=
  [("id", Int (Donation.ID d)); ("post_id", Int (Donation.PostID d));
   ("donor_id", Int (Donation.DonorID d)); ("amount", Decimal (Donation.Amount d))]
  ++ omitempty "receipt_url" Str (Donation.ReceiptURL d)
  ++ [("status", Str (Donation.Status d))]
  ++ omitempty "confirmed_at" Timestamp (Donation.ConfirmedAt d)
  ++ omitempty "confirmed_by" Int (Donation.ConfirmedBy d)
  ++ [("created_at", Timestamp (Donation.CreatedAt d))].

(** DonationWithDetails: the embedded Donation, then donor and post. *)
Definition ofDonationWithDetails (d : Donation.t) (donor : option UserInfo.t)
           (post : option PostInfo.t) : value :=
  Obj (donationFields d ++ omitempty "donor" ofUserInfo donor
       ++ omitempty "post" ofPostInfo post).

(** The map that UpdateDonation answers with (keys in the encoder's order). *)
Definition ofDonationUpdate (d : Donation.t) : value :=
  Obj [("confirmed_at", nullable Timestamp (Donation.ConfirmedAt d));
       ("confirmed_by", nullable Int (Donation.ConfirmedBy d));
       ("id", Int (Donation.ID d));
       ("status", Str (Donation.Status d))].

(** LoginResponse *)
Definition ofLoginResponse (userID : Z) (token : string) (user : User.t) : value :=
  Obj [("user_id", Int userID); ("token", Str token); ("user", ofUser user)].
End Json.

(** ** errors.go: the error taxonomy and the response writers *)

Record AppError := {
  Code : string;
  Message : string;
  Details : list (string * string);
  Status : Z
}.

(** A Go [error]: an [*AppError], [sql.ErrNoRows], or any other error. *)
Inductive error :=
| App (e : AppError)
| ErrNoRows
| Other (msg : string).

Inductive result (A : Type) :=
| Ok (a : A)
| Err (e : error).
Arguments Ok {A} a.
Arguments Err {A} e.

Definition StatusOK := 200.
Definition StatusCreated := 201.
Definition StatusNoContent := 204.
Definition StatusBadRequest := 400.
Definition StatusUnauthorized := 401.
Definition StatusForbidden := 403.
Definition StatusNotFound := 404.
Definition StatusConflict := 409.
Definition StatusRequestEntityTooLarge := 413.
Definition StatusUnsupportedMediaType := 415.
Definition StatusInternalServerError := 500.

Definition NewValidationError (message : string) (details : list (string * string)) :=
  {| Code := "VALIDATION_ERROR"; Message := message; Details := details;
     Status := StatusBadRequest |}.

Definition NewUnauthorizedError (message : string) :=
  {| Code := "UNAUTHORIZED";
     Message := if String.eqb message "" then "Не авторизован" else message;
     Details := []; Status := StatusUnauthorized |}.

Definition NewForbiddenError (message : string) :=
  {| Code := "FORBIDDEN";
     Message := if String.eqb message "" then "Доступ запрещен" else message;
     Details := []; Status := StatusForbidden |}.

Definition NewNotFoundError (resource : string) :=
  {| Code := "NOT_FOUND"; Message := resource ++ " не найден";
     Details := []; Status := StatusNotFound |}.

Definition NewConflictError (message : string) :=
  {| Code := "CONFLICT"; Message := message; Details := [];
     Status := StatusConflict |}.

Definition NewFileTooLargeError (maxSize : string) :=
  {| Code := "FILE_TOO_LARGE";
     Message := "Файл слишком большой. Максимальный размер: " ++ maxSize;
     Details := []; Status := StatusRequestEntityTooLarge |}.

Definition NewUnsupportedMediaError (message : string) :=
  {| Code := "UNSUPPORTED_MEDIA_TYPE"; Message := message; Details := [];
     Status := StatusUnsupportedMediaType |}.

Definition NewInternalError (message : string) :=
  {| Code := "INTERNAL_ERROR"; Message := message; Details := [];
     Status := StatusInternalServerError |}.

(** What a handler has written: the status code and the body, if any. *)
Record Response := {
  StatusCode : Z;
  Body : option Json.value
}.

(** The details of an error are a Go map: one entry per key, the last one
    written, and [encoding/json] writes the keys in byte order. *)
Fixpoint putDetail (k v : string) (m : list (string * string)) : list (string * string) :=
  match m with
  | [] => [(k, v)]
  | (k', v') :: rest =>
      match String.compare k k' with
      | Lt => (k, v) :: m
      | Eq => (k, v) :: rest
      | Gt => (k', v') :: putDetail k v rest
      end
  end.

Definition detailsMap (ds : list (string * string)) : list (string * string) :=
  fold_left (fun m kv => putDetail (fst kv) (snd kv) m) ds [].

Definition errorBody (e : AppError) : Json.value :=
  Json.Obj [("error",
    Json.Obj ([("code", Json.Str (Code e)); ("message", Json.Str (Message e))]
              ++ match Details e with
                 | [] => []
                 | ds => [("details",
                           Json.Obj (map (fun kv => (fst kv, Json.Str (snd kv)))
                                       (detailsMap ds)))]
                 end))].

Definition WriteError (err : error) : Response :=
  let appErr :=
    match err with
    | App e => e
    | ErrNoRows => NewNotFoundError "Ресурс"
    | Other _ => NewInternalError "Внутренняя ошибка сервера"
    end in
  {| StatusCode := Status appErr; Body := Some (errorBody appErr) |}.

Definition WriteJSON (status : Z) (data : Json.value) : Response :=
  {| StatusCode := status; Body := Some data |}.

(** ** The database gateway

    The tables of [InitSchema] that the modelled handlers touch, and the
    queries as functions on them.  [UNIQUE] constraints are checked by the
    inserts that could violate them.  The inserts of users, posts and
    donations and the two updates of the donation cascade ([CreateUser],
    [CreatePost], [CreateDonation], [UpdatePostCollected], [UpdateRating])
    check what they write against the column types and [CHECK]s: a
    statement that PostgreSQL refuses leaves the table as it was.  The
    other statements are modelled for values that their columns take.
    Foreign keys and primary keys are invariants of the store, and where a
    property relies on one it says so in a hypothesis. *)

Module DB.
(** *** Column types

    What PostgreSQL does with a text is the server's business: whether the
    bytes are valid in its encoding, and what becomes of a text that is
    longer than the column.  Both are inputs of the model. *)
Record Server := {
  (* the text is valid in the server's encoding and has no zero byte *)
  wellEncoded : string -> bool;
  (* a text of more than n bytes sent for a VARCHAR(n) column: stored as it
     is when it has at most n characters, cut to n characters when the
     excess is all blanks, refused otherwise *)
  overlong : Z -> string -> option string
}.

(** The value stored in a TEXT column, or [None] when the text is refused. *)
Definition text (pg : Server) (s : string) : option string :=
  if wellEncoded pg s then Some s else None.

(** The value stored in a VARCHAR(n) column, or [None] when the text is
    refused.  A text of at most n bytes has at most n characters. *)
Definition varchar (pg : Server) (n : Z) (s : string) : option string :=
  if wellEncoded pg s
  then if Z.of_nat (String.length s) <=? n then Some s else overlong pg n s
  else None.

(** INTEGER *)
Definition inInteger (n : Z) : bool := (- 2 ^ 31 <=? n) && (n <? 2 ^ 31).

(** DECIMAL(15,2): fewer than 14 digits before the point.  Money counts
    hundredths. *)
Definition inDecimal (m : Money) : bool := (- 10 ^ 15 <? m) && (m <? 10 ^ 15).

Record t := {
  users : list User.t;
  verifications : list Verification.t;
  posts : list Post.t;
  post_media : list PostMedia.t;
  donations : list Donation.t;
  messages : list Message.t;
  ratings : list Rating.t;
  (* next values of the BIGSERIAL sequences used by the modelled inserts *)
  verifications_seq : Z;
  posts_seq : Z;
  post_media_seq : Z;
  ratings_seq : Z
}.

Definition setUsers (us : list User.t) (db : t) : t :=
  {| users := us; verifications := verifications db; posts := posts db;
     post_media := post_media db; donations := donations db;
     messages := messages db; ratings := ratings db;
     verifications_seq := verifications_seq db; posts_seq := posts_seq db;
     post_media_seq := post_media_seq db; ratings_seq := ratings_seq db |}.

Definition setVerifications (vs : list Verification.t) (seq : Z) (db : t) : t :=
  {| users := users db; verifications := vs; posts := posts db;
     post_media := post_media db; donations := donations db;
     messages := messages db; ratings := ratings db;
     verifications_seq := seq; posts_seq := posts_seq db;
     post_media_seq := post_media_seq db; ratings_seq := ratings_seq db |}.

Definition setPosts (ps : list Post.t) (seq : Z) (db : t) : t :=
  {| users := users db; verifications := verifications db; posts := ps;
     post_media := post_media db; donations := donations db;
     messages := messages db; ratings := ratings db;
     verifications_seq := verifications_seq db; posts_seq := seq;
     post_media_seq := post_media_seq db; ratings_seq := ratings_seq db |}.

Definition setPostMedia (ms : list PostMedia.t) (seq : Z) (db : t) : t :=
  {| users := users db; verifications := verifications db; posts := posts db;
     post_media := ms; donations := donations db;
     messages := messages db; ratings := ratings db;
     verifications_seq := verifications_seq db; posts_seq := posts_seq db;
     post_media_seq := seq; ratings_seq := ratings_seq db |}.

Definition setDonations (ds : list Donation.t) (db : t) : t :=
  {| users := users db; verifications := verifications db; posts := posts db;
     post_media := post_media db; donations := ds;
     messages := messages db; ratings := ratings db;
     verifications_seq := verifications_seq db; posts_seq := posts_seq db;
     post_media_seq := post_media_seq db; ratings_seq := ratings_seq db |}.

Definition setMessages (ms : list Message.t) (db : t) : t :=
  {| users := users db; verifications := verifications db; posts := posts db;
     post_media := post_media db; donations := donations db;
     messages := ms; ratings := ratings db;
     verifications_seq := verifications_seq db; posts_seq := posts_seq db;
     post_media_seq := post_media_seq db; ratings_seq := ratings_seq db |}.

Definition setRatings (rs : list Rating.t) (seq : Z) (db : t) : t :=
  {| users := users db; verifications := verifications db; posts := posts db;
     post_media := post_media db; donations := donations db;
     messages := messages db; ratings := rs;
     verifications_seq := verifications_seq db; posts_seq := posts_seq db;
     post_media_seq := post_media_seq db; ratings_seq := seq |}.

(** [QueryRow(...).Scan]: the first matching row, or [sql.ErrNoRows]
    turned into the NotFound error of the resource. *)
Definition queryRow {A : Type} (resource : string) (p : A -> bool) (rows : list A)
  : result A :=
  match find p rows with
  | Some r => Ok r
  | None => Err (App (NewNotFoundError resource))
  end.

(** [SELECT COUNT( * ) ... WHERE p] *)
Definition count {A : Type} (p : A -> bool) (rows : list A) : Z :=
  Z.of_nat (List.length (filter p rows)).

(** [UPDATE ... SET f WHERE p] *)
Definition update {A : Type} (p : A -> bool) (f : A -> A) (rows : list A) : list A :=
  map (fun r => if p r then f r else r) rows.

(** [DELETE ... WHERE p] *)
Definition delete {A : Type} (p : A -> bool) (rows : list A) : list A :=
  filter (fun r => negb (p r)) rows.

(** *** users *)

Definition GetUserByPhone (db : t) (phone : string) : result User.t :=
  queryRow "Пользователь" (fun u => String.eqb (User.Phone u) phone) (users db).

Definition GetUserByID (db : t) (id : Z) : result User.t :=
  queryRow "Пользователь" (fun u => User.ID u =? id) (users db).

Definition orElse {A : Type} (o : option A) (d : A) : A :=
  match o with Some a => a | None => d end.

Definition UpdateUser (db : t) (id : Z) (firstName lastName helperName photoURL : option string)
           (now : Time) : t :=
  match firstName, lastName, helperName, photoURL with
  | None, None, None, None => db
  | _, _, _, _ =>
      setUsers
        (update (fun u => User.ID u =? id)
           (fun u =>
              {| User.ID := User.ID u; User.Phone := User.Phone u;
                 User.PasswordHash := User.PasswordHash u;
                 User.FirstName := orElse firstName (User.FirstName u);
                 User.LastName := orElse lastName (User.LastName u);
                 User.PhotoURL :=
                   match photoURL with Some p => Some p | None => User.PhotoURL u end;
                 User.Role := User.Role u;
                 User.HelperName :=
                   match helperName with Some h => Some h | None => User.HelperName u end;
                 User.CreatedAt := User.CreatedAt u; User.UpdatedAt := now;
                 User.IsActive := User.IsActive u |})
           (users db))
        db
  end.

(** *** verifications *)

Definition GetVerificationByUserID (db : t) (userID : Z) : result Verification.t :=
  queryRow "Верификация" (fun v => Verification.UserID v =? userID) (verifications db).

(** The INSERT of [CreateVerification]: [user_id] is UNIQUE; the columns
    not listed take their defaults, and the row comes back with the id,
    status and submission time filled in. *)
Definition CreateVerification (db : t) (v : Verification.t) (now : Time)
  : t * result Verification.t :=
  if existsb (fun w => Verification.UserID w =? Verification.UserID v) (verifications db)
  then (db, Err (Other "pq: duplicate key value violates unique constraint"))
  else
    let row :=
      {| Verification.ID := verifications_seq db;
         Verification.UserID := Verification.UserID v;
         Verification.UserPhotoURL := Verification.UserPhotoURL v;
         Verification.LastName := Verification.LastName v;
         Verification.FirstName := Verification.FirstName v;
         Verification.MiddleName := Verification.MiddleName v;
         Verification.BirthDate := Verification.BirthDate v;
         Verification.PassportSeries := Verification.PassportSeries v;
         Verification.PassportNumber := Verification.PassportNumber v;
         Verification.PassportIssuer := Verification.PassportIssuer v;
         Verification.PassportDate := Verification.PassportDate v;
         Verification.DocType := Verification.DocType v;
         Verification.INN := Verification.INN v;
         Verification.SNILS := Verification.SNILS v;
         Verification.PassportScansURLs := Verification.PassportScansURLs v;
         Verification.Consent1 := Verification.Consent1 v;
         Verification.Consent2 := Verification.Consent2 v;
         Verification.Consent3 := Verification.Consent3 v;
         Verification.Status := "pending";
         Verification.SubmittedAt := now;
         Verification.ReviewedAt := None;
         Verification.ReviewedBy := None;
         Verification.RejectionReason := None |} in
    (setVerifications (verifications db ++ [row]) (verifications_seq db + 1) db,
     Ok row).

Definition IsUserVerified (db : t) (userID : Z) : bool :=
  0 <? count (fun v => (Verification.UserID v =? userID)
                       && String.eqb (Verification.Status v) "approved")
         (verifications db).

(** *** posts *)

(** The INSERT of [CreatePost].  [title] is VARCHAR(500), [description]
    TEXT, [recipient] VARCHAR(200), [bank] VARCHAR(100), [phone]
    VARCHAR(20), and [amount] DECIMAL(15,2) with CHECK (amount > 0): a row
    that does not fit is refused.  The columns not listed take their
    defaults; the struct comes back with the generated columns filled in
    and its own fields as they were sent. *)
Definition CreatePost (pg : Server) (db : t) (p : Post.t) (now : Time)
  : t * result Post.t :=
  match varchar pg 500 (Post.Title p), text pg (Post.Description p),
        varchar pg 200 (Post.Recipient p), varchar pg 100 (Post.Bank p),
        varchar pg 20 (Post.Phone p) with
  | Some title, Some description, Some recipient, Some bank, Some phone =>
      if inDecimal (Post.Amount p) && (0 <? Post.Amount p)
      then
        let row :=
          {| Post.ID := posts_seq db; Post.UserID := Post.UserID p;
             Post.Title := title; Post.Description := description;
             Post.Amount := Post.Amount p; Post.Collected := 0;
             Post.Recipient := recipient; Post.Bank := bank;
             Post.Phone := phone; Post.Status := "active";
             Post.CreatedAt := now; Post.UpdatedAt := now; Post.IsEditable := true |} in
        (setPosts (posts db ++ [row]) (posts_seq db + 1) db,
         Ok {| Post.ID := posts_seq db; Post.UserID := Post.UserID p;
               Post.Title := Post.Title p; Post.Description := Post.Description p;
               Post.Amount := Post.Amount p; Post.Collected := 0;
               Post.Recipient := Post.Recipient p; Post.Bank := Post.Bank p;
               Post.Phone := Post.Phone p; Post.Status := "active";
               Post.CreatedAt := now; Post.UpdatedAt := now;
               Post.IsEditable := true |})
      else (db, Err (Other "pq: the row does not fit the columns of posts"))
  | _, _, _, _, _ => (db, Err (Other "pq: the row does not fit the columns of posts"))
  end.

Definition GetPostByID (db : t) (id : Z) : result Post.t :=
  queryRow "Пост" (fun p => Post.ID p =? id) (posts db).

(** The new [collected] of a row fits its column: DECIMAL(15,2) with
    CHECK (collected >= 0). *)
Definition collectedFits (amount : Money) (p : Post.t) : bool :=
  inDecimal (Post.Collected p + amount) && (0 <=? Post.Collected p + amount).

(** [UPDATE posts SET collected = collected + $1, updated_at = NOW() WHERE id = $2].
    When the sum does not fit the column in a row of that id, the statement
    is refused and the table stays as it was.  The Go function returns that
    error; UpdateDonation, its only caller, drops it, so the store is all
    that is modelled. *)
Definition UpdatePostCollected (db : t) (postID : Z) (amount : Money) (now : Time) : t :=
  if forallb (fun p => negb (Post.ID p =? postID) || collectedFits amount p) (posts db)
  then
    setPosts
      (update (fun p => Post.ID p =? postID)
         (fun p =>
            {| Post.ID := Post.ID p; Post.UserID := Post.UserID p;
               Post.Title := Post.Title p; Post.Description := Post.Description p;
               Post.Amount := Post.Amount p; Post.Collected := Post.Collected p + amount;
               Post.Recipient := Post.Recipient p; Post.Bank := Post.Bank p;
               Post.Phone := Post.Phone p; Post.Status := Post.Status p;
               Post.CreatedAt := Post.CreatedAt p; Post.UpdatedAt := now;
               Post.IsEditable := Post.IsEditable p |})
         (posts db))
      (posts_seq db) db
  else db.

(** *** post_media *)

Definition CreatePostMedia (db : t) (postID : Z) (mediaURL mediaType : string)
           (orderIndex : Z) (now : Time) : t * result PostMedia.t :=
  let row :=
    {| PostMedia.ID := post_media_seq db; PostMedia.PostID := postID;
       PostMedia.MediaURL := mediaURL; PostMedia.MediaType := mediaType;
       PostMedia.OrderIndex := orderIndex; PostMedia.CreatedAt := now |} in
  (setPostMedia (post_media db ++ [row]) (post_media_seq db + 1) db, Ok row).

(** [ORDER BY order_index], rows of equal index in insertion order. *)
Fixpoint insertByOrder (m : PostMedia.t) (sorted : list PostMedia.t) : list PostMedia.t :=
  match sorted with
  | [] => [m]
  | x :: rest =>
      if PostMedia.OrderIndex m <? PostMedia.OrderIndex x
      then m :: sorted
      else x :: insertByOrder m rest
  end.

Definition orderByIndex (ms : list PostMedia.t) : list PostMedia.t :=
  fold_left (fun acc m => insertByOrder m acc) ms [].

Definition GetPostMedia (db : t) (postID : Z) : list PostMedia.t :=
  orderByIndex (filter (fun m => PostMedia.PostID m =? postID) (post_media db)).

(** *** donations *)

Definition GetDonationByID (db : t) (id : Z) : result Donation.t :=
  queryRow "Пожертвование" (fun d => Donation.ID d =? id) (donations db).

(** [UPDATE donations SET status = $1, confirmed_at = NOW(), confirmed_by = $2
    WHERE id = $3] *)
Definition reviewed (status : string) (confirmedBy : Z) (now : Time) (d : Donation.t)
  : Donation.t :=
  {| Donation.ID := Donation.ID d; Donation.PostID := Donation.PostID d;
     Donation.DonorID := Donation.DonorID d;
     Donation.Amount := Donation.Amount d;
     Donation.ReceiptURL := Donation.ReceiptURL d;
     Donation.Status := status;
     Donation.ConfirmedAt := Some now;
     Donation.ConfirmedBy := Some confirmedBy;
     Donation.CreatedAt := Donation.CreatedAt d |}.

Definition UpdateDonationStatus (db : t) (id : Z) (status : string) (confirmedBy : Z)
           (now : Time) : t :=
  setDonations
    (update (fun d => Donation.ID d =? id) (reviewed status confirmedBy now)
       (donations db))
    db.

(** *** messages *)

Definition markRead (m : Message.t) : Message.t :=
  {| Message.ID := Message.ID m; Message.ChatID := Message.ChatID m;
     Message.SenderID := Message.SenderID m; Message.Text := Message.Text m;
     Message.AttachmentURL := Message.AttachmentURL m;
     Message.IsRead := true; Message.IsEdited := Message.IsEdited m;
     Message.CreatedAt := Message.CreatedAt m;
     Message.UpdatedAt := Message.UpdatedAt m |}.

(** The WHERE clause of each branch of [MarkMessagesAsRead]. *)
Definition markedRows (chatID : Z) (messageIDs : list Z) (m : Message.t) : bool :=
  match messageIDs with
  | [] => (Message.ChatID m =? chatID) && negb (Message.IsRead m)
  | _ => (Message.ChatID m =? chatID)
         && existsb (fun id => Message.ID m =? id) messageIDs
  end.

(** The new table and [RowsAffected]. *)
Definition MarkMessagesAsRead (db : t) (chatID : Z) (messageIDs : list Z) : t * Z :=
  (setMessages (update (markedRows chatID messageIDs) markRead (messages db)) db,
   count (markedRows chatID messageIDs) (messages db)).

Definition UpdateMessage (db : t) (messageID : Z) (text : string) (now : Time) : t :=
  setMessages
    (update (fun m => Message.ID m =? messageID)
       (fun m =>
          {| Message.ID := Message.ID m; Message.ChatID := Message.ChatID m;
             Message.SenderID := Message.SenderID m; Message.Text := Some text;
             Message.AttachmentURL := Message.AttachmentURL m;
             Message.IsRead := Message.IsRead m; Message.IsEdited := true;
             Message.CreatedAt := Message.CreatedAt m; Message.UpdatedAt := now |})
       (messages db))
    db.

Definition DeleteMessage (db : t) (messageID : Z) : t :=
  setMessages (delete (fun m => Message.ID m =? messageID) (messages db)) db.

(** *** ratings *)

Definition GetOrCreateRating (db : t) (userID : Z) (now : Time) : t * result Rating.t :=
  match find (fun r => Rating.UserID r =? userID) (ratings db) with
  | Some r => (db, Ok r)
  | None =>
      let row :=
        {| Rating.ID := ratings_seq db; Rating.UserID := userID;
           Rating.Points := 0; Rating.TotalDonated := 0;
           Rating.Status := None; Rating.UpdatedAt := now |} in
      (setRatings (ratings db ++ [row]) (ratings_seq db + 1) db, Ok row)
  end.

(** The status computed at the head of [UpdateRating]. *)
Definition ratingStatus (points : Z) : option string :=
  if 5501 <=? points then Some "Пламенное Сердце"
  else if 2501 <=? points then Some "Благотворитель"
  else if 501 <=? points then Some "Хранитель Надежды"
  else if 5 <=? points then Some "Друг Платформы"
  else None.

(** The figures fit their columns: [points] is INTEGER with
    CHECK (points >= 0), [total_donated] DECIMAL(15,2) with
    CHECK (total_donated >= 0). *)
Definition ratingFits (points : Z) (totalDonated : Money) : bool :=
  inInteger points && (0 <=? points) && inDecimal totalDonated && (0 <=? totalDonated).

(** [UPDATE ratings SET points = $1, total_donated = $2, status = $3,
    updated_at = NOW() WHERE user_id = $4].  Figures that do not fit the
    columns are refused, and the table stays as it was.  The Go function
    returns that error; UpdateDonation, its only caller, drops it, so the
    store is all that is modelled. *)
Definition UpdateRating (db : t) (userID : Z) (points : Z) (totalDonated : Money)
           (now : Time) : t :=
  let status := ratingStatus points in
  if ratingFits points totalDonated
  then
    setRatings
      (update (fun r => Rating.UserID r =? userID)
         (fun r =>
            {| Rating.ID := Rating.ID r; Rating.UserID := Rating.UserID r;
               Rating.Points := points; Rating.TotalDonated := totalDonated;
               Rating.Status := status; Rating.UpdatedAt := now |})
         (ratings db))
      (ratings_seq db) db
  else db.

End DB.

(** ** config.go and the JWT helper *)

Record Config := {
  Port : string;
  DatabaseURL : string;
  MinIOConfig : Minio.MinIOConfig;
  JWTSecret : string;
  JWTAccessExpiry : Z;
  JWTRefreshExpiry : Z
}.

Record Claims := {
  ClaimsUserID : Z;
  ClaimsRole : string;
  ExpiresAt : Time;
  IssuedAt : Time
}.

(** ** Requests *)

(** What the middleware left in the request context, and the clock. *)
Record Ctx := {
  CtxUserID : option Z;
  CtxRole : option string;
  Now : Time
}.

Definition GetUserIDFromContext (ctx : Ctx) : result Z :=
  match CtxUserID ctx with
  | Some userID => Ok userID
  | None => Err (App (NewUnauthorizedError "Пользователь не найден в контексте"))
  end.

Definition GetUserRoleFromContext (ctx : Ctx) : result string :=
  match CtxRole ctx with
  | Some role => Ok role
  | None => Err (App (NewUnauthorizedError "Роль не найдена в контексте"))
  end.

Record LoginRequest := { LoginPhone : string; LoginPassword : string }.

Record UpdateProfileRequest := {
  ProfileFirstName : option string;
  ProfileLastName : option string;
  ProfileHelperName : option string
}.

Record UpdateDonationRequest := { DonationStatus : string }.

Record MarkMessagesReadRequest := { MessageIDs : list Z }.

Record UpdateMessageRequest := { MessageText : string }.

Record VerificationRequest := {
  ReqLastName : string;
  ReqFirstName : string;
  ReqMiddleName : option string;
  ReqBirthDate : string;
  ReqPassportSeries : string;
  ReqPassportNumber : string;
  ReqPassportIssuer : string;
  ReqPassportDate : string;
  ReqDocType : string;
  ReqINN : option string;
  ReqSNILS : option string;
  ReqConsent1 : bool;
  ReqConsent2 : bool;
  ReqConsent3 : bool
}.

Record CreatePostRequest := {
  ReqTitle : string;
  ReqDescription : string;
  ReqAmount : Money;
  ReqRecipient : string;
  ReqBank : string;
  ReqPhone : string
}.

Record FileHeader := {
  Filename : string;
  Size : Z;
  ContentType : string;       (* Header.Get("Content-Type") *)
  Opens : bool                (* whether Open() succeeds *)
}.

(** A parsed multipart form: [r.Form] values and [r.MultipartForm.File]. *)
Record MultipartForm := {
  Values : list (string * string);
  Files : list (string * list FileHeader)
}.

(** The outcome of [r.ParseMultipartForm]. *)
Inductive Multipart :=
| ParseFailed (msg : string)
| Parsed (form : MultipartForm).

Definition FormValue (form : MultipartForm) (key : string) : string :=
  match find (fun kv => String.eqb (fst kv) key) (Values form) with
  | Some kv => snd kv
  | None => EmptyString
  end.

Definition FormFiles (form : MultipartForm) (key : string) : option (list FileHeader) :=
  match find (fun kv => String.eqb (fst kv) key) (Files form) with
  | Some kv => Some (snd kv)
  | None => None
  end.

(** [r.FormFile]: the first file under the key, opened. *)
Definition FormFile (form : MultipartForm) (key : string) : option FileHeader :=
  match FormFiles form key with
  | Some (f :: _) => if Opens f then Some f else None
  | _ => None
  end.

Definition getStringPtr (s : string) : option string :=
  if String.eqb s "" then None else Some s.

(** ** validators.go *)

(** One failed tag of [validate.Struct]: the field and the text that
    [getValidationMessage] gives for the tag. *)
Definition fieldError (field message : string) : list (string * string) :=
  [(field, "Поле " ++ field ++ ": " ++ message)].

Definition required (field value : string) : list (string * string) :=
  if String.eqb value "" then fieldError field "обязательное поле" else [].

Definition requiredOneof (field value : string) (allowed : list string)
  : list (string * string) :=
  if String.eqb value "" then fieldError field "обязательное поле"
  else if existsb (String.eqb value) allowed then []
  else fieldError field ("должно быть одним из: " ++ GoStrings.Join allowed " ").

(** [required,gt=0] on an amount. *)
Definition requiredPositive (field : string) (value : Money) : list (string * string) :=
  if value =? 0 then fieldError field "обязательное поле"
  else if 0 <? value then []
  else fieldError field "должно быть больше 0".

(** [ValidateStruct]: the failed fields become the details of one
    validation error (listed here in field order, as the validator reports
    them; [errorBody] writes them as the map they are). *)
Definition ValidateStruct (failed : list (string * string)) : result unit :=
  match failed with
  | [] => Ok tt
  | _ => Err (App (NewValidationError "Ошибка валидации" failed))
  end.

Definition validateLoginRequest (req : LoginRequest) :=
  (required "Phone" (LoginPhone req) ++ required "Password" (LoginPassword req))%list.

Definition validateUpdateDonationRequest (req : UpdateDonationRequest) :=
  requiredOneof "Status" (DonationStatus req) ["confirmed"; "rejected"].

Definition validateUpdateMessageRequest (req : UpdateMessageRequest) :=
  required "Text" (MessageText req).

Definition validateVerificationRequest (req : VerificationRequest) :=
  (required "LastName" (ReqLastName req)
   ++ required "FirstName" (ReqFirstName req)
   ++ required "BirthDate" (ReqBirthDate req)
   ++ required "PassportSeries" (ReqPassportSeries req)
   ++ required "PassportNumber" (ReqPassportNumber req)
   ++ required "PassportIssuer" (ReqPassportIssuer req)
   ++ required "PassportDate" (ReqPassportDate req)
   ++ requiredOneof "DocType" (ReqDocType req) ["inn"; "snils"])%list.

Definition validateCreatePostRequest (req : CreatePostRequest) :=
  (required "Title" (ReqTitle req)
   ++ required "Description" (ReqDescription req)
   ++ requiredPositive "Amount" (ReqAmount req)
   ++ required "Recipient" (ReqRecipient req)
   ++ required "Bank" (ReqBank req)
   ++ required "Phone" (ReqPhone req))%list.

(** [%.0f] of [float64(maxSize) / (1024 * 1024)]: the nearest whole
    number, a tie going to the even one, and "-0" for a negative value
    that rounds to zero.  (The conversion to [float64] and the division by
    2^20 are exact for sizes below 2^53, far above any limit passed.) *)
Definition megabytes (maxSize : Z) : string :=
  let q := maxSize / (1024 * 1024) in
  let r := maxSize mod (1024 * 1024) in
  let n := if 2 * r <? 1024 * 1024 then q
           else if 1024 * 1024 <? 2 * r then q + 1
           else if Z.even q then q else q + 1 in
  if (maxSize <? 0) && (n =? 0) then "-0" else GoStrings.itoa n.

Definition ValidateFileSize (fileHeader : FileHeader) (maxSize : Z) : result unit :=
  if maxSize <? Size fileHeader
  then Err (App (NewFileTooLargeError (megabytes maxSize ++ "MB")))
  else Ok tt.

Definition ValidateImageFile (fileHeader : FileHeader) : result unit :=
  let ext := GoStrings.ToLower (GoStrings.Ext (Filename fileHeader)) in
  if existsb (String.eqb ext) [".jpg"; ".jpeg"; ".png"; ".webp"] then Ok tt
  else Err (App (NewUnsupportedMediaError
                   "Разрешенные форматы изображений: JPEG, PNG, WebP")).

Definition ValidateMediaFile (fileHeader : FileHeader) : result unit :=
  let ext := GoStrings.ToLower (GoStrings.Ext (Filename fileHeader)) in
  if existsb (String.eqb ext) [".jpg"; ".jpeg"; ".png"; ".webp"; ".mp4"; ".webm"]
  then Ok tt
  else Err (App (NewUnsupportedMediaError
                   "Разрешенные форматы медиа: JPEG, PNG, WebP, MP4, WebM")).

Definition ParseMultipartForm (body : Multipart) : result MultipartForm :=
  match body with
  | Parsed form => Ok form
  | ParseFailed msg =>
      Err (App (NewValidationError "Ошибка парсинга формы" [("error", msg)]))
  end.

(** utils.go *)
Definition FormatPhone (phone : string) : string :=
  let phone := GoStrings.ReplaceAll phone " "%char "" in
  let phone := GoStrings.ReplaceAll phone "-"%char "" in
  let phone := GoStrings.ReplaceAll phone "("%char "" in
  GoStrings.ReplaceAll phone ")"%char "".

(** minio.go *)
Definition getExtensionFromContentType (contentType : string) : string :=
  let contentType := GoStrings.ToLower contentType in
  if GoStrings.Contains contentType "jpeg" || GoStrings.Contains contentType "jpg"
  then ".jpg"
  else if GoStrings.Contains contentType "png" then ".png"
  else if GoStrings.Contains contentType "webp" then ".webp"
  else if GoStrings.Contains contentType "mp4" then ".mp4"
  else if GoStrings.Contains contentType "webm" then ".webm"
  else if GoStrings.Contains contentType "pdf" then ".pdf"
  else ".bin".

(** ** The handler monad

    A handler runs against the store and either has written its response
    (every later statement is skipped, as after Go's [return]) or goes on
    with a value. *)

Inductive step (A : Type) :=
| Reply (r : Response)
| Next (a : A).
Arguments Reply {A} r.
Arguments Next {A} a.

Definition H (A : Type) := DB.t -> DB.t * step A.

Definition ret {A : Type} (a : A) : H A := fun db => (db, Next a).

Definition bind {A B : Type} (m : H A) (k : A -> H B) : H B :=
  fun db =>
    match m db with
    | (db', Reply r) => (db', Reply r)
    | (db', Next a) => k a db'
    end.

Declare Scope handler_scope.
Delimit Scope handler_scope with handler.
Notation "x <- m ;; k" := (bind m (fun x => k))
  (at level 61, m at next level, right associativity) : handler_scope.
Notation "m ;;; k" := (bind m (fun _ => k))
  (at level 61, right associativity) : handler_scope.

(** [WriteJSON(...)] or [WriteError(...)] followed by the end of the handler. *)
Definition reply {A : Type} (r : Response) : H A := fun db => (db, Reply r).

(** [if err != nil { WriteError(w, err); return }] *)
Definition try {A : Type} (r : result A) : H A :=
  match r with
  | Ok a => ret a
  | Err e => reply (WriteError e)
  end.

(** [if err != nil { WriteError(w, <a fixed error>); return }] *)
Definition tryOr {A : Type} (r : result A) (e : AppError) : H A :=
  match r with
  | Ok a => ret a
  | Err _ => reply (WriteError (App e))
  end.

(** [json.NewDecoder(r.Body).Decode(&req)]: [None] is a body that does not decode. *)
Definition decode {A : Type} (body : option A) : H A :=
  match body with
  | Some req => ret req
  | None => reply (WriteError (App (NewValidationError "Неверный формат запроса" [])))
  end.

(** [strconv.ParseInt(vars[...])]: [None] is a path variable that is not an int64. *)
Definition pathID (v : option Z) (message : string) : H Z :=
  match v with
  | Some id => ret id
  | None => reply (WriteError (App (NewValidationError message [])))
  end.

Definition query {A : Type} (f : DB.t -> A) : H A := fun db => (db, Next (f db)).

Definition exec (f : DB.t -> DB.t) : H unit := fun db => (f db, Next tt).

Definition call {A : Type} (f : DB.t -> DB.t * A) : H A :=
  fun db => let (db', a) := f db in (db', Next a).

(** Running a handler.  One that returns without writing gets net/http's
    implicit 200 with an empty body. *)
Definition serve (h : H unit) (db : DB.t) : DB.t * Response :=
  match h db with
  | (db', Reply r) => (db', r)
  | (db', Next _) => (db', {| StatusCode := StatusOK; Body := None |})
  end.

(** ** handlers.go *)

Module Handlers.
Section Collaborators.
Local Open Scope handler_scope.

(** The libraries behind the handlers: bcrypt, the JWT signer, Go's
    number and date parsers, and the object store's PutObject. *)
Variable CompareHashAndPassword : string -> string -> bool.
Variable SignedString : Claims -> string -> result string.
Variable ParseFloat : string -> Money.
Variable time_Parse : string -> string -> option Time.
Variable PutObject : string -> string -> FileHeader -> bool.

Variable cfg : Config.

(** The database server's treatment of texts. *)
Variable pg : DB.Server.

(** utils.go *)
Definition CheckPassword (password hash : string) : bool :=
  CompareHashAndPassword hash password.

Definition GenerateToken (now : Time) (userID : Z) (role : string) (isRefresh : bool)
  : result string :=
  let expiry := if isRefresh then JWTRefreshExpiry cfg else JWTAccessExpiry cfg in
  let claims :=
    {| ClaimsUserID := userID; ClaimsRole := role;
       ExpiresAt := now + expiry; IssuedAt := now |} in
  match SignedString claims (JWTSecret cfg) with
  | Ok tokenString => Ok tokenString
  | Err _ => Err (Other "failed to sign token")
  end.

(** The photo_url rewrite shared by GetProfile and UpdateProfile. *)
Definition proxiedPhoto (user : User.t) : User.t :=
  match User.PhotoURL user with
  | Some url =>
      if negb (String.eqb url "")
      then User.withPhotoURL (Some (Minio.ConvertMinIOURLToBackendURL url)) user
      else user
  | None => user
  end.

Definition Login (body : option LoginRequest) (ctx : Ctx) : H unit :=
  req <- decode body ;;
  try (ValidateStruct (validateLoginRequest req)) ;;;
  let phone := FormatPhone (LoginPhone req) in
  found <- query (fun db => DB.GetUserByPhone db phone) ;;
  user <- tryOr found (NewUnauthorizedError "Неверные учетные данные") ;;
  if negb (CheckPassword (LoginPassword req) (User.PasswordHash user))
  then reply (WriteError (App (NewUnauthorizedError "Неверные учетные данные")))
  else if negb (User.IsActive user)
  then reply (WriteError (App (NewForbiddenError "Аккаунт деактивирован")))
  else
    token <- tryOr (GenerateToken (Now ctx) (User.ID user) (User.Role user) false)
                   (NewInternalError "Ошибка генерации токена") ;;
    let user := User.withPasswordHash "" user in
    reply (WriteJSON StatusOK (Json.ofLoginResponse (User.ID user) token user)).

Definition GetProfile (ctx : Ctx) : H unit :=
  userID <- try (GetUserIDFromContext ctx) ;;
  found <- query (fun db => DB.GetUserByID db userID) ;;
  user <- try found ;;
  let user := User.withPasswordHash "" user in
  let user := proxiedPhoto user in
  reply (WriteJSON StatusOK (Json.ofUser user)).

Definition UpdateProfile (body : option UpdateProfileRequest) (ctx : Ctx) : H unit :=
  userID <- try (GetUserIDFromContext ctx) ;;
  req <- decode body ;;
  exec (fun db => DB.UpdateUser db userID (ProfileFirstName req) (ProfileLastName req)
                    (ProfileHelperName req) None (Now ctx)) ;;;
  found <- query (fun db => DB.GetUserByID db userID) ;;
  user <- try found ;;
  let user := User.withPasswordHash "" user in
  let user := proxiedPhoto user in
  reply (WriteJSON StatusOK (Json.ofUser user)).

(** The author block of GetPost: first and last name, no helper name. *)
Definition authorInfo (author : result User.t) : option UserInfo.t :=
  match author with
  | Ok a =>
      Some {| UserInfo.ID := User.ID a;
              UserInfo.Name := User.FirstName a ++ " " ++ User.LastName a;
              UserInfo.Avatar := User.PhotoURL a |}
  | Err _ => None
  end.

(** The donor block of GetDonation: the helper name wins when set. *)
Definition donorInfo (donor : result User.t) : option UserInfo.t :=
  match donor with
  | Ok d =>
      let name := User.FirstName d ++ " " ++ User.LastName d in
      let name := match User.HelperName d with Some h => h | None => name end in
      Some {| UserInfo.ID := User.ID d; UserInfo.Name := name;
              UserInfo.Avatar := User.PhotoURL d |}
  | Err _ => None
  end.

Definition postInfo (post : result Post.t) : option PostInfo.t :=
  match post with
  | Ok p =>
      Some {| PostInfo.ID := Post.ID p; PostInfo.Title := Post.Title p;
              PostInfo.Amount := Post.Amount p;
              PostInfo.Collected := Post.Collected p |}
  | Err _ => None
  end.

Definition GetPost (id : option Z) : H unit :=
  postID <- pathID id "Неверный ID поста" ;;
  found <- query (fun db => DB.GetPostByID db postID) ;;
  post <- try found ;;
  author <- query (fun db => DB.GetUserByID db (Post.UserID post)) ;;
  media <- query (fun db => DB.GetPostMedia db (Post.ID post)) ;;
  reply (WriteJSON StatusOK (Json.ofPostWithDetails post (authorInfo author) media)).

Definition GetDonation (id : option Z) : H unit :=
  donationID <- pathID id "Неверный ID пожертвования" ;;
  found <- query (fun db => DB.GetDonationByID db donationID) ;;
  donation <- try found ;;
  donor <- query (fun db => DB.GetUserByID db (Donation.DonorID donation)) ;;
  post <- query (fun db => DB.GetPostByID db (Donation.PostID donation)) ;;
  reply (WriteJSON StatusOK
           (Json.ofDonationWithDetails donation (donorInfo donor) (postInfo post))).

(** *** Verification *)

Definition UploadVerificationDoc (verificationID : Z) (filename : string)
           (file : FileHeader) (contentType : string) : result string :=
  let ext := GoStrings.Ext filename in
  let ext := if String.eqb ext "" then getExtensionFromContentType contentType else ext in
  let objectKey :=
    "verifications/" ++ GoStrings.itoa verificationID ++ "/" ++ filename ++ ext in
  if PutObject Minio.BucketVerificationDocs objectKey file then Ok objectKey
  else Err (Other "failed to upload verification doc").

(** The loop over the passport scans; any failure ends the handler. *)
Fixpoint uploadScans (i : Z) (files : list FileHeader) : H (list string) :=
  match files with
  | [] => ret []
  | fileHeader :: rest =>
      if negb (Opens fileHeader)
      then reply (WriteError (App (NewInternalError "Ошибка чтения файла")))
      else
        try (ValidateImageFile fileHeader) ;;;
        objectKey <- tryOr (UploadVerificationDoc 0 ("passport_scan_" ++ GoStrings.itoa i)
                              fileHeader (ContentType fileHeader))
                           (NewInternalError "Ошибка загрузки скана") ;;
        let url := Minio.GetObjectURL (MinIOConfig cfg) Minio.BucketVerificationDocs
                     objectKey in
        urls <- uploadScans (i + 1) rest ;;
        ret (url :: urls)
  end.

Definition CreateVerification (body : Multipart) (ctx : Ctx) : H unit :=
  userID <- try (GetUserIDFromContext ctx) ;;
  (* existing, _ := h.db.GetVerificationByUserID(userID); if existing != nil *)
  existing <- query (fun db => DB.GetVerificationByUserID db userID) ;;
  match existing with
  | Ok _ => reply (WriteError (App (NewConflictError "Заявка на верификацию уже подана")))
  | Err _ =>
      form <- try (ParseMultipartForm body) ;;
      let req :=
        {| ReqLastName := FormValue form "last_name";
           ReqFirstName := FormValue form "first_name";
           ReqMiddleName := getStringPtr (FormValue form "middle_name");
           ReqBirthDate := FormValue form "birth_date";
           ReqPassportSeries := FormValue form "passport_series";
           ReqPassportNumber := FormValue form "passport_number";
           ReqPassportIssuer := FormValue form "passport_issuer";
           ReqPassportDate := FormValue form "passport_date";
           ReqDocType := FormValue form "doc_type";
           ReqINN := getStringPtr (FormValue form "inn");
           ReqSNILS := getStringPtr (FormValue form "snils");
           ReqConsent1 := String.eqb (FormValue form "consent1") "true";
           ReqConsent2 := String.eqb (FormValue form "consent2") "true";
           ReqConsent3 := String.eqb (FormValue form "consent3") "true" |} in
      try (ValidateStruct (validateVerificationRequest req)) ;;;
      birthDate <-
        match time_Parse "2006-01-02" (ReqBirthDate req) with
        | Some t => ret t
        | None => reply (WriteError (App (NewValidationError
                     "Неверный формат даты рождения" [("field", "birth_date")])))
        end ;;
      passportDate <-
        match time_Parse "2006-01-02" (ReqPassportDate req) with
        | Some t => ret t
        | None => reply (WriteError (App (NewValidationError
                     "Неверный формат даты выдачи паспорта" [("field", "passport_date")])))
        end ;;
      userPhotoURL <-
        match FormFile form "user_photo" with
        | Some header =>
            try (ValidateImageFile header) ;;;
            objectKey <- tryOr (UploadVerificationDoc 0 "user_photo" header
                                  (ContentType header))
                               (NewInternalError "Ошибка загрузки фото") ;;
            ret (Some (Minio.GetObjectURL (MinIOConfig cfg)
                         Minio.BucketVerificationDocs objectKey))
        | None => ret None
        end ;;
      passportScans <-
        match FormFiles form "passport_scans" with
        | Some files =>
            if (List.length files <? 2)%nat
            then reply (WriteError (App (NewValidationError
                          "Необходимо загрузить минимум 2 страницы паспорта" [])))
            else uploadScans 0 files
        | None => ret []
        end ;;
      let verification :=
        {| Verification.ID := 0; Verification.UserID := userID;
           Verification.UserPhotoURL := userPhotoURL;
           Verification.LastName := ReqLastName req;
           Verification.FirstName := ReqFirstName req;
           Verification.MiddleName := ReqMiddleName req;
           Verification.BirthDate := birthDate;
           Verification.PassportSeries := ReqPassportSeries req;
           Verification.PassportNumber := ReqPassportNumber req;
           Verification.PassportIssuer := ReqPassportIssuer req;
           Verification.PassportDate := passportDate;
           Verification.DocType := ReqDocType req;
           Verification.INN := ReqINN req; Verification.SNILS := ReqSNILS req;
           Verification.PassportScansURLs := passportScans;
           Verification.Consent1 := ReqConsent1 req;
           Verification.Consent2 := ReqConsent2 req;
           Verification.Consent3 := ReqConsent3 req;
           Verification.Status := ""; Verification.SubmittedAt := 0;
           Verification.ReviewedAt := None; Verification.ReviewedBy := None;
           Verification.RejectionReason := None |} in
      created <- call (fun db => DB.CreateVerification db verification (Now ctx)) ;;
      verification <- try created ;;
      reply (WriteJSON StatusCreated
               (Json.Obj [("id", Json.Int (Verification.ID verification));
                          ("message", Json.Str "Заявка на верификацию подана");
                          ("status", Json.Str (Verification.Status verification));
                          ("submitted_at",
                           Json.Timestamp (Verification.SubmittedAt verification));
                          ("user_id", Json.Int (Verification.UserID verification))]))
  end.

(** *** Posts *)

Definition UploadPostMedia (postID index : Z) (file : FileHeader) (contentType : string)
  : result string :=
  let ext := getExtensionFromContentType contentType in
  let objectKey :=
    "posts/" ++ GoStrings.itoa postID ++ "/media_" ++ GoStrings.itoa index ++ ext in
  if PutObject Minio.BucketPostMedia objectKey file then Ok objectKey
  else Err (Other "failed to upload post media").

(** One turn of the media loop of CreatePost: a file that cannot be
    opened, is too large, has the wrong type or fails to upload is
    skipped. *)
Definition attachMedia (postID : Z) (now : Time) (i : Z) (fileHeader : FileHeader)
  : H unit :=
  if negb (Opens fileHeader) then ret tt
  else
    match ValidateFileSize fileHeader (10 * 2 ^ 20), ValidateMediaFile fileHeader with
    | Ok _, Ok _ =>
        let ext := GoStrings.ToLower (GoStrings.Ext (Filename fileHeader)) in
        let mediaType :=
          if GoStrings.Contains ext "mp4" || GoStrings.Contains ext "webm"
          then "video" else "image" in
        match UploadPostMedia postID i fileHeader (ContentType fileHeader) with
        | Ok objectKey =>
            let mediaURL :=
              Minio.GetObjectURL (MinIOConfig cfg) Minio.BucketPostMedia objectKey in
            exec (fun db => fst (DB.CreatePostMedia db postID mediaURL mediaType i now))
        | Err _ => ret tt
        end
    | _, _ => ret tt
    end.

Fixpoint attachAll (postID : Z) (now : Time) (i : Z) (files : list FileHeader) : H unit :=
  match files with
  | [] => ret tt
  | fileHeader :: rest =>
      if 10 <=? i then ret tt      (* at most 10 files *)
      else attachMedia postID now i fileHeader ;;; attachAll postID now (i + 1) rest
  end.

(** The form fields of CreatePost read into the request struct. *)
Definition createPostRequest (form : MultipartForm) : CreatePostRequest :=
  {| ReqTitle := FormValue form "title";
     ReqDescription := FormValue form "description";
     ReqAmount := ParseFloat (FormValue form "amount");
     ReqRecipient := FormValue form "recipient";
     ReqBank := FormValue form "bank";
     ReqPhone := FormValue form "phone" |}.

Definition CreatePost (body : Multipart) (ctx : Ctx) : H unit :=
  userID <- try (GetUserIDFromContext ctx) ;;
  verified <- query (fun db => DB.IsUserVerified db userID) ;;
  if negb verified
  then reply (WriteError (App (NewForbiddenError "Пользователь не верифицирован")))
  else
    form <- try (ParseMultipartForm body) ;;
    let req := createPostRequest form in
    try (ValidateStruct (validateCreatePostRequest req)) ;;;
    let post :=
      {| Post.ID := 0; Post.UserID := userID; Post.Title := ReqTitle req;
         Post.Description := ReqDescription req; Post.Amount := ReqAmount req;
         Post.Collected := 0; Post.Recipient := ReqRecipient req;
         Post.Bank := ReqBank req; Post.Phone := ReqPhone req;
         Post.Status := ""; Post.CreatedAt := 0; Post.UpdatedAt := 0;
         Post.IsEditable := false |} in
    created <- call (fun db => DB.CreatePost pg db post (Now ctx)) ;;
    post <- try created ;;
    match FormFiles form "media" with
    | Some files => attachAll (Post.ID post) (Now ctx) 0 files
    | None => ret tt
    end ;;;
    reply (WriteJSON StatusCreated
             (Json.Obj [("amount", Json.Decimal (Post.Amount post));
                        ("collected", Json.Decimal (Post.Collected post));
                        ("created_at", Json.Timestamp (Post.CreatedAt post));
                        ("description", Json.Str (Post.Description post));
                        ("id", Json.Int (Post.ID post));
                        ("status", Json.Str (Post.Status post));
                        ("title", Json.Str (Post.Title post));
                        ("user_id", Json.Int (Post.UserID post))])).

(** *** Donations *)

(** Go's [int(amount)] on a [float64]: the fraction is cut off. *)
Definition intOfAmount (amount : Money) : Z := Z.quot amount 100.

Definition UpdateDonation (id : option Z) (body : option UpdateDonationRequest)
           (ctx : Ctx) : H unit :=
  donationID <- pathID id "Неверный ID пожертвования" ;;
  userID <- try (GetUserIDFromContext ctx) ;;
  let userRole := match GetUserRoleFromContext ctx with Ok r => r | Err _ => "" end in
  found <- query (fun db => DB.GetDonationByID db donationID) ;;
  donation <- try found ;;
  (* admin or the post's author *)
  foundPost <- query (fun db => DB.GetPostByID db (Donation.PostID donation)) ;;
  post <- try foundPost ;;
  if negb (String.eqb userRole "admin") && negb (Post.UserID post =? userID)
  then reply (WriteError (App (NewForbiddenError "Недостаточно прав")))
  else
    req <- decode body ;;
    try (ValidateStruct (validateUpdateDonationRequest req)) ;;;
    exec (fun db => DB.UpdateDonationStatus db donationID (DonationStatus req) userID
                      (Now ctx)) ;;;
    (if String.eqb (DonationStatus req) "confirmed"
     then
       exec (fun db => DB.UpdatePostCollected db (Donation.PostID donation)
                         (Donation.Amount donation) (Now ctx)) ;;;
       rating <- call (fun db => DB.GetOrCreateRating db (Donation.DonorID donation)
                                   (Now ctx)) ;;
       match rating with
       | Ok rating =>
           let newPoints := Rating.Points rating + intOfAmount (Donation.Amount donation) in
           let newTotalDonated := Rating.TotalDonated rating + Donation.Amount donation in
           exec (fun db => DB.UpdateRating db (Donation.DonorID donation) newPoints
                             newTotalDonated (Now ctx))
       | Err _ => ret tt
       end
     else ret tt) ;;;
    again <- query (fun db => DB.GetDonationByID db donationID) ;;
    match again with
    | Ok donation =>
        reply (WriteJSON StatusOK (Json.ofDonationUpdate donation))
    | Err _ =>
        (* a nil dereference, answered by RecoverMiddleware *)
        reply (WriteError (App (NewInternalError "Внутренняя ошибка сервера")))
    end.

(** *** Messages *)

Definition MarkMessagesRead (id : option Z) (contentLength : Z)
           (body : option MarkMessagesReadRequest) : H unit :=
  chatID <- pathID id "Неверный ID чата" ;;
  req <- (if 0 <? contentLength then decode body else ret {| MessageIDs := [] |}) ;;
  count <- call (fun db => DB.MarkMessagesAsRead db chatID (MessageIDs req)) ;;
  reply (WriteJSON StatusOK
           (Json.Obj [("message", Json.Str "Сообщения отмечены как прочитанные");
                      ("updated_count", Json.Int count)])).

Definition UpdateMessage (id message_id : option Z) (body : option UpdateMessageRequest)
           (ctx : Ctx) : H unit :=
  pathID id "Неверный ID чата" ;;;
  messageID <- pathID message_id "Неверный ID сообщения" ;;
  try (GetUserIDFromContext ctx) ;;;
  (* the ownership check is left out: "Пока пропускаем проверку" *)
  req <- decode body ;;
  try (ValidateStruct (validateUpdateMessageRequest req)) ;;;
  exec (fun db => DB.UpdateMessage db messageID (MessageText req) (Now ctx)) ;;;
  reply (WriteJSON StatusOK
           (Json.Obj [("id", Json.Int messageID); ("is_edited", Json.Bool true);
                      ("text", Json.Str (MessageText req));
                      ("updated_at", Json.Timestamp (Now ctx))])).

Definition DeleteMessage (message_id : option Z) (ctx : Ctx) : H unit :=
  messageID <- pathID message_id "Неверный ID сообщения" ;;
  try (GetUserIDFromContext ctx) ;;;
  (* the rights check is left out: "Пока пропускаем" *)
  exec (fun db => DB.DeleteMessage db messageID) ;;;
  reply {| StatusCode := StatusNoContent; Body := None |}.

(** *** Pagination

    The head of each list handler: [page] and [limit] are what
    [strconv.Atoi] returned for the query parameters (0 when the
    parameter is absent or malformed); the pair is what the handler
    passes to the gateway and echoes in the pagination envelope. *)

Definition GetVerificationsPaging (page limit : Z) : Z * Z :=
  let page := if page <? 1 then 1 else page in
  let limit := if limit <? 1 then 20 else limit in
  (page, limit).

Definition GetPostsPaging (page limit : Z) : Z * Z :=
  let page := if page <? 1 then 1 else page in
  let limit := if limit <? 1 then 20 else limit in
  (page, limit).

Definition GetDonationsPaging (page limit : Z) : Z * Z :=
  let page := if page <? 1 then 1 else page in
  let limit := if limit <? 1 then 20 else limit in
  (page, limit).

Definition GetMessagesPaging (page limit : Z) : Z * Z :=
  let page := if page <? 1 then 1 else page in
  let limit := if limit <? 1 then 50 else limit in
  let limit := if 100 <? limit then 100 else limit in
  (page, limit).

Definition GetRatingsPaging (page limit : Z) : Z * Z :=
  let page := if page <? 1 then 1 else page in
  let limit := if limit <? 1 then 50 else limit in
  (page, limit).

End Collaborators.
End Handlers.

(** ** Vocabulary of the donation properties *)

(** What UpdateDonation does to the store once the status is written and
    the request asked for "confirmed". *)
Definition confirmCascade (db : DB.t) (d : Donation.t) (now : Time) : DB.t :=
  let db := DB.UpdatePostCollected db (Donation.PostID d) (Donation.Amount d) now in
  let (db, rating) := DB.GetOrCreateRating db (Donation.DonorID d) now in
  match rating with
  | Ok rating =>
      DB.UpdateRating db (Donation.DonorID d)
        (Rating.Points rating + Handlers.intOfAmount (Donation.Amount d))
        (Rating.TotalDonated rating + Donation.Amount d) now
  | Err _ => db
  end.

(** The authorised actors of a donation review: an admin or the post's owner. *)
Definition mayReview (ctx : Ctx) (post : Post.t) (userID : Z) : Prop :=
  CtxRole ctx = Some "admin" \/ Post.UserID post = userID.

(** A user's rating row, and its figures counted as zero while there is none. *)
Definition ratingOf (db : DB.t) (userID : Z) : option Rating.t :=
  find (fun r => Rating.UserID r =? userID) (DB.ratings db).

Definition pointsOf (r : option Rating.t) : Z :=
  match r with Some r => Rating.Points r | None => 0 end.

Definition totalOf (r : option Rating.t) : Money :=
  match r with Some r => Rating.TotalDonated r | None => 0 end.

(** ** Vocabulary of the verification and message properties *)

(** The user has a verification record (of whatever status). *)
Definition hasVerification (db : DB.t) (userID : Z) : Prop :=
  exists v, In v (DB.verifications db) /\ Verification.UserID v = userID.

(** The user's verification is approved. *)
Definition approved (db : DB.t) (userID : Z) : Prop :=
  exists v, In v (DB.verifications db)
            /\ Verification.UserID v = userID
            /\ Verification.Status v = "approved".

(** A message of the chat that has not been read. *)
Definition unreadIn (chatID : Z) (m : Message.t) : bool :=
  (Message.ChatID m =? chatID) && negb (Message.IsRead m).

(** A message of the chat whose id is in the list. *)
Definition listedIn (chatID : Z) (ids : list Z) (m : Message.t) : bool :=
  (Message.ChatID m =? chatID) && existsb (fun id => Message.ID m =? id) ids.

(** [after] is [before] with exactly the selected rows marked read, row by row. *)
Definition marks (selected : Message.t -> bool) (before after : list Message.t) : Prop :=
  Forall2 (fun m m' => m' = if selected m then DB.markRead m else m) before after.

(** ** Vocabulary of the password-hash property *)

(** The store with every password hash blanked: two stores with the same
    image differ in stored hashes only. *)
Definition scrub (db : DB.t) : DB.t :=
  DB.setUsers (map (User.withPasswordHash "") (DB.users db)) db.

(** Whether the login request finds its user and bcrypt accepts the
    password against the stored hash. *)
Definition passwordAccepted (CompareHashAndPassword : string -> string -> bool)
           (db : DB.t) (body : option LoginRequest) : bool :=
  match body with
  | Some req =>
      match DB.GetUserByPhone db (FormatPhone (LoginPhone req)) with
      | Ok user =>
          Handlers.CheckPassword CompareHashAndPassword (LoginPassword req)
            (User.PasswordHash user)
      | Err _ => false
      end
  | None => false
  end.

Definition mapResult {A B : Type} (f : A -> B) (r : result A) : result B :=
  match r with
  | Ok a => Ok (f a)
  | Err e => Err e
  end.

(** ** The tier table in the words of the specification

    Unset below 5 points, then one tier per range, each range closed at
    its lower end.  Compared with [DB.ratingStatus] below. *)


(** ** A small store used to run the handlers on concrete requests *)

Module Sample.
(** An object-store configuration with the defaults of [NewConfig]. *)
Definition minio (useSSL : bool) (endpoint : string) : Minio.MinIOConfig :=
  {| Minio.Endpoint := endpoint; Minio.AccessKeyID := "minioadmin";
     Minio.SecretAccessKey := "minioadmin"; Minio.UseSSL := useSSL;
     Minio.BucketName := "files"; Minio.Region := "us-east-1" |}.

Definition ivan : User.t :=
  {| User.ID := 1; User.Phone := "+79990000001";
     User.PasswordHash := "$2a$10$ivanivanivanivanivaniv";
     User.FirstName := "Ivan"; User.LastName := "Petrov";
     User.PhotoURL := Some "http://minio/user-photos/users/1/photo.jpg";
     User.Role := "user"; User.HelperName := None;
     User.CreatedAt := 1700000000; User.UpdatedAt := 1700000000;
     User.IsActive := true |}.

Definition olga : User.t :=
  {| User.ID := 2; User.Phone := "+79990000002";
     User.PasswordHash := "$2a$10$olgaolgaolgaolgaolgaol";
     User.FirstName := "Olga"; User.LastName := "Sidorova";
     User.PhotoURL := None;
     User.Role := "helper"; User.HelperName := Some "Good Helper";
     User.CreatedAt := 1700000100; User.UpdatedAt := 1700000100;
     User.IsActive := true |}.

Definition admin : User.t :=
  {| User.ID := 3; User.Phone := "+79990000003";
     User.PasswordHash := "$2a$10$adminadminadminadminad";
     User.FirstName := "Anna"; User.LastName := "Admin";
     User.PhotoURL := None;
     User.Role := "admin"; User.HelperName := None;
     User.CreatedAt := 1700000200; User.UpdatedAt := 1700000200;
     User.IsActive := true |}.

Definition verification (id userID : Z) (status : string) : Verification.t :=
  {| Verification.ID := id; Verification.UserID := userID;
     Verification.UserPhotoURL := None;
     Verification.LastName := "Petrov"; Verification.FirstName := "Ivan";
     Verification.MiddleName := None; Verification.BirthDate := 631152000;
     Verification.PassportSeries := "4510"; Verification.PassportNumber := "123456";
     Verification.PassportIssuer := "OVD"; Verification.PassportDate := 1262304000;
     Verification.DocType := "inn"; Verification.INN := Some "770000000000";
     Verification.SNILS := None; Verification.PassportScansURLs := [];
     Verification.Consent1 := true; Verification.Consent2 := true;
     Verification.Consent3 := true; Verification.Status := status;
     Verification.SubmittedAt := 1700001000; Verification.ReviewedAt := None;
     Verification.ReviewedBy := None; Verification.RejectionReason := None |}.

(** A campaign of Ivan: target 1000.00, collected 50.00. *)
Definition post : Post.t :=
  {| Post.ID := 10; Post.UserID := 1; Post.Title := "Help";
     Post.Description := "Treatment"; Post.Amount := 100000;
     Post.Collected := 5000; Post.Recipient := "Ivan Petrov";
     Post.Bank := "Bank"; Post.Phone := "+79990000001"; Post.Status := "active";
     Post.CreatedAt := 1700002000; Post.UpdatedAt := 1700002000;
     Post.IsEditable := true |}.

(** Olga's pledge of 25.70, not yet reviewed. *)
Definition pending : Donation.t :=
  {| Donation.ID := 100; Donation.PostID := 10; Donation.DonorID := 2;
     Donation.Amount := 2570; Donation.ReceiptURL := None;
     Donation.Status := "pending"; Donation.ConfirmedAt := None;
     Donation.ConfirmedBy := None; Donation.CreatedAt := 1700003000 |}.

(** Olga's earlier donation of 50.00, already confirmed by Ivan. *)
Definition confirmed : Donation.t :=
  {| Donation.ID := 101; Donation.PostID := 10; Donation.DonorID := 2;
     Donation.Amount := 5000; Donation.ReceiptURL := None;
     Donation.Status := "confirmed"; Donation.ConfirmedAt := Some 1700003500;
     Donation.ConfirmedBy := Some 1; Donation.CreatedAt := 1700003100 |}.

Definition message (id chatID senderID : Z) (text : string) (isRead : bool)
  : Message.t :=
  {| Message.ID := id; Message.ChatID := chatID; Message.SenderID := senderID;
     Message.Text := Some text; Message.AttachmentURL := None;
     Message.IsRead := isRead; Message.IsEdited := false;
     Message.CreatedAt := 1700004000; Message.UpdatedAt := 1700004000 |}.

Definition rating : Rating.t :=
  {| Rating.ID := 1; Rating.UserID := 2; Rating.Points := 50;
     Rating.TotalDonated := 5000; Rating.Status := Some "Друг Платформы";
     Rating.UpdatedAt := 1700003500 |}.

Definition db : DB.t :=
  {| DB.users := [ivan; olga; admin];
     DB.verifications := [verification 1 1 "approved"; verification 2 2 "pending"];
     DB.posts := [post];
     DB.post_media := [];
     DB.donations := [pending; confirmed];
     DB.messages := [message 1000 5 1 "hello" false;
                     message 1001 5 2 "hi" true;
                     message 1002 6 2 "other chat" false];
     DB.ratings := [rating];
     DB.verifications_seq := 3; DB.posts_seq := 11;
     DB.post_media_seq := 1; DB.ratings_seq := 2 |}.

(** The same store after every password was changed. *)
Definition rehashed : DB.t :=
  DB.setUsers (map (User.withPasswordHash "$2a$10$changedchangedchangedc") (DB.users db))
    db.

Definition postForm : MultipartForm :=
  {| Values := [("title", "Help"); ("description", "Treatment");
                ("amount", "1000.00"); ("recipient", "Ivan Petrov");
                ("bank", "Bank"); ("phone", "+79990000001")];
     Files := [] |}.

(** A stand-in for [strconv.ParseFloat] that knows the one amount used. *)
Definition parseFloat (s : string) : Money :=
  if String.eqb s "1000.00" then 100000 else 0.

Definition asUser (userID : Z) (role : string) : Ctx :=
  {| CtxUserID := Some userID; CtxRole := Some role; Now := 1700009000 |}.

Definition cfg : Config :=
  {| Port := "8080"; DatabaseURL := "postgres://localhost/app";
     MinIOConfig := minio false "localhost:9000";
     JWTSecret := "secret"; JWTAccessExpiry := 86400; JWTRefreshExpiry := 604800 |}.

(** The server as the sample texts meet it: all of them are well encoded,
    and whatever is longer than its column is refused. *)
Definition pg : DB.Server :=
  {| DB.wellEncoded := fun _ => true; DB.overlong := fun _ _ => None |}.
End Sample.

(** * Further code of the repository

    The rest of the files the properties above draw on: the token helper,
    the middleware, the remaining validators and gateway queries, and the
    handlers around them. *)

(** ** jwt.go and the middleware *)

Module Auth.

Definition bearerPrefix : string := "Bearer ".

(** [authHeader[:n]] and [authHeader[n:]] *)
Definition sliceTo (s : string) (n : nat) : string := substring 0 n s.
Definition sliceFrom (s : string) (n : nat) : string :=
  substring n (String.length s - n) s.

Definition ExtractTokenFromHeader (authHeader : string) : result string :=
  if String.eqb authHeader "" then Err (Other "authorization header is missing")
  else if (String.length authHeader <? String.length bearerPrefix)%nat
          || negb (String.eqb (sliceTo authHeader (String.length bearerPrefix))
                     bearerPrefix)
  then Err (Other "authorization header must start with Bearer")
  else Ok (sliceFrom authHeader (String.length bearerPrefix)).

End Auth.

(** ** validators.go and utils.go, the remaining checks *)

Definition ValidateVideoFile (fileHeader : FileHeader) : result unit :=
  let ext := GoStrings.ToLower (GoStrings.Ext (Filename fileHeader)) in
  if existsb (String.eqb ext) [".mp4"; ".webm"] then Ok tt
  else Err (App (NewUnsupportedMediaError "Разрешенные форматы видео: MP4, WebM")).

Definition ValidateDocumentFile (fileHeader : FileHeader) : result unit :=
  let ext := GoStrings.ToLower (GoStrings.Ext (Filename fileHeader)) in
  if existsb (String.eqb ext) [".pdf"; ".jpg"; ".jpeg"; ".png"] then Ok tt
  else Err (App (NewUnsupportedMediaError
                   "Разрешенные форматы документов: PDF, JPEG, PNG")).

(** [len(phone)] counts bytes. *)
Definition ValidatePhoneNumber (phone : string) : result unit :=
  let phone := FormatPhone phone in
  if (String.length phone <? 10)%nat || (20 <? String.length phone)%nat
  then Err (App (NewValidationError "Неверный формат телефона" [("field", "phone")]))
  else Ok tt.

(** The media type that CreatePost and AddPostMedia give a file. *)
Definition mediaTypeOf (fileHeader : FileHeader) : string :=
  let ext := GoStrings.ToLower (GoStrings.Ext (Filename fileHeader)) in
  if GoStrings.Contains ext "mp4" || GoStrings.Contains ext "webm"
  then "video" else "image".

(** ** Pagination arithmetic on Go's 64-bit [int] *)

Definition wrap64 (z : Z) : Z := (z + 2 ^ 63) mod 2 ^ 64 - 2 ^ 63.

(** [totalPages := (total + limit - 1) / limit] *)
Definition totalPages (total limit : Z) : Z :=
  Z.quot (wrap64 (wrap64 (total + limit) - 1)) limit.

(** ** The database gateway, further queries *)

Module Gateway.

(** [SELECT COUNT( * ) FROM messages WHERE chat_id = $1 AND sender_id != $2
    AND is_read = false] *)
Definition GetUnreadCount (db : DB.t) (chatID userID : Z) : Z :=
  DB.count (fun m => (Message.ChatID m =? chatID)
                     && negb (Message.SenderID m =? userID)
                     && negb (Message.IsRead m))
    (DB.messages db).

(** [SELECT COUNT( * ) + 1 FROM ratings WHERE points > (SELECT points FROM
    ratings WHERE user_id = $1)].  Without a row of the user the inner
    query is NULL, no row compares greater, and the position is 1. *)
Definition GetRatingPosition (db : DB.t) (userID : Z) : Z :=
  match find (fun r => Rating.UserID r =? userID) (DB.ratings db) with
  | Some own => DB.count (fun r => Rating.Points own <? Rating.Points r) (DB.ratings db) + 1
  | None => 1
  end.

(** [UPDATE users SET password_hash = $1, updated_at = NOW() WHERE id = $2] *)
Definition UpdateUserPassword (db : DB.t) (id : Z) (passwordHash : string) (now : Time)
  : DB.t :=
  DB.setUsers
    (DB.update (fun u => User.ID u =? id)
       (fun u =>
          {| User.ID := User.ID u; User.Phone := User.Phone u;
             User.PasswordHash := passwordHash;
             User.FirstName := User.FirstName u; User.LastName := User.LastName u;
             User.PhotoURL := User.PhotoURL u; User.Role := User.Role u;
             User.HelperName := User.HelperName u;
             User.CreatedAt := User.CreatedAt u; User.UpdatedAt := now;
             User.IsActive := User.IsActive u |})
       (DB.users db))
    db.


(** [UpdatePost]: the fields given, and [updated_at]; nothing at all when no
    field is given. *)
Definition UpdatePost (db : DB.t) (id : Z) (title description : option string)
           (amount : option Money) (recipient bank phone : option string) (now : Time)
  : DB.t :=
  match title, description, amount, recipient, bank, phone with
  | None, None, None, None, None, None => db
  | _, _, _, _, _, _ =>
      DB.setPosts
        (DB.update (fun p => Post.ID p =? id)
           (fun p =>
              {| Post.ID := Post.ID p; Post.UserID := Post.UserID p;
                 Post.Title := DB.orElse title (Post.Title p);
                 Post.Description := DB.orElse description (Post.Description p);
                 Post.Amount := DB.orElse amount (Post.Amount p);
                 Post.Collected := Post.Collected p;
                 Post.Recipient := DB.orElse recipient (Post.Recipient p);
                 Post.Bank := DB.orElse bank (Post.Bank p);
                 Post.Phone := DB.orElse phone (Post.Phone p);
                 Post.Status := Post.Status p;
                 Post.CreatedAt := Post.CreatedAt p; Post.UpdatedAt := now;
                 Post.IsEditable := Post.IsEditable p |})
           (DB.posts db))
        (DB.posts_seq db) db
  end.

(** [DELETE FROM post_media WHERE id = $1] *)
Definition DeletePostMedia (db : DB.t) (mediaID : Z) : DB.t :=
  DB.setPostMedia (DB.delete (fun m => PostMedia.ID m =? mediaID) (DB.post_media db))
    (DB.post_media_seq db) db.

(** *** Inserts into users and donations

    [DB.t] carries no sequence for these two tables: the id that
    [BIGSERIAL] hands out is an input of the insert, like the clock. *)

(** The INSERT of [CreateUser].  [phone] is VARCHAR(20) and UNIQUE,
    [password_hash] VARCHAR(255), [first_name] and [last_name]
    VARCHAR(100): a text that does not fit is refused with an error that
    is passed on wrapped, a phone already there with the Conflict error.
    The columns not listed take their defaults, and the row comes back
    without the password hash. *)
Definition CreateUser (pg : DB.Server) (db : DB.t) (id : Z)
           (phone passwordHash firstName lastName : string) (now : Time)
  : DB.t * result User.t :=
  match DB.varchar pg 20 phone, DB.varchar pg 255 passwordHash,
        DB.varchar pg 100 firstName, DB.varchar pg 100 lastName with
  | Some phone, Some passwordHash, Some firstName, Some lastName =>
      if existsb (fun u => String.eqb (User.Phone u) phone) (DB.users db)
      then (db, Err (App (NewConflictError
                            "Пользователь с таким телефоном уже существует")))
      else
        let row :=
          {| User.ID := id; User.Phone := phone; User.PasswordHash := passwordHash;
             User.FirstName := firstName; User.LastName := lastName;
             User.PhotoURL := None; User.Role := "user"; User.HelperName := None;
             User.CreatedAt := now; User.UpdatedAt := now; User.IsActive := true |} in
        (DB.setUsers (DB.users db ++ [row]) db, Ok (User.withPasswordHash "" row))
  | _, _, _, _ => (db, Err (Other "failed to create user: pq: value too long"))
  end.

(** The INSERT of [CreateDonation].  [amount] is DECIMAL(15,2) with
    CHECK (amount > 0) and [receipt_url] VARCHAR(500): a row that does not
    fit is refused.  Id, status and creation time are written back into
    the struct, whose other fields stay as they were sent. *)
Definition CreateDonation (pg : DB.Server) (db : DB.t) (id : Z) (d : Donation.t)
           (now : Time) : DB.t * result Donation.t :=
  let receiptURL :=
    match Donation.ReceiptURL d with
    | Some url => option_map Some (DB.varchar pg 500 url)
    | None => Some None
    end in
  match receiptURL with
  | Some receiptURL =>
      if DB.inDecimal (Donation.Amount d) && (0 <? Donation.Amount d)
      then
        let row :=
          {| Donation.ID := id; Donation.PostID := Donation.PostID d;
             Donation.DonorID := Donation.DonorID d; Donation.Amount := Donation.Amount d;
             Donation.ReceiptURL := receiptURL; Donation.Status := "pending";
             Donation.ConfirmedAt := None; Donation.ConfirmedBy := None;
             Donation.CreatedAt := now |} in
        (DB.setDonations (DB.donations db ++ [row]) db,
         Ok {| Donation.ID := id; Donation.PostID := Donation.PostID d;
               Donation.DonorID := Donation.DonorID d;
               Donation.Amount := Donation.Amount d;
               Donation.ReceiptURL := Donation.ReceiptURL d;
               Donation.Status := "pending";
               Donation.ConfirmedAt := Donation.ConfirmedAt d;
               Donation.ConfirmedBy := Donation.ConfirmedBy d;
               Donation.CreatedAt := now |})
      else (db, Err (Other "pq: the row does not fit the columns of donations"))
  | None => (db, Err (Other "pq: the row does not fit the columns of donations"))
  end.

End Gateway.

(** ** Vocabulary of the frame properties *)

(** A post row that differs at most in the collected amount and the update
    time, and a donation row that differs at most in its review fields. *)
Definition samePostButCollected (p p' : Post.t) : Prop :=
  Post.ID p' = Post.ID p /\ Post.UserID p' = Post.UserID p
  /\ Post.Title p' = Post.Title p /\ Post.Description p' = Post.Description p
  /\ Post.Amount p' = Post.Amount p /\ Post.Recipient p' = Post.Recipient p
  /\ Post.Bank p' = Post.Bank p /\ Post.Phone p' = Post.Phone p
  /\ Post.Status p' = Post.Status p /\ Post.CreatedAt p' = Post.CreatedAt p
  /\ Post.IsEditable p' = Post.IsEditable p.

Definition sameDonationButReview (d d' : Donation.t) : Prop :=
  Donation.ID d' = Donation.ID d /\ Donation.PostID d' = Donation.PostID d
  /\ Donation.DonorID d' = Donation.DonorID d /\ Donation.Amount d' = Donation.Amount d
  /\ Donation.ReceiptURL d' = Donation.ReceiptURL d
  /\ Donation.CreatedAt d' = Donation.CreatedAt d.

(** ** jwt.go: token validation *)

(** The signing method found in a token's header, as the key callback of
    [ValidateToken] sees it. *)
Inductive SigningMethod :=
| SigningMethodHMAC
| SigningMethodOther (alg : string).

Module Middleware.
Section Collaborators.
Local Open Scope handler_scope.

(** [jwt.ParseWithClaims]: the token string and the key callback give the
    claims and [token.Valid], or an error. *)
Variable ParseWithClaims :
  string -> (SigningMethod -> result string) -> result (Claims * bool).
Variable cfg : Config.

Definition ValidateToken (tokenString : string) : result Claims :=
  let keyFunc method :=
    match method with
    | SigningMethodHMAC => Ok (JWTSecret cfg)
    | SigningMethodOther alg => Err (Other ("unexpected signing method: " ++ alg))
    end in
  match ParseWithClaims tokenString keyFunc with
  | Err _ => Err (Other "failed to parse token")
  | Ok (claims, valid) =>
      if valid then Ok claims else Err (Other "invalid token")
  end.

(** middleware.go.  A handler takes the request context; the middleware
    reads the Authorization header and extends the context. *)
Definition JWTAuthMiddleware (next : Ctx -> H unit) (authHeader : string) (ctx : Ctx)
  : H unit :=
  match Auth.ExtractTokenFromHeader authHeader with
  | Err _ => reply (WriteError (App (NewUnauthorizedError "Не авторизован")))
  | Ok tokenString =>
      match ValidateToken tokenString with
      | Err _ => reply (WriteError (App (NewUnauthorizedError "Неверный токен")))
      | Ok claims =>
          next {| CtxUserID := Some (ClaimsUserID claims);
                  CtxRole := Some (ClaimsRole claims);
                  Now := Now ctx |}
      end
  end.

Definition RoleMiddleware (roles : list string) (next : Ctx -> H unit) (ctx : Ctx)
  : H unit :=
  match CtxRole ctx with
  | None => reply (WriteError (App (NewUnauthorizedError "Роль не найдена")))
  | Some userRole =>
      let hasRole := existsb (String.eqb userRole) roles in
      if negb hasRole
      then reply (WriteError (App (NewForbiddenError "Недостаточно прав")))
      else next ctx
  end.

(** main.go: the [protected] subrouter and its [adminOnly] subrouter. *)
Definition protected (next : Ctx -> H unit) : string -> Ctx -> H unit :=
  JWTAuthMiddleware next.

Definition adminOnly (next : Ctx -> H unit) : string -> Ctx -> H unit :=
  JWTAuthMiddleware (RoleMiddleware ["admin"] next).

End Collaborators.
End Middleware.

(** ** handlers.go, further endpoints *)

Record ChangePasswordRequest := { OldPassword : string; NewPassword : string }.


Record UpdatePostRequest := {
  PatchTitle : option string;
  PatchDescription : option string;
  PatchAmount : option Money;
  PatchRecipient : option string;
  PatchBank : option string;
  PatchPhone : option string
}.

Record RegisterRequest := {
  RegPhone : string;
  RegPassword : string;
  RegFirstName : string;
  RegLastName : string
}.

Record CreateDonationRequest := { DonationPostID : Z; DonationAmount : Money }.

(** [required] on an int64. *)
Definition requiredID (field : string) (value : Z) : list (string * string) :=
  if value =? 0 then fieldError field "обязательное поле" else [].

Definition validateCreateDonationRequest (req : CreateDonationRequest) :=
  (requiredID "PostID" (DonationPostID req)
   ++ requiredPositive "Amount" (DonationAmount req))%list.

(** [WriteSuccess] *)
Definition WriteSuccess (status : Z) (message : string) : Response :=
  WriteJSON status (Json.Obj [("message", Json.Str message)]).

Definition GetFileFromForm (form : MultipartForm) (fieldName : string)
  : result FileHeader :=
  match FormFile form fieldName with
  | Some header => Ok header
  | None => Err (App (NewValidationError "Файл не найден" [("field", fieldName)]))
  end.


Module Api.
Section Collaborators.
Local Open Scope handler_scope.

(** bcrypt, the JWT library, the validator's string length (a count of
    runes) and its verdict on the optional amount of a post update, the
    object store, and Go's number parsers (0 for a string that does not
    parse, as the handlers drop the error). *)
Variable CompareHashAndPassword : string -> string -> bool.
Variable GenerateFromPassword : string -> result string.
Variable SignedString : Claims -> string -> result string.
Variable ParseWithClaims :
  string -> (SigningMethod -> result string) -> result (Claims * bool).
Variable RuneCountInString : string -> Z.
Variable validateUpdatePostRequest : UpdatePostRequest -> list (string * string).
Variable PutObject : string -> string -> FileHeader -> bool.
Variable ParseInt : string -> Z.
Variable ParseFloat : string -> Money.

Variable cfg : Config.

(** The database server's treatment of texts. *)
Variable pg : DB.Server.

(** utils.go *)
Definition HashPassword (password : string) : result string :=
  match GenerateFromPassword password with
  | Ok bytes => Ok bytes
  | Err _ => Err (Other "failed to hash password")
  end.

(** [required,min=6] on a string. *)
Definition requiredMin (field value : string) (min : Z) : list (string * string) :=
  if String.eqb value "" then fieldError field "обязательное поле"
  else if RuneCountInString value <? min
  then fieldError field ("минимальная длина: " ++ GoStrings.itoa min)
  else [].

Definition validateChangePasswordRequest (req : ChangePasswordRequest) :=
  (required "OldPassword" (OldPassword req)
   ++ requiredMin "NewPassword" (NewPassword req) 6)%list.

Definition validateRegisterRequest (req : RegisterRequest) :=
  (required "Phone" (RegPhone req)
   ++ requiredMin "Password" (RegPassword req) 6
   ++ required "FirstName" (RegFirstName req)
   ++ required "LastName" (RegLastName req))%list.

(** *** Registration *)

Definition Register (nextID : Z) (body : option RegisterRequest) (ctx : Ctx) : H unit :=
  req <- decode body ;;
  try (ValidateStruct (validateRegisterRequest req)) ;;;
  try (ValidatePhoneNumber (RegPhone req)) ;;;
  let phone := FormatPhone (RegPhone req) in
  passwordHash <- tryOr (HashPassword (RegPassword req))
                        (NewInternalError "Ошибка обработки пароля") ;;
  created <- call (fun db => Gateway.CreateUser pg db nextID phone passwordHash
                               (RegFirstName req) (RegLastName req) (Now ctx)) ;;
  user <- try created ;;
  token <- tryOr (Handlers.GenerateToken SignedString cfg (Now ctx) (User.ID user)
                    (User.Role user) false)
                 (NewInternalError "Ошибка генерации токена") ;;
  reply (WriteJSON StatusCreated
           (Json.Obj [("user_id", Json.Int (User.ID user));
                      ("token", Json.Str token);
                      ("message", Json.Str "Пользователь успешно зарегистрирован")])).

(** *** Tokens *)

Definition RefreshToken (authHeader : string) (ctx : Ctx) : H unit :=
  tokenString <- tryOr (Auth.ExtractTokenFromHeader authHeader)
                       (NewUnauthorizedError "Токен не найден") ;;
  claims <- tryOr (Middleware.ValidateToken ParseWithClaims cfg tokenString)
                  (NewUnauthorizedError "Неверный токен") ;;
  found <- query (fun db => DB.GetUserByID db (ClaimsUserID claims)) ;;
  user <- tryOr found (NewUnauthorizedError "Пользователь не найден") ;;
  newToken <- tryOr (Handlers.GenerateToken SignedString cfg (Now ctx) (User.ID user)
                       (User.Role user) false)
                    (NewInternalError "Ошибка генерации токена") ;;
  reply (WriteJSON StatusOK (Json.Obj [("token", Json.Str newToken)])).

(** *** Profile *)

Definition UploadUserPhoto (userID : Z) (file : FileHeader) (contentType : string)
  : result string :=
  let ext := getExtensionFromContentType contentType in
  let objectKey := "users/" ++ GoStrings.itoa userID ++ "/photo" ++ ext in
  if PutObject Minio.BucketUserPhotos objectKey file then Ok objectKey
  else Err (Other "failed to upload user photo").

Definition UploadPhoto (body : Multipart) (ctx : Ctx) : H unit :=
  userID <- try (GetUserIDFromContext ctx) ;;
  form <- try (ParseMultipartForm body) ;;
  header <- try (GetFileFromForm form "photo") ;;
  try (ValidateFileSize header (5 * 2 ^ 20)) ;;;
  try (ValidateImageFile header) ;;;
  objectKey <- tryOr (UploadUserPhoto userID header (ContentType header))
                     (NewInternalError "Ошибка загрузки фото") ;;
  let photoURL := Minio.GetObjectURL (MinIOConfig cfg) Minio.BucketUserPhotos objectKey in
  exec (fun db => DB.UpdateUser db userID None None None (Some photoURL) (Now ctx)) ;;;
  let backendURL := Minio.ConvertMinIOURLToBackendURL photoURL in
  reply (WriteJSON StatusOK (Json.Obj [("photo_url", Json.Str backendURL)])).

Definition ChangePassword (body : option ChangePasswordRequest) (ctx : Ctx) : H unit :=
  userID <- try (GetUserIDFromContext ctx) ;;
  req <- decode body ;;
  try (ValidateStruct (validateChangePasswordRequest req)) ;;;
  found <- query (fun db => DB.GetUserByID db userID) ;;
  user <- try found ;;
  if negb (Handlers.CheckPassword CompareHashAndPassword (OldPassword req)
             (User.PasswordHash user))
  then reply (WriteError (App (NewUnauthorizedError "Неверный старый пароль")))
  else
    newPasswordHash <- tryOr (HashPassword (NewPassword req))
                             (NewInternalError "Ошибка обработки пароля") ;;
    exec (fun db => Gateway.UpdateUserPassword db userID newPasswordHash (Now ctx)) ;;;
    reply (WriteSuccess StatusOK "Пароль успешно изменен").

(** *** Verification *)


(** *** Posts *)

Definition UpdatePost (id : option Z) (body : option UpdatePostRequest) (ctx : Ctx)
  : H unit :=
  postID <- pathID id "Неверный ID поста" ;;
  userID <- try (GetUserIDFromContext ctx) ;;
  found <- query (fun db => DB.GetPostByID db postID) ;;
  post <- try found ;;
  if negb (Post.UserID post =? userID)
  then reply (WriteError (App (NewForbiddenError "Недостаточно прав")))
  else
    req <- decode body ;;
    try (ValidateStruct (validateUpdatePostRequest req)) ;;;
    exec (fun db => Gateway.UpdatePost db postID (PatchTitle req) (PatchDescription req)
                      (PatchAmount req) (PatchRecipient req) (PatchBank req)
                      (PatchPhone req) (Now ctx)) ;;;
    again <- query (fun db => DB.GetPostByID db postID) ;;
    match again with
    | Ok post =>
        reply (WriteJSON StatusOK
                 (Json.Obj [("id", Json.Int (Post.ID post));
                            ("title", Json.Str (Post.Title post));
                            ("updated_at", Json.Timestamp (Post.UpdatedAt post))]))
    | Err _ =>
        (* a nil dereference, answered by RecoverMiddleware *)
        reply (WriteError (App (NewInternalError "Внутренняя ошибка сервера")))
    end.

Definition AddPostMedia (id : option Z) (body : Multipart) (ctx : Ctx) : H unit :=
  postID <- pathID id "Неверный ID поста" ;;
  userID <- try (GetUserIDFromContext ctx) ;;
  found <- query (fun db => DB.GetPostByID db postID) ;;
  post <- try found ;;
  if negb (Post.UserID post =? userID)
  then reply (WriteError (App (NewForbiddenError "Недостаточно прав")))
  else
    form <- try (ParseMultipartForm body) ;;
    header <- try (GetFileFromForm form "media") ;;
    try (ValidateFileSize header (10 * 2 ^ 20)) ;;;
    try (ValidateMediaFile header) ;;;
    media <- query (fun db => DB.GetPostMedia db postID) ;;
    let orderIndex := Z.of_nat (List.length media) in
    let mediaType := mediaTypeOf header in
    objectKey <- tryOr (Handlers.UploadPostMedia PutObject postID orderIndex header
                          (ContentType header))
                       (NewInternalError "Ошибка загрузки медиа") ;;
    let mediaURL := Minio.GetObjectURL (MinIOConfig cfg) Minio.BucketPostMedia objectKey in
    created <- call (fun db => DB.CreatePostMedia db postID mediaURL mediaType orderIndex
                                 (Now ctx)) ;;
    postMedia <- try created ;;
    reply (WriteJSON StatusCreated (Json.ofPostMedia postMedia)).

Definition DeletePostMedia (id media_id : option Z) (ctx : Ctx) : H unit :=
  postID <- pathID id "Неверный ID поста" ;;
  mediaID <- pathID media_id "Неверный ID медиа" ;;
  userID <- try (GetUserIDFromContext ctx) ;;
  found <- query (fun db => DB.GetPostByID db postID) ;;
  post <- try found ;;
  if negb (Post.UserID post =? userID)
  then reply (WriteError (App (NewForbiddenError "Недостаточно прав")))
  else
    exec (fun db => Gateway.DeletePostMedia db mediaID) ;;;
    reply {| StatusCode := StatusNoContent; Body := None |}.

(** *** Donations *)

Definition UploadDonationReceipt (donationID : Z) (file : FileHeader)
           (contentType : string) : result string :=
  let ext := getExtensionFromContentType contentType in
  let objectKey := "donations/" ++ GoStrings.itoa donationID ++ "/receipt" ++ ext in
  if PutObject Minio.BucketDonationReceipts objectKey file then Ok objectKey
  else Err (Other "failed to upload donation receipt").

(** The map that CreateDonation answers with (keys in the encoder's order). *)
Definition donationCreated (d : Donation.t) : Json.value :=
  Json.Obj [("amount", Json.Decimal (Donation.Amount d));
            ("created_at", Json.Timestamp (Donation.CreatedAt d));
            ("donor_id", Json.Int (Donation.DonorID d));
            ("id", Json.Int (Donation.ID d));
            ("post_id", Json.Int (Donation.PostID d));
            ("receipt_url", Json.nullable Json.Str (Donation.ReceiptURL d));
            ("status", Json.Str (Donation.Status d))].

Definition withReceiptURL (url : option string) (d : Donation.t) : Donation.t :=
  {| Donation.ID := Donation.ID d; Donation.PostID := Donation.PostID d;
     Donation.DonorID := Donation.DonorID d; Donation.Amount := Donation.Amount d;
     Donation.ReceiptURL := url; Donation.Status := Donation.Status d;
     Donation.ConfirmedAt := Donation.ConfirmedAt d;
     Donation.ConfirmedBy := Donation.ConfirmedBy d;
     Donation.CreatedAt := Donation.CreatedAt d |}.

Definition CreateDonation (nextID : Z) (body : Multipart) (ctx : Ctx) : H unit :=
  userID <- try (GetUserIDFromContext ctx) ;;
  form <- try (ParseMultipartForm body) ;;
  let req := {| DonationPostID := ParseInt (FormValue form "post_id");
                DonationAmount := ParseFloat (FormValue form "amount") |} in
  try (ValidateStruct (validateCreateDonationRequest req)) ;;;
  found <- query (fun db => DB.GetPostByID db (DonationPostID req)) ;;
  tryOr found (NewNotFoundError "Пост") ;;;
  let donation :=
    {| Donation.ID := 0; Donation.PostID := DonationPostID req;
       Donation.DonorID := userID; Donation.Amount := DonationAmount req;
       Donation.ReceiptURL := None; Donation.Status := "";
       Donation.ConfirmedAt := None; Donation.ConfirmedBy := None;
       Donation.CreatedAt := 0 |} in
  match FormFile form "receipt" with
  | Some header =>
      try (ValidateFileSize header (10 * 2 ^ 20)) ;;;
      try (ValidateDocumentFile header) ;;;
      (* the row is created first, to have its id for the object key *)
      created <- call (fun db => Gateway.CreateDonation pg db nextID donation (Now ctx)) ;;
      donation <- try created ;;
      objectKey <- tryOr (UploadDonationReceipt (Donation.ID donation) header
                            (ContentType header))
                         (NewInternalError "Ошибка загрузки чека") ;;
      let receiptURL :=
        Minio.GetObjectURL (MinIOConfig cfg) Minio.BucketDonationReceipts objectKey in
      (* set on the struct only: "нужно добавить функцию UpdateDonationReceiptURL" *)
      let donation := withReceiptURL (Some receiptURL) donation in
      reply (WriteJSON StatusCreated (donationCreated donation))
  | None =>
      created <- call (fun db => Gateway.CreateDonation pg db nextID donation (Now ctx)) ;;
      donation <- try created ;;
      reply (WriteJSON StatusCreated (donationCreated donation))
  end.

(** *** Ratings *)

Definition GetMyRating (ctx : Ctx) : H unit :=
  userID <- try (GetUserIDFromContext ctx) ;;
  created <- call (fun db => DB.GetOrCreateRating db userID (Now ctx)) ;;
  rating <- try created ;;
  position <- query (fun db => Gateway.GetRatingPosition db userID) ;;
  reply (WriteJSON StatusOK
           (Json.Obj ([("id", Json.Int (Rating.ID rating));
                       ("user_id", Json.Int (Rating.UserID rating));
                       ("points", Json.Int (Rating.Points rating));
                       ("total_donated", Json.Decimal (Rating.TotalDonated rating))]
                      ++ Json.omitempty "status" Json.Str (Rating.Status rating)
                      ++ [("updated_at", Json.Timestamp (Rating.UpdatedAt rating));
                          ("position", Json.Int position)]))).

End Collaborators.
End Api.

(** A user row that differs at most in the password hash and the update time. *)
Definition sameUserButPassword (u u' : User.t) : Prop :=
  User.ID u' = User.ID u /\ User.Phone u' = User.Phone u
  /\ User.FirstName u' = User.FirstName u /\ User.LastName u' = User.LastName u
  /\ User.PhotoURL u' = User.PhotoURL u /\ User.Role u' = User.Role u
  /\ User.HelperName u' = User.HelperName u /\ User.CreatedAt u' = User.CreatedAt u
  /\ User.IsActive u' = User.IsActive u.

(** * Properties *)

(** ** Strings *)

Section SplitJoin.
Import GoStrings.
Variable sep : ascii.

Lemma Contains_char_cons (c : ascii) (s : string) :
  Contains (String c s) (String sep EmptyString)
  = Ascii.eqb c sep || Contains s (String sep EmptyString).
Proof.
  cbn [Contains String.prefix].
  destruct (ascii_dec sep c) as [->|Hne].
  - rewrite Ascii.eqb_refl. destruct s; reflexivity.
  - assert (Ascii.eqb c sep = false) as ->.
    { apply Ascii.eqb_neq. congruence. }
    reflexivity.
Qed.

Lemma Contains_char_nil : Contains EmptyString (String sep EmptyString) = false.
Proof. reflexivity. Qed.

Lemma Contains_char_app (a b : string) :
  Contains (a ++ String sep b) (String sep EmptyString) = true.
Proof.
  induction a as [|c a IH].
  - cbn [append]. rewrite Contains_char_cons, Ascii.eqb_refl. reflexivity.
  - cbn [append]. rewrite Contains_char_cons, IH. apply orb_true_r.
Qed.

Lemma Split_nonempty (s : string) : Split s sep <> [].
Proof.
  induction s as [|c s IH]; cbn [Split]; [discriminate|].
  destruct (Ascii.eqb c sep); [discriminate|].
  destruct (Split s sep); [contradiction|discriminate].
Qed.

Lemma Split_app (a b : string) :
  Contains a (String sep EmptyString) = false ->
  Split (a ++ String sep b) sep = a :: Split b sep.
Proof.
  induction a as [|c a IH]; intros Hno.
  - cbn [append Split]. rewrite Ascii.eqb_refl. reflexivity.
  - rewrite Contains_char_cons in Hno.
    apply orb_false_iff in Hno as [Hc Ha].
    cbn [append Split]. rewrite Hc, (IH Ha). reflexivity.
Qed.

Lemma Contains_char_prefix (a b : string) :
  Contains (a ++ b) (String sep EmptyString) = false ->
  Contains a (String sep EmptyString) = false.
Proof.
  induction a as [|c a IH]; intros Hno; [reflexivity|].
  cbn [append] in Hno. rewrite Contains_char_cons in *.
  apply orb_false_iff in Hno as [Hc Ha]. rewrite Hc, (IH Ha). reflexivity.
Qed.

(** The first piece of a split is a prefix of the string. *)
Lemma Split_hd_prefix (s : string) :
  exists rest, s = hd EmptyString (Split s sep) ++ rest.
Proof.
  induction s as [|c s [rest IH]].
  - exists EmptyString. reflexivity.
  - cbn [Split]. destruct (Ascii.eqb c sep).
    + exists (String c s). reflexivity.
    + pose proof (Split_nonempty s) as Hne.
      destruct (Split s sep) as [|p ps]; [contradiction|].
      cbn [hd] in *. exists rest. cbn [append]. now rewrite <- IH.
Qed.

Lemma concat_cons_nonempty (d x : string) (l : list string) :
  l <> [] -> String.concat d (x :: l) = x ++ d ++ String.concat d l.
Proof. destruct l; [contradiction|reflexivity]. Qed.

Lemma Join_Split (s : string) : Join (Split s sep) (String sep EmptyString) = s.
Proof.
  unfold Join.
  induction s as [|c s IH]; [reflexivity|].
  pose proof (Split_nonempty s) as Hne.
  cbn [Split]. destruct (Ascii.eqb c sep) eqn:Hc.
  - apply Ascii.eqb_eq in Hc. subst c.
    rewrite (concat_cons_nonempty _ _ _ Hne), IH. reflexivity.
  - destruct (Split s sep) as [|p ps]; [contradiction|].
    destruct ps as [|q qs].
    + cbn [String.concat] in *. now rewrite IH.
    + rewrite concat_cons_nonempty in * by discriminate.
      rewrite <- IH. reflexivity.
Qed.

End SplitJoin.

(** ** Object URLs (minio.go) *)

Section ObjectURL.
Import GoStrings Minio.

Lemma isBucket_inv (b : string) :
  isBucket b = true ->
  b = BucketUserPhotos \/ b = BucketVerificationDocs \/ b = BucketPostMedia
  \/ b = BucketDonationReceipts \/ b = BucketChatAttachments.
Proof.
  unfold isBucket. rewrite !orb_true_iff, !String.eqb_eq. tauto.
Qed.

Lemma storedHost_no_slash (endpoint : string) :
  Contains endpoint "/" = false -> Contains (storedHost endpoint) "/" = false.
Proof.
  intros Hno. unfold storedHost.
  destruct (Contains endpoint ":"); [|exact Hno].
  destruct (Split_hd_prefix ":"%char endpoint) as [rest Hrest].
  rewrite Hrest in Hno. now apply Contains_char_prefix in Hno.
Qed.

Lemma findBucket_host (host : string) (rest : list string) :
  findBucket 2 (host :: rest) = findBucket 3 rest.
Proof.
  cbn [findBucket]. change (Nat.ltb 2 3) with true. rewrite orb_true_r.
  now destruct (_ || _).
Qed.

Lemma Convert_stored (scheme host bucket objectKey : string) :
  scheme = "http" \/ scheme = "https" ->
  Contains host "/" = false ->
  isBucket bucket = true ->
  ConvertMinIOURLToBackendURL
    (scheme ++ "://" ++ host ++ "/" ++ bucket ++ "/" ++ objectKey)
  = "/files/" ++ bucket ++ "/" ++ objectKey.
Proof.
  intros Hs Hhost Hb.
  assert (Hparts :
    Split (scheme ++ "://" ++ host ++ "/" ++ bucket ++ "/" ++ objectKey) "/"%char
    = (scheme ++ ":") :: "" :: host :: bucket :: Split objectKey "/"%char).
  { assert (Hbk : Contains bucket "/" = false).
    { apply isBucket_inv in Hb.
      destruct Hb as [->|[->|[->|[->| ->]]]]; reflexivity. }
    assert (Hsch : Contains (scheme ++ ":") "/" = false).
    { destruct Hs as [->| ->]; reflexivity. }
    replace (scheme ++ "://" ++ host ++ "/" ++ bucket ++ "/" ++ objectKey)
      with ((scheme ++ ":") ++ String "/"%char
              ("" ++ String "/"%char
                 (host ++ String "/"%char (bucket ++ String "/"%char objectKey))))
      by (destruct Hs as [->| ->]; reflexivity).
    rewrite !Split_app; auto. }
  unfold ConvertMinIOURLToBackendURL.
  assert (Hne : String.eqb
                  (scheme ++ "://" ++ host ++ "/" ++ bucket ++ "/" ++ objectKey) ""
                = false) by (destruct Hs as [->| ->]; reflexivity).
  assert (Hpre : HasPrefix
                   (scheme ++ "://" ++ host ++ "/" ++ bucket ++ "/" ++ objectKey)
                   "/files/" = false) by (destruct Hs as [->| ->]; reflexivity).
  rewrite Hne, Hpre. cbv zeta. rewrite Hparts.
  assert (Hfind : findBucket 0 ((scheme ++ ":") :: "" :: host :: bucket
                                  :: Split objectKey "/"%char) = Some 3%nat).
  { replace (findBucket 0 ((scheme ++ ":") :: "" :: host :: bucket
                             :: Split objectKey "/"%char))
      with (findBucket 2 (host :: bucket :: Split objectKey "/"%char))
      by (destruct Hs as [->| ->]; reflexivity).
    rewrite findBucket_host.
    apply isBucket_inv in Hb.
    destruct Hb as [->|[->|[->|[->| ->]]]]; reflexivity. }
  rewrite Hfind. cbn [nth skipn]. rewrite Join_Split. reflexivity.
Qed.

End ObjectURL.

Example convert_localhost_9000 :
  Minio.ConvertMinIOURLToBackendURL
    (Minio.GetObjectURL (Sample.minio false "localhost:9000")
       "user-photos" "users/1/photo.jpg")
  = "/files/user-photos/users/1/photo.jpg".
Proof. reflexivity. Qed.

(** C7. For each of the five buckets, both schemes and every endpoint that
    has no slash in it (a host, a host and a port), the reference stored by
    [GetObjectURL] is normalised by [ConvertMinIOURLToBackendURL] to exactly
    [/files/{bucket}/{objectKey}], whatever the object key. *)
Theorem object_url_roundtrip (cfg : Minio.MinIOConfig) (bucket objectKey : string) :
  GoStrings.Contains (Minio.Endpoint cfg) "/" = false ->
  Minio.isBucket bucket = true ->
  Minio.ConvertMinIOURLToBackendURL (Minio.GetObjectURL cfg bucket objectKey)
  = "/files/" ++ bucket ++ "/" ++ objectKey.
Proof.
  intros Hslash Hb.
  unfold Minio.GetObjectURL. cbv zeta.
  apply Convert_stored.
  - destruct (Minio.UseSSL cfg); auto.
  - now apply storedHost_no_slash.
  - exact Hb.
Qed.

Lemma object_url_roundtrip_witness :
  Minio.ConvertMinIOURLToBackendURL
    (Minio.GetObjectURL (Sample.minio true "minio.internal:9000")
       "post-media" "posts/7/media_0.jpg")
  = "/files/" ++ "post-media" ++ "/" ++ "posts/7/media_0.jpg".
Proof.
  apply (object_url_roundtrip (Sample.minio true "minio.internal:9000")
           "post-media" "posts/7/media_0.jpg"); reflexivity.
Defined.

(** ** Tables *)

Section Tables.
Context {A : Type}.


(** Looking a row up by a key that the update leaves alone. *)
Lemma find_update (key p : A -> bool) (f : A -> A) (rows : list A) :
  (forall r, key (f r) = key r) ->
  find key (DB.update p f rows)
  = option_map (fun r => if p r then f r else r) (find key rows).
Proof.
  intros Hkey. unfold DB.update.
  induction rows as [|r rows IH]; [reflexivity|].
  cbn [map find].
  assert (key (if p r then f r else r) = key r) as ->
      by (destruct (p r); auto).
  destruct (key r); [reflexivity|exact IH].
Qed.

Lemma find_app_none (key : A -> bool) (rows : list A) (r : A) :
  find key rows = None -> find key (rows ++ [r]) = (if key r then Some r else None).
Proof.
  induction rows as [|x rows IH]; intros Hnone; [reflexivity|].
  cbn [app find] in *. destruct (key x); [discriminate|auto].
Qed.

Lemma find_app_some (key : A -> bool) (rows extra : list A) (r : A) :
  find key rows = Some r -> find key (rows ++ extra) = Some r.
Proof.
  induction rows as [|x rows IH]; intros Hsome; [discriminate|].
  cbn [app find] in *. destruct (key x); auto.
Qed.

Lemma update_length (p : A -> bool) (f : A -> A) (rows : list A) :
  List.length (DB.update p f rows) = List.length rows.
Proof. apply length_map. Qed.

End Tables.

(** ** Rating tiers *)


(** The range of DECIMAL(15,2), in hundredths. *)
Lemma inDecimal_spec (m : Money) :
  DB.inDecimal m = true <-> - 1000000000000000 < m < 1000000000000000.
Proof.
  unfold DB.inDecimal. change (10 ^ 15) with 1000000000000000.
  rewrite andb_true_iff, !Z.ltb_lt. lia.
Qed.

(** The column ranges of [ratings], in figures. *)
Lemma ratingFits_in_range (points : Z) (totalDonated : Money) :
  0 <= points <= 2147483647 /\ 0 <= totalDonated < 1000000000000000 ->
  DB.ratingFits points totalDonated = true.
Proof.
  intros [Hp Ht]. unfold DB.ratingFits, DB.inInteger, DB.inDecimal.
  change (2 ^ 31) with 2147483648. change (10 ^ 15) with 1000000000000000.
  repeat (apply andb_true_iff; split);
    first [apply Z.leb_le | apply Z.ltb_lt]; lia.
Qed.




(** ** Running handlers *)

Ltac run_handler :=
  unfold serve, bind, pathID, try, tryOr, decode, query, exec, call;
  unfold ret, reply; cbv beta iota.

Ltac status_differs :=
  cbn;
  unfold StatusOK, StatusCreated, StatusNoContent, StatusBadRequest,
    StatusUnauthorized, StatusForbidden, StatusNotFound, StatusConflict,
    StatusInternalServerError;
  discriminate.

Lemma queryRow_Ok {A : Type} (resource : string) (p : A -> bool) (rows : list A) (r : A) :
  DB.queryRow resource p rows = Ok r -> find p rows = Some r.
Proof. unfold DB.queryRow. destruct (find p rows); congruence. Qed.

(** ** The donation review *)

(** *** The two updates of the cascade, table by table *)

Lemma UpdateRating_frame (db : DB.t) (userID points : Z) (totalDonated : Money)
      (now : Time) :
  let db' := DB.UpdateRating db userID points totalDonated now in
  DB.users db' = DB.users db /\ DB.verifications db' = DB.verifications db
  /\ DB.posts db' = DB.posts db /\ DB.post_media db' = DB.post_media db
  /\ DB.donations db' = DB.donations db /\ DB.messages db' = DB.messages db.
Proof.
  unfold DB.UpdateRating. cbv zeta.
  destruct (DB.ratingFits points totalDonated); repeat split.
Qed.

Lemma UpdatePostCollected_frame (db : DB.t) (postID : Z) (amount : Money) (now : Time) :
  let db' := DB.UpdatePostCollected db postID amount now in
  DB.users db' = DB.users db /\ DB.verifications db' = DB.verifications db
  /\ DB.post_media db' = DB.post_media db /\ DB.donations db' = DB.donations db
  /\ DB.messages db' = DB.messages db /\ DB.ratings db' = DB.ratings db
  /\ DB.ratings_seq db' = DB.ratings_seq db.
Proof.
  unfold DB.UpdatePostCollected. cbv zeta.
  destruct (forallb _ (DB.posts db)); repeat split.
Qed.

Lemma GetOrCreateRating_frame (db : DB.t) (userID : Z) (now : Time) :
  let db' := fst (DB.GetOrCreateRating db userID now) in
  DB.users db' = DB.users db /\ DB.verifications db' = DB.verifications db
  /\ DB.posts db' = DB.posts db /\ DB.post_media db' = DB.post_media db
  /\ DB.donations db' = DB.donations db /\ DB.messages db' = DB.messages db.
Proof.
  unfold DB.GetOrCreateRating. cbv zeta.
  destruct (find _ (DB.ratings db)); repeat split.
Qed.

(** The cascade as the three statements it is made of. *)
Lemma confirmCascade_steps (db : DB.t) (d : Donation.t) (now : Time) :
  exists rating,
    confirmCascade db d now
    = DB.UpdateRating
        (fst (DB.GetOrCreateRating
                (DB.UpdatePostCollected db (Donation.PostID d) (Donation.Amount d) now)
                (Donation.DonorID d) now))
        (Donation.DonorID d)
        (Rating.Points rating + Handlers.intOfAmount (Donation.Amount d))
        (Rating.TotalDonated rating + Donation.Amount d) now.
Proof.
  unfold confirmCascade. cbv zeta. unfold DB.GetOrCreateRating.
  destruct (find _ (DB.ratings _)) as [r|]; eexists; reflexivity.
Qed.

(** Rows found by a key that is unique in the table. *)
Lemma find_unique {A : Type} (key : A -> Z) (k : Z) (rows : list A) (r x : A) :
  NoDup (map key rows) ->
  find (fun y => key y =? k) rows = Some r ->
  In x rows -> key x = k -> x = r.
Proof.
  induction rows as [|a rows IH]; intros Hnd Hfind Hin Hk; [contradiction|].
  cbn [map] in Hnd. inversion Hnd as [|? ? Hfresh Hrest]; subst.
  cbn [find] in Hfind. destruct (Z.eqb_spec (key a) (key x)) as [Heq|Hne].
  - injection Hfind as <-. destruct Hin as [->|Hin]; [reflexivity|].
    exfalso. apply Hfresh. rewrite Heq. now apply in_map.
  - destruct Hin as [->|Hin]; [contradiction|]. now apply IH.
Qed.

Lemma collectedFits_in_range (amount : Money) (p : Post.t) :
  0 <= Post.Collected p + amount < 1000000000000000 ->
  DB.collectedFits amount p = true.
Proof.
  intros Hrange. unfold DB.collectedFits, DB.inDecimal.
  change (10 ^ 15) with 1000000000000000.
  repeat (apply andb_true_iff; split);
    first [apply Z.leb_le | apply Z.ltb_lt]; lia.
Qed.

(** The credit of a post whose new sum fits the column.  Post ids are the
    primary key of the table. *)
Lemma UpdatePostCollected_credit (db : DB.t) (postID : Z) (amount : Money) (now : Time)
      (post : Post.t) :
  DB.GetPostByID db postID = Ok post ->
  NoDup (map Post.ID (DB.posts db)) ->
  0 <= Post.Collected post + amount < 1000000000000000 ->
  exists post',
    DB.GetPostByID (DB.UpdatePostCollected db postID amount now) postID = Ok post'
    /\ Post.Collected post' = Post.Collected post + amount.
Proof.
  intros Hp Hkey Hrange. apply queryRow_Ok in Hp.
  unfold DB.UpdatePostCollected.
  assert (forallb (fun p => negb (Post.ID p =? postID) || DB.collectedFits amount p)
            (DB.posts db) = true) as ->.
  { apply forallb_forall. intros p Hin.
    destruct (Z.eqb_spec (Post.ID p) postID) as [Hid|]; [|reflexivity].
    rewrite (find_unique Post.ID postID (DB.posts db) post p Hkey Hp Hin Hid).
    cbn [negb orb]. now apply collectedFits_in_range. }
  unfold DB.GetPostByID, DB.queryRow. cbn [DB.posts DB.setPosts].
  rewrite find_update by reflexivity. rewrite Hp. cbn [option_map].
  apply find_some in Hp as [_ Hid]. rewrite Hid.
  eexists. split; reflexivity.
Qed.

Lemma cascade_post (db1 : DB.t) (d : Donation.t) (now : Time) (post : Post.t) :
  DB.GetPostByID db1 (Donation.PostID d) = Ok post ->
  NoDup (map Post.ID (DB.posts db1)) ->
  0 <= Post.Collected post + Donation.Amount d < 1000000000000000 ->
  exists post',
    DB.GetPostByID (confirmCascade db1 d now) (Donation.PostID d) = Ok post'
    /\ Post.Collected post' = Post.Collected post + Donation.Amount d.
Proof.
  intros Hp Hkey Hrange.
  destruct (confirmCascade_steps db1 d now) as [rating ->].
  unfold DB.GetPostByID.
  rewrite (proj1 (proj2 (proj2 (UpdateRating_frame _ _ _ _ _)))).
  rewrite (proj1 (proj2 (proj2 (GetOrCreateRating_frame _ _ _)))).
  now apply UpdatePostCollected_credit.
Qed.

(** After the cascade the donor has a rating, and it carries the credit
    when the new figures fit their columns. *)
Lemma cascade_rating (db1 : DB.t) (d : Donation.t) (now : Time) :
  exists rating',
    ratingOf (confirmCascade db1 d now) (Donation.DonorID d) = Some rating'
    /\ (0 <= pointsOf (ratingOf db1 (Donation.DonorID d))
             + Handlers.intOfAmount (Donation.Amount d) <= 2147483647 ->
        0 <= totalOf (ratingOf db1 (Donation.DonorID d)) + Donation.Amount d
          < 1000000000000000 ->
        Rating.Points rating'
        = pointsOf (ratingOf db1 (Donation.DonorID d))
          + Handlers.intOfAmount (Donation.Amount d)
        /\ Rating.TotalDonated rating'
           = totalOf (ratingOf db1 (Donation.DonorID d)) + Donation.Amount d).
Proof.
  unfold confirmCascade. cbv zeta.
  pose proof (UpdatePostCollected_frame db1 (Donation.PostID d) (Donation.Amount d) now)
    as Hframe.
  cbv zeta in Hframe. destruct Hframe as (_ & _ & _ & _ & _ & Hr & _).
  set (db2 := DB.UpdatePostCollected db1 (Donation.PostID d) (Donation.Amount d) now)
    in *.
  unfold DB.GetOrCreateRating, ratingOf. rewrite Hr.
  destruct (find _ (DB.ratings db1)) as [r|] eqn:Hfind; cbn [pointsOf totalOf];
    unfold DB.UpdateRating; cbv zeta;
    cbn [Rating.Points Rating.TotalDonated];
    destruct (DB.ratingFits _ _) eqn:Hfits; cbn [DB.ratings DB.setRatings];
    rewrite ?Hr.
  - rewrite find_update by reflexivity. rewrite Hfind. cbn [option_map].
    apply find_some in Hfind as [_ Hid]. rewrite Hid.
    eexists. split; [reflexivity|]. intros _ _. split; reflexivity.
  - rewrite Hfind. eexists. split; [reflexivity|]. intros Hp Ht.
    rewrite ratingFits_in_range in Hfits by (split; assumption). discriminate.
  - rewrite find_update by reflexivity.
    rewrite (find_app_none _ _ _ Hfind). cbn [Rating.UserID].
    rewrite Z.eqb_refl. cbn [option_map Rating.UserID]. rewrite Z.eqb_refl.
    eexists. split; [reflexivity|]. intros _ _. split; reflexivity.
  - rewrite (find_app_none _ _ _ Hfind). cbn [Rating.UserID].
    rewrite Z.eqb_refl.
    eexists. split; [reflexivity|]. intros Hp Ht.
    rewrite ratingFits_in_range in Hfits by (split; assumption). discriminate.
Qed.

Section DonationReview.
Variables (db : DB.t) (ctx : Ctx) (id userID : Z) (d : Donation.t) (post : Post.t).
Variable status : string.
Hypothesis Huser : CtxUserID ctx = Some userID.
Hypothesis Hd : DB.GetDonationByID db id = Ok d.
Hypothesis Hp : DB.GetPostByID db (Donation.PostID d) = Ok post.
Hypothesis Hauth : mayReview ctx post userID.
Hypothesis Hst : status = "confirmed" \/ status = "rejected".

Lemma donation_after_status :
  DB.GetDonationByID (DB.UpdateDonationStatus db id status userID (Now ctx)) id
  = Ok (DB.reviewed status userID (Now ctx) d).
Proof.
  unfold DB.GetDonationByID, DB.UpdateDonationStatus.
  cbn [DB.donations DB.setDonations].
  apply queryRow_Ok in Hd.
  unfold DB.queryRow. rewrite find_update by reflexivity.
  rewrite Hd. cbn [option_map].
  apply find_some in Hd as [_ Hid]. rewrite Hid. reflexivity.
Qed.

Lemma cascade_donations (db1 : DB.t) (now : Time) :
  DB.donations (confirmCascade db1 d now) = DB.donations db1.
Proof.
  destruct (confirmCascade_steps db1 d now) as [rating ->].
  rewrite (proj1 (proj2 (proj2 (proj2 (proj2 (UpdateRating_frame _ _ _ _ _)))))).
  rewrite (proj1 (proj2 (proj2 (proj2 (proj2 (GetOrCreateRating_frame _ _ _)))))).
  apply (UpdatePostCollected_frame db1).
Qed.

(** An authorised, well-formed review always goes through: the status is
    written, the cascade runs for "confirmed", and the answer is 200. *)
Lemma UpdateDonation_run :
  serve (Handlers.UpdateDonation (Some id) (Some {| DonationStatus := status |}) ctx) db
  = let db1 := DB.UpdateDonationStatus db id status userID (Now ctx) in
    (if String.eqb status "confirmed" then confirmCascade db1 d (Now ctx) else db1,
     WriteJSON StatusOK (Json.ofDonationUpdate (DB.reviewed status userID (Now ctx) d))).
Proof.
  pose proof donation_after_status as Hafter.
  unfold Handlers.UpdateDonation. run_handler.
  unfold GetUserIDFromContext. rewrite Huser, Hd, Hp. cbv beta iota.
  assert (Hgate : negb (String.eqb match GetUserRoleFromContext ctx with
                                   | Ok r => r
                                   | Err _ => ""
                                   end "admin")
                  && negb (Post.UserID post =? userID) = false).
  { destruct Hauth as [Hadmin|Hown].
    - unfold GetUserRoleFromContext. rewrite Hadmin. reflexivity.
    - apply Z.eqb_eq in Hown. rewrite Hown. apply andb_false_r. }
  rewrite Hgate. cbv beta iota.
  assert (Hvalid : ValidateStruct
                     (validateUpdateDonationRequest {| DonationStatus := status |})
                   = Ok tt).
  { destruct Hst as [->| ->]; reflexivity. }
  rewrite Hvalid. cbv beta iota. cbn [DonationStatus].
  assert (Hsame : forall db1 now,
             DB.GetDonationByID (confirmCascade db1 d now) id
             = DB.GetDonationByID db1 id).
  { intros. unfold DB.GetDonationByID. now rewrite cascade_donations. }
  cbv zeta.
  destruct (String.eqb status "confirmed") eqn:Hc; cbv beta iota.
  - specialize (Hsame (DB.UpdateDonationStatus db id status userID (Now ctx)) (Now ctx)).
    rewrite Hafter in Hsame. revert Hsame.
    unfold confirmCascade. cbv zeta.
    destruct (DB.GetOrCreateRating _ _ _) as [db3 [r|e]]; cbv beta iota;
      intros ->; reflexivity.
  - rewrite Hafter. reflexivity.
Qed.

End DonationReview.

(** The review handler has no path that answers 409. *)
Lemma UpdateDonation_never_conflict
      (db : DB.t) (id : option Z) (body : option UpdateDonationRequest) (ctx : Ctx) :
  StatusCode (snd (serve (Handlers.UpdateDonation id body ctx) db)) <> StatusConflict.
Proof.
  unfold Handlers.UpdateDonation. run_handler.
  unfold GetUserIDFromContext, DB.GetDonationByID, DB.GetPostByID, DB.queryRow,
    ValidateStruct.
  destruct id as [i|]; [|status_differs].
  destruct (CtxUserID ctx) as [u|]; [|status_differs].
  destruct (find _ (DB.donations db)) as [d|]; [|status_differs].
  destruct (find _ (DB.posts db)) as [p|]; [|status_differs].
  destruct (_ && _); [status_differs|].
  destruct body as [req|]; [|status_differs].
  cbv beta iota.
  destruct (validateUpdateDonationRequest req); [|status_differs].
  cbv beta iota.
  destruct (String.eqb _ _); cbv beta iota.
  - destruct (DB.GetOrCreateRating _ _ _) as [db3 [r|e]]; cbv beta iota;
      match goal with |- context [find ?k ?l] => destruct (find k l) end;
      status_differs.
  - match goal with |- context [find ?k ?l] => destruct (find k l) end; status_differs.
Qed.

(** Whatever the donation's current status, an authorised "confirmed"
    credits the post and the donor's rating, as far as the new figures fit
    their columns. *)
Lemma confirm_applies_cascade
      (db : DB.t) (ctx : Ctx) (id userID : Z) (d : Donation.t) (post : Post.t) :
  CtxUserID ctx = Some userID ->
  DB.GetDonationByID db id = Ok d ->
  DB.GetPostByID db (Donation.PostID d) = Ok post ->
  mayReview ctx post userID ->
  NoDup (map Post.ID (DB.posts db)) ->
  let db' := fst (serve (Handlers.UpdateDonation (Some id)
                           (Some {| DonationStatus := "confirmed" |}) ctx) db) in
  (0 <= Post.Collected post + Donation.Amount d < 1000000000000000 ->
   exists post',
     DB.GetPostByID db' (Donation.PostID d) = Ok post'
     /\ Post.Collected post' = Post.Collected post + Donation.Amount d)
  /\ exists rating',
      ratingOf db' (Donation.DonorID d) = Some rating'
      /\ (0 <= pointsOf (ratingOf db (Donation.DonorID d))
               + Handlers.intOfAmount (Donation.Amount d) <= 2147483647 ->
          0 <= totalOf (ratingOf db (Donation.DonorID d)) + Donation.Amount d
            < 1000000000000000 ->
          Rating.Points rating'
          = pointsOf (ratingOf db (Donation.DonorID d))
            + Handlers.intOfAmount (Donation.Amount d)
          /\ Rating.TotalDonated rating'
             = totalOf (ratingOf db (Donation.DonorID d)) + Donation.Amount d).
Proof.
  intros Huser Hd Hp Hauth Hkey db'. subst db'.
  rewrite (UpdateDonation_run db ctx id userID d post "confirmed") by auto.
  cbn [fst String.eqb Ascii.eqb Bool.eqb].
  split.
  - intros Hrange.
    exact (cascade_post (DB.UpdateDonationStatus db id "confirmed" userID (Now ctx))
             d (Now ctx) post Hp Hkey Hrange).
  - exact (cascade_rating (DB.UpdateDonationStatus db id "confirmed" userID (Now ctx))
             d (Now ctx)).
Qed.

(** The row of a reviewed donation, field by field. *)
Lemma reviewed_fields (status : string) (confirmedBy : Z) (now : Time) (d : Donation.t) :
  let d' := DB.reviewed status confirmedBy now d in
  Donation.Status d' = status
  /\ Donation.ConfirmedBy d' = Some confirmedBy
  /\ Donation.ConfirmedAt d' = Some now
  /\ Donation.ID d' = Donation.ID d /\ Donation.PostID d' = Donation.PostID d
  /\ Donation.DonorID d' = Donation.DonorID d /\ Donation.Amount d' = Donation.Amount d
  /\ Donation.ReceiptURL d' = Donation.ReceiptURL d
  /\ Donation.CreatedAt d' = Donation.CreatedAt d.
Proof. repeat split. Qed.

(** C2, within the columns. When an authorised actor (an admin or the
    post's owner, a user of the store) confirms a pending donation of
    amount A, the donation is stored as confirmed and the donor has a
    rating afterwards (the existing one, or a new one counted from zero).
    The post's collected amount has grown by exactly A when the new sum
    fits its column (below 10^13 currency units), and the rating's points
    have grown by floor(A) and its total donated by A when the new figures
    fit theirs (points up to 2147483647, the total below 10^13).  Amounts
    are in hundredths, so floor(A) is A / 100.  Post ids are the primary
    key of their table, and the figures stored so far are not negative, as
    the schema's CHECKs have it. *)
Theorem confirmation_credits_post_and_rating
        (db : DB.t) (ctx : Ctx) (id userID : Z) (d : Donation.t) (post : Post.t)
        (reviewer : User.t) :
  CtxUserID ctx = Some userID ->
  DB.GetUserByID db userID = Ok reviewer ->
  DB.GetDonationByID db id = Ok d ->
  Donation.Status d = "pending" ->
  0 < Donation.Amount d ->
  DB.GetPostByID db (Donation.PostID d) = Ok post ->
  mayReview ctx post userID ->
  NoDup (map Post.ID (DB.posts db)) ->
  0 <= Post.Collected post ->
  0 <= pointsOf (ratingOf db (Donation.DonorID d)) ->
  0 <= totalOf (ratingOf db (Donation.DonorID d)) ->
  let db' := fst (serve (Handlers.UpdateDonation (Some id)
                           (Some {| DonationStatus := "confirmed" |}) ctx) db) in
  (exists d', DB.GetDonationByID db' id = Ok d' /\ Donation.Status d' = "confirmed")
  /\ (Post.Collected post + Donation.Amount d < 1000000000000000 ->
      exists post',
        DB.GetPostByID db' (Donation.PostID d) = Ok post'
        /\ Post.Collected post' = Post.Collected post + Donation.Amount d)
  /\ exists rating',
      ratingOf db' (Donation.DonorID d) = Some rating'
      /\ (pointsOf (ratingOf db (Donation.DonorID d)) + Donation.Amount d / 100
          <= 2147483647 ->
          totalOf (ratingOf db (Donation.DonorID d)) + Donation.Amount d
          < 1000000000000000 ->
          Rating.Points rating'
          = pointsOf (ratingOf db (Donation.DonorID d)) + Donation.Amount d / 100
          /\ Rating.TotalDonated rating'
             = totalOf (ratingOf db (Donation.DonorID d)) + Donation.Amount d).
Proof.
  intros Huser _ Hd _ Hpos Hp Hauth Hkey Hcollected Hpoints Htotal.
  pose proof (confirm_applies_cascade db ctx id userID d post Huser Hd Hp Hauth Hkey)
    as [Hpost [rating' [Hrating Hcredit]]].
  cbv zeta in *. split; [|split].
  - rewrite (UpdateDonation_run db ctx id userID d post "confirmed") by auto.
    cbn [fst String.eqb Ascii.eqb Bool.eqb]. cbv zeta.
    unfold DB.GetDonationByID. rewrite cascade_donations.
    exists (DB.reviewed "confirmed" userID (Now ctx) d). split; [|reflexivity].
    now apply donation_after_status.
  - intros Hfits. apply Hpost. lia.
  - exists rating'. split; [exact Hrating|].
    unfold Handlers.intOfAmount in Hcredit.
    rewrite Z.quot_div_nonneg in Hcredit by lia.
    intros Hp' Ht'.
    assert (0 <= Donation.Amount d / 100) by (apply Z.div_pos; lia).
    apply Hcredit; lia.
Qed.

Lemma confirmation_credits_post_and_rating_witness :
  let db' := fst (serve (Handlers.UpdateDonation (Some 100)
                           (Some {| DonationStatus := "confirmed" |})
                           (Sample.asUser 1 "user")) Sample.db) in
  (exists post',
      DB.GetPostByID db' 10 = Ok post' /\ Post.Collected post' = 5000 + 2570)
  /\ exists rating',
      ratingOf db' 2 = Some rating'
      /\ Rating.Points rating' = 50 + 2570 / 100
      /\ Rating.TotalDonated rating' = 5000 + 2570.
Proof.
  destruct (confirmation_credits_post_and_rating Sample.db (Sample.asUser 1 "user")
              100 1 Sample.pending Sample.post Sample.ivan
              eq_refl eq_refl eq_refl eq_refl eq_refl eq_refl
              (or_intror eq_refl)
              ltac:(repeat constructor; intros [])
              ltac:(discriminate) ltac:(discriminate) ltac:(discriminate))
    as (_ & Hpost & rating' & Hrating & Hcredit).
  split; [exact (Hpost eq_refl)|].
  exists rating'. split; [exact Hrating|].
  exact (Hcredit ltac:(discriminate) eq_refl).
Defined.

(** C2 as stated fails where the points leave their column: the post's
    owner confirms a pending donation of 3000000000.00 by a donor with 50
    points.  The answer is 200, the donation is confirmed and the post is
    credited, but the rating row keeps its 50 points and its total: 50 +
    3000000000 is no INTEGER, the UPDATE is refused and UpdateDonation
    drops the error. *)
Lemma large_confirmation_leaves_the_rating :
  let large :=
    {| Donation.ID := 102; Donation.PostID := 10; Donation.DonorID := 2;
       Donation.Amount := 300000000000; Donation.ReceiptURL := None;
       Donation.Status := "pending"; Donation.ConfirmedAt := None;
       Donation.ConfirmedBy := None; Donation.CreatedAt := 1700008000 |} in
  let db := DB.setDonations (DB.donations Sample.db ++ [large]) Sample.db in
  let run := serve (Handlers.UpdateDonation (Some 102)
                      (Some {| DonationStatus := "confirmed" |})
                      (Sample.asUser 1 "user")) db in
  DB.GetDonationByID db 102 = Ok large
  /\ mayReview (Sample.asUser 1 "user") Sample.post 1
  /\ StatusCode (snd run) = StatusOK
  /\ map Donation.Status (DB.donations (fst run)) = ["pending"; "confirmed"; "confirmed"]
  /\ map Post.Collected (DB.posts db) = [5000]
  /\ map Post.Collected (DB.posts (fst run)) = [300000005000]
  /\ map Rating.Points (DB.ratings db) = [50]
  /\ map Rating.Points (DB.ratings (fst run)) = [50]
  /\ map Rating.TotalDonated (DB.ratings (fst run)) = [5000]
  /\ 50 + 300000000000 / 100 <> 50.
Proof.
  vm_compute. repeat split; first [now right | discriminate].
Qed.

(** The three amounts of the specification's example, 10, 25.70 and 100,
    give 135 points. *)
Example points_of_three_donations :
  Handlers.intOfAmount 1000 + Handlers.intOfAmount 2570 + Handlers.intOfAmount 10000
  = 135.
Proof. reflexivity. Qed.

(** C1, as the code has it. The review handler never answers Conflict.
    For an authorised actor (an admin or the post's owner, a user of the
    store) and a request for "confirmed" or "rejected", it answers 200 and
    stores the requested status, the actor as reviewer and the time of the
    request, whatever the donation's current status; the donation's other
    fields stay.  A request for "rejected" leaves every post and every
    rating as it was.  A request for "confirmed" credits the post and the
    donor's rating, also when the donation was not pending: the post's
    collected amount grows by the donation's amount when the new sum fits
    its column, the donor has a rating afterwards, and its points and
    total grow when the new figures fit theirs.  Post ids are the primary
    key of their table. *)
Theorem donation_review_ignores_current_status :
  (forall (db : DB.t) (id : option Z) (body : option UpdateDonationRequest) (ctx : Ctx),
      StatusCode (snd (serve (Handlers.UpdateDonation id body ctx) db))
      <> StatusConflict)
  /\
  (forall (db : DB.t) (ctx : Ctx) (id userID : Z) (d : Donation.t) (post : Post.t)
          (reviewer : User.t) (status : string),
      CtxUserID ctx = Some userID ->
      DB.GetUserByID db userID = Ok reviewer ->
      DB.GetDonationByID db id = Ok d ->
      DB.GetPostByID db (Donation.PostID d) = Ok post ->
      mayReview ctx post userID ->
      status = "confirmed" \/ status = "rejected" ->
      let run := serve (Handlers.UpdateDonation (Some id)
                          (Some {| DonationStatus := status |}) ctx) db in
      StatusCode (snd run) = StatusOK
      /\ (exists d',
             DB.GetDonationByID (fst run) id = Ok d'
             /\ Donation.Status d' = status
             /\ Donation.ConfirmedBy d' = Some userID
             /\ Donation.ConfirmedAt d' = Some (Now ctx)
             /\ Donation.ID d' = Donation.ID d
             /\ Donation.PostID d' = Donation.PostID d
             /\ Donation.DonorID d' = Donation.DonorID d
             /\ Donation.Amount d' = Donation.Amount d
             /\ Donation.ReceiptURL d' = Donation.ReceiptURL d
             /\ Donation.CreatedAt d' = Donation.CreatedAt d)
      /\ (status = "rejected" ->
          DB.posts (fst run) = DB.posts db /\ DB.ratings (fst run) = DB.ratings db)
      /\ (status = "confirmed" ->
          NoDup (map Post.ID (DB.posts db)) ->
          (0 <= Post.Collected post + Donation.Amount d < 1000000000000000 ->
           exists post',
             DB.GetPostByID (fst run) (Donation.PostID d) = Ok post'
             /\ Post.Collected post' = Post.Collected post + Donation.Amount d)
          /\ exists rating',
              ratingOf (fst run) (Donation.DonorID d) = Some rating'
              /\ (0 <= pointsOf (ratingOf db (Donation.DonorID d))
                       + Handlers.intOfAmount (Donation.Amount d) <= 2147483647 ->
                  0 <= totalOf (ratingOf db (Donation.DonorID d)) + Donation.Amount d
                    < 1000000000000000 ->
                  Rating.Points rating'
                  = pointsOf (ratingOf db (Donation.DonorID d))
                    + Handlers.intOfAmount (Donation.Amount d)
                  /\ Rating.TotalDonated rating'
                     = totalOf (ratingOf db (Donation.DonorID d))
                       + Donation.Amount d))).
Proof.
  split; [exact UpdateDonation_never_conflict|].
  intros db ctx id userID d post reviewer status Huser _ Hd Hp Hauth Hst run.
  split; [|split; [|split]].
  - subst run. rewrite (UpdateDonation_run db ctx id userID d post status) by auto.
    reflexivity.
  - subst run. rewrite (UpdateDonation_run db ctx id userID d post status) by auto.
    cbn [fst]. cbv zeta.
    exists (DB.reviewed status userID (Now ctx) d).
    split; [|apply reviewed_fields].
    destruct (String.eqb status "confirmed").
    + unfold DB.GetDonationByID. rewrite cascade_donations.
      now apply donation_after_status.
    + now apply donation_after_status.
  - intros ->. subst run.
    rewrite (UpdateDonation_run db ctx id userID d post "rejected") by auto.
    split; reflexivity.
  - intros -> Hkey. subst run.
    exact (confirm_applies_cascade db ctx id userID d post Huser Hd Hp Hauth Hkey).
Qed.

Lemma donation_review_ignores_current_status_witness :
  let run := serve (Handlers.UpdateDonation (Some 101)
                      (Some {| DonationStatus := "rejected" |})
                      (Sample.asUser 3 "admin")) Sample.db in
  StatusCode (snd run) = StatusOK
  /\ (exists d',
         DB.GetDonationByID (fst run) 101 = Ok d'
         /\ Donation.Status d' = "rejected"
         /\ Donation.ConfirmedBy d' = Some 3
         /\ Donation.ConfirmedAt d' = Some 1700009000)
  /\ DB.posts (fst run) = DB.posts Sample.db
  /\ DB.ratings (fst run) = DB.ratings Sample.db.
Proof.
  destruct (proj2 donation_review_ignores_current_status Sample.db
              (Sample.asUser 3 "admin") 101 3 Sample.confirmed Sample.post
              Sample.admin "rejected" eq_refl eq_refl eq_refl eq_refl
              (or_introl eq_refl) (or_intror eq_refl))
    as (Hok & (d' & Hd' & Hstatus & Hby & Hat & _) & Hrejected & _).
  split; [exact Hok|]. split; [|exact (Hrejected eq_refl)].
  exists d'. repeat split; assumption.
Defined.

(** C1 as stated fails: an admin confirming the already confirmed donation
    101 is answered 200, not Conflict, and the post's collected amount and
    the donor's rating are credited a second time. *)
Lemma reconfirmation_is_not_rejected :
  let run := serve (Handlers.UpdateDonation (Some 101)
                      (Some {| DonationStatus := "confirmed" |})
                      (Sample.asUser 3 "admin")) Sample.db in
  DB.GetDonationByID Sample.db 101 = Ok Sample.confirmed
  /\ Donation.Status Sample.confirmed <> "pending"
  /\ StatusCode (snd run) <> StatusConflict
  /\ map Post.Collected (DB.posts Sample.db) = [5000]
  /\ map Post.Collected (DB.posts (fst run)) = [10000]
  /\ map Rating.Points (DB.ratings Sample.db) = [50]
  /\ map Rating.Points (DB.ratings (fst run)) = [100].
Proof.
  vm_compute. repeat split; discriminate.
Qed.

(** ** Verification *)

Lemma find_In_Some {A : Type} (p : A -> bool) (rows : list A) (r : A) :
  In r rows -> p r = true -> exists r', find p rows = Some r'.
Proof.
  intros Hin Hp. destruct (find p rows) as [r'|] eqn:Hfind; [eauto|].
  pose proof (find_none _ _ Hfind r Hin). congruence.
Qed.

(** The UNIQUE constraint on [user_id]: the INSERT is refused for a user
    who has a record, and the table stays as it is. *)
Lemma CreateVerification_unique (db : DB.t) (v : Verification.t) (now : Time) :
  hasVerification db (Verification.UserID v) ->
  fst (DB.CreateVerification db v now) = db
  /\ exists e, snd (DB.CreateVerification db v now) = Err e.
Proof.
  intros [w [Hin Hw]]. unfold DB.CreateVerification.
  assert (existsb (fun w => Verification.UserID w =? Verification.UserID v)
            (DB.verifications db) = true) as ->.
  { apply existsb_exists. exists w. split; [exact Hin|now apply Z.eqb_eq]. }
  split; [reflexivity|eexists; reflexivity].
Qed.

(** C4. A user who already has a verification record, in any status, is
    answered Conflict by the creation handler, and the store is left as it
    was: no second record is created. (Behind the handler's check stands
    the UNIQUE constraint of the table, which refuses the INSERT as well.) *)
Theorem second_verification_is_conflict
        (time_Parse : string -> string -> option Time)
        (PutObject : string -> string -> FileHeader -> bool)
        (cfg : Config) (db : DB.t) (body : Multipart) (ctx : Ctx) (userID : Z) :
  CtxUserID ctx = Some userID ->
  hasVerification db userID ->
  let run := serve (Handlers.CreateVerification time_Parse PutObject cfg body ctx) db in
  fst run = db
  /\ StatusCode (snd run) = StatusConflict
  /\ forall (v : Verification.t) (now : Time),
      Verification.UserID v = userID ->
      fst (DB.CreateVerification db v now) = db.
Proof.
  intros Huser Hhas run. subst run.
  split; [|split].
  - destruct Hhas as [v [Hin Hv]].
    unfold Handlers.CreateVerification. run_handler.
    unfold GetUserIDFromContext. rewrite Huser. cbv beta iota.
    unfold DB.GetVerificationByUserID, DB.queryRow.
    destruct (find_In_Some (fun w => Verification.UserID w =? userID)
                (DB.verifications db) v Hin) as [v' Hfind].
    { apply Z.eqb_eq. exact Hv. }
    rewrite Hfind. reflexivity.
  - destruct Hhas as [v [Hin Hv]].
    unfold Handlers.CreateVerification. run_handler.
    unfold GetUserIDFromContext. rewrite Huser. cbv beta iota.
    unfold DB.GetVerificationByUserID, DB.queryRow.
    destruct (find_In_Some (fun w => Verification.UserID w =? userID)
                (DB.verifications db) v Hin) as [v' Hfind].
    { apply Z.eqb_eq. exact Hv. }
    rewrite Hfind. reflexivity.
  - intros v now Hv. subst userID.
    now apply CreateVerification_unique.
Qed.

Lemma second_verification_is_conflict_witness :
  let run := serve (Handlers.CreateVerification (fun _ _ => Some 0) (fun _ _ _ => true)
                      Sample.cfg (Parsed {| Values := []; Files := [] |})
                      (Sample.asUser 2 "helper")) Sample.db in
  fst run = Sample.db /\ StatusCode (snd run) = StatusConflict.
Proof.
  intro run.
  destruct (second_verification_is_conflict (fun _ _ => Some 0) (fun _ _ _ => true)
              Sample.cfg Sample.db (Parsed {| Values := []; Files := [] |})
              (Sample.asUser 2 "helper") 2) as [Hdb [Hcode _]].
  - reflexivity.
  - exists (Sample.verification 2 2 "pending"). split; [right; left|]; reflexivity.
  - split; [exact Hdb|exact Hcode].
Defined.

(** A first request of a user without a record, with a complete form and
    two scans, is accepted: 201 and one more row, pending. *)
Example first_verification_is_created :
  let form :=
    {| Values := [("last_name", "Adminova"); ("first_name", "Anna");
                  ("birth_date", "1990-01-01"); ("passport_series", "4510");
                  ("passport_number", "654321"); ("passport_issuer", "OVD");
                  ("passport_date", "2010-01-01"); ("doc_type", "snils");
                  ("snils", "11223344595"); ("consent1", "true");
                  ("consent2", "true"); ("consent3", "true")];
       Files := [("passport_scans",
                  [{| Filename := "p1.jpg"; Size := 1000; ContentType := "image/jpeg";
                      Opens := true |};
                   {| Filename := "p2.PNG"; Size := 1000; ContentType := "image/png";
                      Opens := true |}])] |} in
  let run := serve (Handlers.CreateVerification (fun _ _ => Some 0) (fun _ _ _ => true)
                      Sample.cfg (Parsed form) (Sample.asUser 3 "admin")) Sample.db in
  StatusCode (snd run) = StatusCreated
  /\ map (fun v => (Verification.UserID v, Verification.Status v))
         (DB.verifications (fst run))
     = [(1, "approved"); (2, "pending"); (3, "pending")]
  /\ map Verification.PassportScansURLs (skipn 2 (DB.verifications (fst run)))
     = [["http://localhost/verification-docs/verifications/0/passport_scan_0.jpg";
         "http://localhost/verification-docs/verifications/0/passport_scan_1.png"]].
Proof. vm_compute. repeat split. Qed.

(** ** Post creation *)

Lemma IsUserVerified_approved (db : DB.t) (userID : Z) :
  DB.IsUserVerified db userID = true <-> approved db userID.
Proof.
  unfold DB.IsUserVerified, DB.count, approved.
  set (p := fun v => (Verification.UserID v =? userID)
                     && String.eqb (Verification.Status v) "approved").
  split.
  - intros Hpos. apply Z.ltb_lt in Hpos.
    destruct (filter p (DB.verifications db)) as [|v vs] eqn:Hf; [cbn in Hpos; lia|].
    assert (Hin : In v (filter p (DB.verifications db))) by (rewrite Hf; now left).
    apply filter_In in Hin as [Hin Hp]. unfold p in Hp.
    apply andb_true_iff in Hp as [Hu Hs].
    apply Z.eqb_eq in Hu. apply String.eqb_eq in Hs. eauto.
  - intros [v [Hin [Hu Hs]]]. apply Z.ltb_lt.
    assert (Hf : In v (filter p (DB.verifications db))).
    { apply filter_In. split; [exact Hin|]. unfold p.
      apply andb_true_iff. split; [now apply Z.eqb_eq|now apply String.eqb_eq]. }
    destruct (filter p (DB.verifications db)); [contradiction|].
    cbn [List.length]. lia.
Qed.

Section MediaLoop.
Variable PutObject : string -> string -> FileHeader -> bool.
Variable cfg : Config.

(** Attaching media never ends the handler and touches no post. *)
Lemma attachMedia_posts (postID : Z) (now : Time) (i : Z) (f : FileHeader) (db : DB.t) :
  exists db', Handlers.attachMedia PutObject cfg postID now i f db = (db', Next tt)
              /\ DB.posts db' = DB.posts db.
Proof.
  unfold Handlers.attachMedia.
  destruct (negb (Opens f)); [exists db; split; reflexivity|].
  destruct (ValidateFileSize f _); [|exists db; split; reflexivity].
  destruct (ValidateMediaFile f); [|exists db; split; reflexivity].
  destruct (Handlers.UploadPostMedia PutObject postID i f (ContentType f));
    [|exists db; split; reflexivity].
  eexists. split; reflexivity.
Qed.

Lemma attachAll_posts (postID : Z) (now : Time) (files : list FileHeader) :
  forall (i : Z) (db : DB.t),
  exists db', Handlers.attachAll PutObject cfg postID now i files db = (db', Next tt)
              /\ DB.posts db' = DB.posts db.
Proof.
  induction files as [|f files IH]; intros i db.
  - exists db. split; reflexivity.
  - cbn [Handlers.attachAll].
    destruct (10 <=? i); [exists db; split; reflexivity|].
    unfold bind.
    destruct (attachMedia_posts postID now i f db) as [db1 [-> Hposts1]].
    destruct (IH (i + 1) db1) as [db2 [-> Hposts2]].
    exists db2. split; [reflexivity|congruence].
Qed.

End MediaLoop.

(** The INSERT of a post: either the row is refused and nothing changes,
    or one row is appended, with the texts as the server stores them. *)
Lemma CreatePost_insert (pg : DB.Server) (db : DB.t) (p : Post.t) (now : Time) :
  match DB.CreatePost pg db p now with
  | (db', Ok created) =>
      exists row,
        db' = DB.setPosts (DB.posts db ++ [row]) (DB.posts_seq db + 1) db
        /\ Post.ID created = DB.posts_seq db
        /\ Post.ID row = DB.posts_seq db /\ Post.UserID row = Post.UserID p
        /\ Post.Collected row = 0 /\ Post.Amount row = Post.Amount p
        /\ DB.varchar pg 500 (Post.Title p) = Some (Post.Title row)
        /\ DB.text pg (Post.Description p) = Some (Post.Description row)
        /\ DB.varchar pg 200 (Post.Recipient p) = Some (Post.Recipient row)
        /\ DB.varchar pg 100 (Post.Bank p) = Some (Post.Bank row)
        /\ DB.varchar pg 20 (Post.Phone p) = Some (Post.Phone row)
        /\ 0 < Post.Amount p < 1000000000000000
  | (db', Err e) =>
      db' = db /\ (exists msg, e = Other msg)
      /\ (DB.varchar pg 500 (Post.Title p) = None
          \/ DB.text pg (Post.Description p) = None
          \/ DB.varchar pg 200 (Post.Recipient p) = None
          \/ DB.varchar pg 100 (Post.Bank p) = None
          \/ DB.varchar pg 20 (Post.Phone p) = None
          \/ Post.Amount p <= 0 \/ 1000000000000000 <= Post.Amount p)
  end.
Proof.
  unfold DB.CreatePost.
  destruct (DB.varchar pg 500 (Post.Title p)) as [title|];
    [|split; [reflexivity|split; [eexists; reflexivity|auto]]].
  destruct (DB.text pg (Post.Description p)) as [description|];
    [|split; [reflexivity|split; [eexists; reflexivity|auto]]].
  destruct (DB.varchar pg 200 (Post.Recipient p)) as [recipient|];
    [|split; [reflexivity|split; [eexists; reflexivity|auto]]].
  destruct (DB.varchar pg 100 (Post.Bank p)) as [bank|];
    [|split; [reflexivity|split; [eexists; reflexivity|auto]]].
  destruct (DB.varchar pg 20 (Post.Phone p)) as [phone|];
    [|split; [reflexivity|split; [eexists; reflexivity|auto 6]]].
  destruct (DB.inDecimal (Post.Amount p) && (0 <? Post.Amount p)) eqn:Hfit; cbv zeta.
  - apply andb_true_iff in Hfit as [Hrange Hpos].
    apply inDecimal_spec in Hrange. apply Z.ltb_lt in Hpos.
    eexists. split; [reflexivity|].
    cbn [Post.ID Post.UserID Post.Collected Post.Amount Post.Title Post.Description
         Post.Recipient Post.Bank Post.Phone].
    repeat split; auto; lia.
  - split; [reflexivity|]. split; [eexists; reflexivity|]. do 5 right.
    apply andb_false_iff in Hfit as [Hrange|Hpos].
    + assert (~ - 1000000000000000 < Post.Amount p < 1000000000000000).
      { intros Hin. apply inDecimal_spec in Hin. congruence. }
      lia.
    + apply Z.ltb_ge in Hpos. now left.
Qed.

Lemma validateCreatePostRequest_amount (req : CreatePostRequest) :
  validateCreatePostRequest req = [] -> 0 < ReqAmount req.
Proof.
  unfold validateCreatePostRequest. intros Hvalid.
  apply app_eq_nil in Hvalid as [_ Hvalid]. apply app_eq_nil in Hvalid as [_ Hvalid].
  apply app_eq_nil in Hvalid as [Hamount _].
  unfold requiredPositive in Hamount.
  destruct (ReqAmount req =? 0); [discriminate|].
  destruct (Z.ltb_spec 0 (ReqAmount req)); [assumption|discriminate].
Qed.

(** C5. Post creation is gated on the verification: a user without an
    approved verification (none at all, pending or rejected) is answered
    Forbidden and no post is created; a user with an approved one is never
    answered Forbidden.  With a form that parses and validates, and whose
    texts and amount the columns of the table take (an amount below 10^13
    currency units), the post is created (201) under a fresh id with that
    user as owner, nothing collected and the texts as stored; a form whose
    row the table refuses is answered 500 and adds no post and no medium. *)
Theorem post_creation_requires_approval
        (ParseFloat : string -> Money)
        (PutObject : string -> string -> FileHeader -> bool)
        (cfg : Config) (pg : DB.Server) (db : DB.t) (body : Multipart) (ctx : Ctx)
        (userID : Z) :
  CtxUserID ctx = Some userID ->
  let run := serve (Handlers.CreatePost ParseFloat PutObject cfg pg body ctx) db in
  (~ approved db userID ->
   fst run = db /\ StatusCode (snd run) = StatusForbidden)
  /\
  (approved db userID ->
   StatusCode (snd run) <> StatusForbidden
   /\ forall form,
       body = Parsed form ->
       let req := Handlers.createPostRequest ParseFloat form in
       validateCreatePostRequest req = [] ->
       (forall title description recipient bank phone,
           DB.varchar pg 500 (ReqTitle req) = Some title ->
           DB.text pg (ReqDescription req) = Some description ->
           DB.varchar pg 200 (ReqRecipient req) = Some recipient ->
           DB.varchar pg 100 (ReqBank req) = Some bank ->
           DB.varchar pg 20 (ReqPhone req) = Some phone ->
           ReqAmount req < 1000000000000000 ->
           StatusCode (snd run) = StatusCreated
           /\ exists post,
               DB.posts (fst run) = (DB.posts db ++ [post])%list
               /\ Post.ID post = DB.posts_seq db
               /\ Post.UserID post = userID
               /\ Post.Collected post = 0
               /\ Post.Amount post = ReqAmount req
               /\ Post.Title post = title /\ Post.Description post = description
               /\ Post.Recipient post = recipient /\ Post.Bank post = bank
               /\ Post.Phone post = phone)
       /\ (DB.varchar pg 500 (ReqTitle req) = None
           \/ DB.text pg (ReqDescription req) = None
           \/ DB.varchar pg 200 (ReqRecipient req) = None
           \/ DB.varchar pg 100 (ReqBank req) = None
           \/ DB.varchar pg 20 (ReqPhone req) = None
           \/ 1000000000000000 <= ReqAmount req ->
           StatusCode (snd run) = StatusInternalServerError
           /\ DB.posts (fst run) = DB.posts db
           /\ DB.post_media (fst run) = DB.post_media db)).
Proof.
  intros Huser run. subst run.
  unfold Handlers.CreatePost. run_handler.
  unfold GetUserIDFromContext. rewrite Huser. cbv beta iota.
  split.
  - intros Hnot.
    assert (DB.IsUserVerified db userID = false) as ->.
    { destruct (DB.IsUserVerified db userID) eqn:Hv; [|reflexivity].
      apply IsUserVerified_approved in Hv. contradiction. }
    cbn [negb]. split; reflexivity.
  - intros Happ. apply IsUserVerified_approved in Happ. rewrite Happ. cbn [negb].
    destruct body as [msg|form]; cbn [ParseMultipartForm]; cbv beta iota.
    + split; [status_differs|]. discriminate.
    + unfold ValidateStruct.
      destruct (validateCreatePostRequest (Handlers.createPostRequest ParseFloat form))
        as [|e es] eqn:Hvalid; cbv beta iota.
      2:{ split; [status_differs|].
          intros form' Hform Hok. injection Hform as <-. cbv zeta in Hok. congruence. }
      apply validateCreatePostRequest_amount in Hvalid.
      match goal with
      | |- context [DB.CreatePost pg db ?p ?now] =>
          pose proof (CreatePost_insert pg db p now) as Hinsert;
          destruct (DB.CreatePost pg db p now) as [db1 [created|err]]
      end; cbv beta iota.
      * destruct Hinsert as (row & -> & Hid & Hrow).
        cbn [Post.UserID Post.Title Post.Description Post.Recipient Post.Bank
             Post.Phone Post.Amount] in Hrow.
        match goal with
        | |- context [match FormFiles form "media" with
                      | Some files => @?on files
                      | None => ?off
                      end ?db1] =>
            assert (Hloop : exists db',
                       match FormFiles form "media" with
                       | Some files => on files
                       | None => off
                       end db1 = (db', Next tt)
                       /\ DB.posts db' = DB.posts db1)
        end.
        { destruct (FormFiles form "media") as [files|].
          - apply attachAll_posts.
          - eexists. split; reflexivity. }
        destruct Hloop as [db' [-> Hposts]].
        split; [status_differs|].
        intros form' Hform. cbv zeta. intros _. injection Hform as <-. split.
        -- intros title description recipient bank phone Ht Hd Hr Hb Hp _.
           split; [reflexivity|].
           cbn [fst]. rewrite Hposts. cbn [DB.posts DB.setPosts].
           exists row. split; [reflexivity|].
           destruct Hrow as (Hi & Hu & Hc & Ha & Ht' & Hd' & Hr' & Hb' & Hp' & _).
           repeat split; congruence.
        -- intros Hrefused. exfalso.
           destruct Hrow as (_ & _ & _ & _ & Ht' & Hd' & Hr' & Hb' & Hp' & Hrange).
           destruct Hrefused as [H|[H|[H|[H|[H|H]]]]]; try congruence. lia.
      * destruct Hinsert as (-> & [msg ->] & Hwhy).
        cbn [Post.UserID Post.Title Post.Description Post.Recipient Post.Bank
             Post.Phone Post.Amount] in Hwhy.
        split; [status_differs|].
        intros form' Hform. cbv zeta. intros _. injection Hform as <-. split.
        -- intros title description recipient bank phone Ht Hd Hr Hb Hp Hmax. exfalso.
           destruct Hwhy as [H|[H|[H|[H|[H|[H|H]]]]]]; try congruence; lia.
        -- intros _. repeat split.
Qed.

Lemma post_creation_requires_approval_witness :
  (let run := serve (Handlers.CreatePost Sample.parseFloat (fun _ _ _ => true) Sample.cfg
                       Sample.pg (Parsed Sample.postForm) (Sample.asUser 2 "helper"))
                Sample.db in
   fst run = Sample.db /\ StatusCode (snd run) = StatusForbidden)
  /\
  (let run := serve (Handlers.CreatePost Sample.parseFloat (fun _ _ _ => true) Sample.cfg
                       Sample.pg (Parsed Sample.postForm) (Sample.asUser 1 "user"))
                Sample.db in
   StatusCode (snd run) = StatusCreated
   /\ exists post,
       DB.posts (fst run) = (DB.posts Sample.db ++ [post])%list
       /\ Post.ID post = 11 /\ Post.UserID post = 1 /\ Post.Collected post = 0).
Proof.
  split.
  - apply (proj1 (post_creation_requires_approval Sample.parseFloat (fun _ _ _ => true)
                    Sample.cfg Sample.pg Sample.db (Parsed Sample.postForm)
                    (Sample.asUser 2 "helper") 2 eq_refl)).
    intros [v [Hin [Hu Hs]]]. cbn in Hin.
    destruct Hin as [<-|[<-|[]]]; discriminate.
  - assert (Happ : approved Sample.db 1).
    { exists (Sample.verification 1 1 "approved"). split; [left|split]; reflexivity. }
    destruct (proj1 (proj2 (proj2 (post_creation_requires_approval Sample.parseFloat
                                     (fun _ _ _ => true) Sample.cfg Sample.pg Sample.db
                                     (Parsed Sample.postForm) (Sample.asUser 1 "user")
                                     1 eq_refl) Happ)
                      Sample.postForm eq_refl eq_refl)
                _ _ _ _ _ eq_refl eq_refl eq_refl eq_refl eq_refl eq_refl)
      as (Hcreated & post & Hposts & Hid & Huser & Hcollected & _).
    split; [exact Hcreated|]. exists post. repeat split; assumption.
Defined.

(** ** Messages *)

(** C6, at a request the code accepts although the claim forbids it. Olga
    (user 2) edits, and then deletes, message 1000, which Ivan (user 1)
    sent: the edit is answered 200 and rewrites the text, the deletion is
    answered 204 and removes the row. Neither handler looks at the sender. *)
Theorem message_edit_and_delete_skip_sender_check :
  let olga := Sample.asUser 2 "helper" in
  let edited := serve (Handlers.UpdateMessage (Some 5) (Some 1000)
                         (Some {| MessageText := "defaced" |}) olga) Sample.db in
  let deleted := serve (Handlers.DeleteMessage (Some 1000) olga) Sample.db in
  map Message.SenderID (filter (fun m => Message.ID m =? 1000) (DB.messages Sample.db))
  = [1]
  /\ StatusCode (snd edited) = StatusOK
  /\ map Message.Text (filter (fun m => Message.ID m =? 1000) (DB.messages (fst edited)))
     = [Some "defaced"]
  /\ StatusCode (snd deleted) = StatusNoContent
  /\ filter (fun m => Message.ID m =? 1000) (DB.messages (fst deleted)) = [].
Proof. vm_compute. repeat split. Qed.

(** ** Pagination *)

(** What does hold for every list handler: the page and the limit passed
    on are at least 1; only the message list caps the limit at 100. *)
Lemma paging_lower_bounds (page limit : Z) :
  let within (pl : Z * Z) := 1 <= fst pl /\ 1 <= snd pl in
  within (Handlers.GetVerificationsPaging page limit)
  /\ within (Handlers.GetPostsPaging page limit)
  /\ within (Handlers.GetDonationsPaging page limit)
  /\ within (Handlers.GetMessagesPaging page limit)
  /\ within (Handlers.GetRatingsPaging page limit)
  /\ snd (Handlers.GetMessagesPaging page limit) <= 100.
Proof.
  unfold Handlers.GetVerificationsPaging, Handlers.GetPostsPaging,
    Handlers.GetDonationsPaging, Handlers.GetMessagesPaging, Handlers.GetRatingsPaging.
  cbv zeta.
  destruct (Z.ltb_spec page 1); destruct (Z.ltb_spec limit 1); cbn [fst snd];
    repeat match goal with
           | |- context [?a <? ?b] => destruct (Z.ltb_spec a b)
           end; cbn [fst snd]; lia.
Qed.

(** C8, at a request where the claimed bound fails. With [limit=1000] the
    lists of verifications, posts, donations and ratings pass 1000 on to the
    query; the list of messages, given the same request, passes 100. *)
Theorem list_limit_is_capped_for_messages_only :
  Handlers.GetVerificationsPaging 1 1000 = (1, 1000)
  /\ Handlers.GetPostsPaging 1 1000 = (1, 1000)
  /\ Handlers.GetDonationsPaging 1 1000 = (1, 1000)
  /\ Handlers.GetRatingsPaging 1 1000 = (1, 1000)
  /\ Handlers.GetMessagesPaging 1 1000 = (1, 100).
Proof. repeat split. Qed.

(** ** Read marks *)

Lemma update_marks (selected : Message.t -> bool) (rows : list Message.t) :
  marks selected rows (DB.update selected DB.markRead rows).
Proof.
  unfold marks, DB.update.
  induction rows as [|m rows IH]; cbn [map]; constructor; auto.
Qed.

Lemma markRead_changes_unread (chatID : Z) (m : Message.t) :
  unreadIn chatID m = true ->
  DB.markRead m <> m /\ Message.IsRead (DB.markRead m) = true.
Proof.
  unfold unreadIn. intros Hsel. apply andb_true_iff in Hsel as [_ Hunread].
  apply negb_true_iff in Hunread. split; [|reflexivity].
  intros Heq. apply (f_equal Message.IsRead) in Heq.
  cbn [DB.markRead Message.IsRead] in Heq. congruence.
Qed.

Lemma MarkMessagesRead_run (db : DB.t) (chatID contentLength : Z)
      (body : option MarkMessagesReadRequest) (ids : list Z) :
  (if 0 <? contentLength then body else Some {| MessageIDs := [] |})
  = Some {| MessageIDs := ids |} ->
  serve (Handlers.MarkMessagesRead (Some chatID) contentLength body) db
  = (DB.setMessages
       (DB.update (DB.markedRows chatID ids) DB.markRead (DB.messages db)) db,
     WriteJSON StatusOK
       (Json.Obj [("message", Json.Str "Сообщения отмечены как прочитанные");
                  ("updated_count",
                   Json.Int (DB.count (DB.markedRows chatID ids) (DB.messages db)))])).
Proof.
  intros Hreq. unfold Handlers.MarkMessagesRead. run_handler.
  destruct (0 <? contentLength); [subst body|injection Hreq as <-];
    cbv beta iota; reflexivity.
Qed.

(** The scope of the read marks, at the gateway and at a request whose
    body is read.  An empty id list marks read exactly the unread messages
    of the chat: each of them is changed, every other row is left as it
    was, and the count returned is their number; a non-empty list marks
    the listed messages of that chat and no other row.  The handler passes
    on the ids of a body that it reads, or no ids when it reads none,
    stores the result and reports the count. *)
Lemma MarkMessagesAsRead_scope (db : DB.t) (chatID : Z) :
  (let done := DB.MarkMessagesAsRead db chatID [] in
   marks (unreadIn chatID) (DB.messages db) (DB.messages (fst done))
   /\ snd done = Z.of_nat (List.length (filter (unreadIn chatID) (DB.messages db))))
  /\
  (forall m, unreadIn chatID m = true ->
             DB.markRead m <> m /\ Message.IsRead (DB.markRead m) = true)
  /\
  (forall ids : list Z,
      ids <> [] ->
      let done := DB.MarkMessagesAsRead db chatID ids in
      marks (listedIn chatID ids) (DB.messages db) (DB.messages (fst done))
      /\ snd done
         = Z.of_nat (List.length (filter (listedIn chatID ids) (DB.messages db))))
  /\
  (forall (contentLength : Z) (body : option MarkMessagesReadRequest) (ids : list Z),
      (if 0 <? contentLength then body else Some {| MessageIDs := [] |})
      = Some {| MessageIDs := ids |} ->
      let done := DB.MarkMessagesAsRead db chatID ids in
      serve (Handlers.MarkMessagesRead (Some chatID) contentLength body) db
      = (fst done,
         WriteJSON StatusOK
           (Json.Obj [("message", Json.Str "Сообщения отмечены как прочитанные");
                      ("updated_count", Json.Int (snd done))]))).
Proof.
  split; [|split; [|split]].
  - cbn [DB.MarkMessagesAsRead fst snd DB.messages DB.setMessages].
    split; [apply update_marks|reflexivity].
  - apply markRead_changes_unread.
  - intros ids Hne.
    cbn [DB.MarkMessagesAsRead fst snd DB.messages DB.setMessages].
    destruct ids as [|id ids]; [contradiction|].
    split; [apply update_marks|reflexivity].
  - intros contentLength body ids Hreq. now apply MarkMessagesRead_run.
Qed.

(** A body whose length the request does not declare is not read, whatever
    it lists: every unread message of the chat is marked. *)
Lemma MarkMessagesRead_undeclared (db : DB.t) (chatID contentLength : Z)
      (body : option MarkMessagesReadRequest) :
  contentLength <= 0 ->
  serve (Handlers.MarkMessagesRead (Some chatID) contentLength body) db
  = serve (Handlers.MarkMessagesRead (Some chatID) 0 None) db
  /\ marks (unreadIn chatID) (DB.messages db)
       (DB.messages
          (fst (serve (Handlers.MarkMessagesRead (Some chatID) contentLength body) db))).
Proof.
  intros Hlen.
  assert (Hnone : (if 0 <? contentLength then body else Some {| MessageIDs := [] |})
                  = Some {| MessageIDs := [] |}).
  { destruct (Z.ltb_spec 0 contentLength); [lia|reflexivity]. }
  rewrite (MarkMessagesRead_run db chatID contentLength body [] Hnone).
  rewrite (MarkMessagesRead_run db chatID 0 None [] eq_refl).
  split; [reflexivity|]. cbn [fst DB.messages DB.setMessages]. apply update_marks.
Qed.

(** C10, at a request where the claim fails.  Chat 5 of the sample store
    has the unread message 1000 and the read message 1001.  A request that
    lists message 1001 and declares the length of its body leaves message
    1000 unread.  The same body sent without a declared length (chunked,
    [ContentLength] -1) is not read: the handler marks every unread
    message of the chat, message 1000 among them, although the request
    lists message 1001 only, and reports one message updated. *)
Theorem mark_messages_read_skips_undeclared_body :
  let body := Some {| MessageIDs := [1001] |} in
  let declared := serve (Handlers.MarkMessagesRead (Some 5) 22 body) Sample.db in
  let chunked := serve (Handlers.MarkMessagesRead (Some 5) (-1) body) Sample.db in
  map (fun m => (Message.ID m, Message.ChatID m, Message.IsRead m))
      (DB.messages Sample.db)
  = [(1000, 5, false); (1001, 5, true); (1002, 6, false)]
  /\ map (fun m => (Message.ID m, Message.IsRead m)) (DB.messages (fst declared))
     = [(1000, false); (1001, true); (1002, false)]
  /\ map (fun m => (Message.ID m, Message.IsRead m)) (DB.messages (fst chunked))
     = [(1000, true); (1001, true); (1002, false)]
  /\ snd chunked
     = WriteJSON StatusOK
         (Json.Obj [("message", Json.Str "Сообщения отмечены как прочитанные");
                    ("updated_count", Json.Int 1)])
  /\ chunked = serve (Handlers.MarkMessagesRead (Some 5) 0 None) Sample.db.
Proof. vm_compute. repeat split. Qed.

(** In the sample store chat 5 has one unread message: it alone is marked,
    and the count reported is 1; the unread message of chat 6 stays unread. *)
Example mark_chat_5 :
  let run := serve (Handlers.MarkMessagesRead (Some 5) 0 None) Sample.db in
  map Message.IsRead (DB.messages Sample.db) = [false; true; false]
  /\ map Message.IsRead (DB.messages (fst run)) = [true; true; false]
  /\ snd run
     = WriteJSON StatusOK
         (Json.Obj [("message", Json.Str "Сообщения отмечены как прочитанные");
                    ("updated_count", Json.Int 1)]).
Proof. vm_compute. repeat split. Qed.

(** ** Password hashes and responses *)

Lemma find_map_invariant {A : Type} (p : A -> bool) (f : A -> A) (rows : list A) :
  (forall r, p (f r) = p r) ->
  find p (map f rows) = option_map f (find p rows).
Proof.
  intros Hp. induction rows as [|r rows IH]; [reflexivity|].
  cbn [map find]. rewrite Hp. destruct (p r); [reflexivity|exact IH].
Qed.

Lemma GetUserByID_scrub (db : DB.t) (id : Z) :
  DB.GetUserByID (scrub db) id = mapResult (User.withPasswordHash "") (DB.GetUserByID db id).
Proof.
  unfold DB.GetUserByID, DB.queryRow, scrub. cbn [DB.users DB.setUsers].
  rewrite find_map_invariant by reflexivity.
  destruct (find _ (DB.users db)); reflexivity.
Qed.

Lemma GetUserByPhone_scrub (db : DB.t) (phone : string) :
  DB.GetUserByPhone (scrub db) phone
  = mapResult (User.withPasswordHash "") (DB.GetUserByPhone db phone).
Proof.
  unfold DB.GetUserByPhone, DB.queryRow, scrub. cbn [DB.users DB.setUsers].
  rewrite find_map_invariant by reflexivity.
  destruct (find _ (DB.users db)); reflexivity.
Qed.

Lemma UpdateUser_scrub db id f l h p now :
  scrub (DB.UpdateUser db id f l h p now) = DB.UpdateUser (scrub db) id f l h p now.
Proof.
  unfold DB.UpdateUser.
  destruct f, l, h, p; try reflexivity;
    unfold scrub, DB.update; cbn [DB.users DB.setUsers]; unfold DB.setUsers; cbn;
    f_equal; rewrite !map_map; apply map_ext; intros u;
    cbn [User.ID User.withPasswordHash]; destruct (User.ID u =? id); reflexivity.
Qed.

Lemma Ok_inj {A : Type} (a b : A) : Ok a = Ok b -> a = b.
Proof. now injection 1. Qed.

Lemma Err_inj {A : Type} (e1 e2 : error) : @Err A e1 = Err e2 -> e1 = e2.
Proof. now injection 1. Qed.

Section SameButHashes.
Variable CompareHashAndPassword : string -> string -> bool.
Variable SignedString : Claims -> string -> result string.
Variable cfg : Config.
Variables db1 db2 : DB.t.
Hypothesis Hsame : scrub db1 = scrub db2.

Lemma same_user_by_id id :
  mapResult (User.withPasswordHash "") (DB.GetUserByID db1 id)
  = mapResult (User.withPasswordHash "") (DB.GetUserByID db2 id).
Proof. rewrite <- !GetUserByID_scrub. now rewrite Hsame. Qed.

Lemma same_posts : DB.posts db1 = DB.posts db2.
Proof. exact (f_equal DB.posts Hsame). Qed.
Lemma same_donations : DB.donations db1 = DB.donations db2.
Proof. exact (f_equal DB.donations Hsame). Qed.
Lemma same_media : DB.post_media db1 = DB.post_media db2.
Proof. exact (f_equal DB.post_media Hsame). Qed.

Lemma GetProfile_same ctx :
  snd (serve (Handlers.GetProfile ctx) db1) = snd (serve (Handlers.GetProfile ctx) db2).
Proof.
  unfold Handlers.GetProfile. run_handler.
  destruct (GetUserIDFromContext ctx) as [userID|e]; [|reflexivity].
  cbv beta iota.
  pose proof (same_user_by_id userID) as Hu.
  destruct (DB.GetUserByID db1 userID) as [u1|e1], (DB.GetUserByID db2 userID) as [u2|e2];
    cbn [mapResult] in Hu; try discriminate; cbv beta iota; cbn [snd].
  - apply Ok_inj in Hu. now rewrite Hu.
  - apply Err_inj in Hu. now rewrite Hu.
Qed.

Lemma UpdateProfile_same body ctx :
  snd (serve (Handlers.UpdateProfile body ctx) db1)
  = snd (serve (Handlers.UpdateProfile body ctx) db2).
Proof.
  unfold Handlers.UpdateProfile. run_handler.
  destruct (GetUserIDFromContext ctx) as [userID|e]; [|reflexivity].
  cbv beta iota.
  destruct body as [req|]; [|reflexivity]. cbv beta iota.
  assert (Hu :
    mapResult (User.withPasswordHash "")
      (DB.GetUserByID (DB.UpdateUser db1 userID (ProfileFirstName req)
                         (ProfileLastName req) (ProfileHelperName req) None (Now ctx))
         userID)
    = mapResult (User.withPasswordHash "")
        (DB.GetUserByID (DB.UpdateUser db2 userID (ProfileFirstName req)
                           (ProfileLastName req) (ProfileHelperName req) None (Now ctx))
           userID)).
  { rewrite <- !GetUserByID_scrub, !UpdateUser_scrub. now rewrite Hsame. }
  destruct (DB.GetUserByID (DB.UpdateUser db1 _ _ _ _ _ _) userID) as [u1|e1],
           (DB.GetUserByID (DB.UpdateUser db2 _ _ _ _ _ _) userID) as [u2|e2];
    cbn [mapResult] in Hu; try discriminate; cbv beta iota; cbn [snd].
  - apply Ok_inj in Hu. now rewrite Hu.
  - apply Err_inj in Hu. now rewrite Hu.
Qed.

Lemma authorInfo_blank (r : result User.t) :
  Handlers.authorInfo (mapResult (User.withPasswordHash "") r) = Handlers.authorInfo r.
Proof. destruct r; reflexivity. Qed.

Lemma donorInfo_blank (r : result User.t) :
  Handlers.donorInfo (mapResult (User.withPasswordHash "") r) = Handlers.donorInfo r.
Proof. destruct r; reflexivity. Qed.

Lemma GetPost_same id :
  snd (serve (Handlers.GetPost id) db1) = snd (serve (Handlers.GetPost id) db2).
Proof.
  unfold Handlers.GetPost. run_handler.
  destruct id as [postID|]; [|reflexivity]. cbv beta iota.
  unfold DB.GetPostByID. rewrite same_posts.
  destruct (DB.queryRow _ _ (DB.posts db2)) as [post|e]; [|reflexivity].
  cbv beta iota. cbn [snd].
  unfold DB.GetPostMedia. rewrite same_media.
  rewrite <- (authorInfo_blank (DB.GetUserByID db1 _)),
          <- (authorInfo_blank (DB.GetUserByID db2 _)).
  now rewrite same_user_by_id.
Qed.

Lemma GetDonation_same id :
  snd (serve (Handlers.GetDonation id) db1) = snd (serve (Handlers.GetDonation id) db2).
Proof.
  unfold Handlers.GetDonation. run_handler.
  destruct id as [donationID|]; [|reflexivity]. cbv beta iota.
  unfold DB.GetDonationByID. rewrite same_donations.
  destruct (DB.queryRow _ _ (DB.donations db2)) as [donation|e]; [|reflexivity].
  cbv beta iota. cbn [snd].
  unfold DB.GetPostByID. rewrite same_posts.
  rewrite <- (donorInfo_blank (DB.GetUserByID db1 _)),
          <- (donorInfo_blank (DB.GetUserByID db2 _)).
  now rewrite same_user_by_id.
Qed.

Lemma Login_same body ctx :
  passwordAccepted CompareHashAndPassword db1 body
  = passwordAccepted CompareHashAndPassword db2 body ->
  snd (serve (Handlers.Login CompareHashAndPassword SignedString cfg body ctx) db1)
  = snd (serve (Handlers.Login CompareHashAndPassword SignedString cfg body ctx) db2).
Proof.
  intros Hacc. unfold Handlers.Login. run_handler.
  destruct body as [req|]; [|reflexivity]. cbv beta iota.
  destruct (ValidateStruct (validateLoginRequest req)); [|reflexivity].
  cbv beta iota. cbn [passwordAccepted] in Hacc.
  assert (Hu : mapResult (User.withPasswordHash "")
                 (DB.GetUserByPhone db1 (FormatPhone (LoginPhone req)))
               = mapResult (User.withPasswordHash "")
                   (DB.GetUserByPhone db2 (FormatPhone (LoginPhone req)))).
  { rewrite <- !GetUserByPhone_scrub. now rewrite Hsame. }
  destruct (DB.GetUserByPhone db1 _) as [u1|e1], (DB.GetUserByPhone db2 _) as [u2|e2];
    cbn [mapResult] in Hu; try discriminate; cbv beta iota; [|reflexivity].
  apply Ok_inj in Hu. rewrite Hacc.
  destruct (Handlers.CheckPassword _ _ (User.PasswordHash u2)); [|reflexivity].
  cbn [negb].
  change (User.IsActive u1) with (User.IsActive (User.withPasswordHash "" u1)).
  change (User.ID u1) with (User.ID (User.withPasswordHash "" u1)).
  change (User.Role u1) with (User.Role (User.withPasswordHash "" u1)).
  rewrite Hu. cbn [User.withPasswordHash User.IsActive User.ID User.Role].
  destruct (User.IsActive u2); [|reflexivity]. cbn [negb].
  destruct (Handlers.GenerateToken _ _ _ _ _ _); reflexivity.
Qed.
End SameButHashes.

(** C9. The JSON of a user does not depend on the password hash, and so
    the responses that carry user data (login, profile read and update,
    post and donation details) are the same for any two stores that differ
    in stored hashes only. For login this is said of two runs in which
    bcrypt gives the same verdict on the password, the one thing the
    handler computes from the hash. *)
Theorem responses_do_not_depend_on_password_hashes
        (CompareHashAndPassword : string -> string -> bool)
        (SignedString : Claims -> string -> result string)
        (cfg : Config) (db1 db2 : DB.t) :
  scrub db1 = scrub db2 ->
  (forall (u : User.t) (h : string),
      Json.ofUser (User.withPasswordHash h u) = Json.ofUser u)
  /\ (forall body ctx,
         passwordAccepted CompareHashAndPassword db1 body
         = passwordAccepted CompareHashAndPassword db2 body ->
         snd (serve (Handlers.Login CompareHashAndPassword SignedString cfg body ctx) db1)
         = snd (serve (Handlers.Login CompareHashAndPassword SignedString cfg body ctx)
                  db2))
  /\ (forall ctx,
         snd (serve (Handlers.GetProfile ctx) db1)
         = snd (serve (Handlers.GetProfile ctx) db2))
  /\ (forall body ctx,
         snd (serve (Handlers.UpdateProfile body ctx) db1)
         = snd (serve (Handlers.UpdateProfile body ctx) db2))
  /\ (forall id,
         snd (serve (Handlers.GetPost id) db1) = snd (serve (Handlers.GetPost id) db2))
  /\ (forall id,
         snd (serve (Handlers.GetDonation id) db1)
         = snd (serve (Handlers.GetDonation id) db2)).
Proof.
  intros Hsame.
  split; [reflexivity|].
  split; [intros; now apply Login_same|].
  split; [intros; now apply GetProfile_same|].
  split; [intros; now apply UpdateProfile_same|].
  split; [intros; now apply GetPost_same|intros; now apply GetDonation_same].
Qed.

Lemma responses_do_not_depend_on_password_hashes_witness :
  let login := Some {| LoginPhone := "+7 (999) 000-00-01"; LoginPassword := "secret" |} in
  let ctx := {| CtxUserID := None; CtxRole := None; Now := 1700009000 |} in
  snd (serve (Handlers.GetProfile (Sample.asUser 1 "user")) Sample.db)
  = snd (serve (Handlers.GetProfile (Sample.asUser 1 "user")) Sample.rehashed)
  /\ snd (serve (Handlers.Login (fun _ _ => true) (fun _ _ => Ok "token") Sample.cfg
                   login ctx) Sample.db)
     = snd (serve (Handlers.Login (fun _ _ => true) (fun _ _ => Ok "token") Sample.cfg
                     login ctx) Sample.rehashed).
Proof.
  intros login ctx.
  pose proof (responses_do_not_depend_on_password_hashes
                (fun _ _ => true) (fun _ _ => Ok "token") Sample.cfg
                Sample.db Sample.rehashed eq_refl) as [_ [Hlogin [Hprofile _]]].
  split.
  - apply Hprofile.
  - apply Hlogin. reflexivity.
Defined.

(** The login above does return Ivan: the comparison is not between two
    refusals. *)
Example login_of_ivan :
  StatusCode (snd (serve (Handlers.Login (fun _ _ => true) (fun _ _ => Ok "token")
                            Sample.cfg
                            (Some {| LoginPhone := "+7 (999) 000-00-01";
                                     LoginPassword := "secret" |})
                            {| CtxUserID := None; CtxRole := None; Now := 1700009000 |})
                     Sample.db))
  = StatusOK.
Proof. reflexivity. Qed.

(** Ivan's profile as the handler writes it: no hash, the photo behind the
    proxy path. *)
Example profile_of_ivan :
  snd (serve (Handlers.GetProfile (Sample.asUser 1 "user")) Sample.db)
  = WriteJSON StatusOK
      (Json.Obj [("id", Json.Int 1); ("phone", Json.Str "+79990000001");
                 ("first_name", Json.Str "Ivan"); ("last_name", Json.Str "Petrov");
                 ("photo_url", Json.Str "/files/user-photos/users/1/photo.jpg");
                 ("role", Json.Str "user");
                 ("created_at", Json.Timestamp 1700000000);
                 ("updated_at", Json.Timestamp 1700000000);
                 ("is_active", Json.Bool true)]).
Proof. reflexivity. Qed.

(** * Properties of the further code *)

(** ** The bearer token *)

Lemma substring_zero (n : nat) : substring n 0 EmptyString = EmptyString.
Proof. destruct n; reflexivity. Qed.

Lemma substring_whole (s : string) : substring 0 (String.length s) s = s.
Proof. induction s as [|c s IH]; [reflexivity|]. cbn. now rewrite IH. Qed.

(** A string is its first [n] bytes followed by the rest. *)
Lemma slice_split (s : string) :
  forall n : nat, (n <= String.length s)%nat ->
  s = Auth.sliceTo s n ++ Auth.sliceFrom s n.
Proof.
  unfold Auth.sliceTo, Auth.sliceFrom.
  induction s as [|c s IH]; intros n Hn.
  - cbn in Hn. assert (n = 0%nat) as -> by lia. reflexivity.
  - destruct n as [|n].
    + cbn [substring String.length Nat.sub append].
      now rewrite substring_whole.
    + cbn [substring String.length Nat.sub append]. cbn in Hn.
      rewrite <- IH by lia. reflexivity.
Qed.

Lemma sliceTo_append (a b : string) : Auth.sliceTo (a ++ b) (String.length a) = a.
Proof.
  unfold Auth.sliceTo. induction a as [|c a IH].
  - destruct b; reflexivity.
  - cbn. now rewrite IH.
Qed.

Lemma sliceFrom_append (a b : string) : Auth.sliceFrom (a ++ b) (String.length a) = b.
Proof.
  unfold Auth.sliceFrom. induction a as [|c a IH].
  - cbn [append String.length]. rewrite Nat.sub_0_r. apply substring_whole.
  - cbn. exact IH.
Qed.

(** X1. [ExtractTokenFromHeader] accepts exactly the headers that consist of
    the prefix "Bearer " and a token, and returns that token unchanged (empty
    included); every other header, the empty one included, is an error. *)
Theorem bearer_token_extraction (authHeader token : string) :
  Auth.ExtractTokenFromHeader authHeader = Ok token
  <-> authHeader = "Bearer " ++ token.
Proof.
  unfold Auth.ExtractTokenFromHeader. split.
  - destruct (String.eqb authHeader ""); [discriminate|].
    destruct (Nat.ltb_spec (String.length authHeader)
                (String.length Auth.bearerPrefix)) as [Hlt|Hge];
      [discriminate|].
    cbn [orb].
    destruct (String.eqb (Auth.sliceTo authHeader (String.length Auth.bearerPrefix))
                Auth.bearerPrefix) eqn:Hpre; [|discriminate].
    cbn [negb]. intros Hok. injection Hok as <-.
    apply String.eqb_eq in Hpre.
    rewrite (slice_split authHeader (String.length Auth.bearerPrefix) Hge) at 1.
    now rewrite Hpre.
  - intros ->.
    change "Bearer " with Auth.bearerPrefix at 3 4.
    rewrite sliceTo_append, sliceFrom_append, String.eqb_refl.
    reflexivity.
Qed.

(** ** Phone numbers *)

Section ReplaceAll.
Import GoStrings.

Lemma ReplaceAll_removes (c : ascii) (s : string) :
  Contains (ReplaceAll s c "") (String c EmptyString) = false.
Proof.
  induction s as [|a s IH]; [reflexivity|].
  cbn [ReplaceAll]. destruct (Ascii.eqb a c) eqn:Hac.
  - exact IH.
  - rewrite Contains_char_cons, Hac, IH. reflexivity.
Qed.

Lemma ReplaceAll_keeps_absent (c d : ascii) (s : string) :
  Contains s (String d EmptyString) = false ->
  Contains (ReplaceAll s c "") (String d EmptyString) = false.
Proof.
  induction s as [|a s IH]; intros Hno; [reflexivity|].
  rewrite Contains_char_cons in Hno. apply orb_false_iff in Hno as [Had Hs].
  cbn [ReplaceAll]. destruct (Ascii.eqb a c).
  - cbn [append]. auto.
  - rewrite Contains_char_cons, Had, (IH Hs). reflexivity.
Qed.

Lemma ReplaceAll_absent (c : ascii) (s : string) :
  Contains s (String c EmptyString) = false -> ReplaceAll s c "" = s.
Proof.
  induction s as [|a s IH]; intros Hno; [reflexivity|].
  rewrite Contains_char_cons in Hno. apply orb_false_iff in Hno as [Hac Hs].
  cbn [ReplaceAll]. rewrite Hac, (IH Hs). reflexivity.
Qed.

End ReplaceAll.

Lemma FormatPhone_clean (phone : string) :
  GoStrings.Contains (FormatPhone phone) " " = false
  /\ GoStrings.Contains (FormatPhone phone) "-" = false
  /\ GoStrings.Contains (FormatPhone phone) "(" = false
  /\ GoStrings.Contains (FormatPhone phone) ")" = false.
Proof.
  unfold FormatPhone. cbv zeta.
  repeat split;
    repeat first [apply ReplaceAll_removes | apply ReplaceAll_keeps_absent].
Qed.

(** X2. [FormatPhone] leaves no space, hyphen or parenthesis in the number,
    and formatting twice is formatting once; [ValidatePhoneNumber] judges a
    number and its formatted form alike. *)
Theorem phone_formatting_is_a_normal_form (phone : string) :
  (GoStrings.Contains (FormatPhone phone) " " = false
   /\ GoStrings.Contains (FormatPhone phone) "-" = false
   /\ GoStrings.Contains (FormatPhone phone) "(" = false
   /\ GoStrings.Contains (FormatPhone phone) ")" = false)
  /\ FormatPhone (FormatPhone phone) = FormatPhone phone
  /\ ValidatePhoneNumber (FormatPhone phone) = ValidatePhoneNumber phone.
Proof.
  pose proof (FormatPhone_clean phone) as Hclean.
  assert (Hidem : FormatPhone (FormatPhone phone) = FormatPhone phone).
  { destruct Hclean as [Hs [Hh [Ho Hc]]].
    unfold FormatPhone at 1. cbv zeta.
    now rewrite (ReplaceAll_absent _ _ Hs), (ReplaceAll_absent _ _ Hh),
      (ReplaceAll_absent _ _ Ho), (ReplaceAll_absent _ _ Hc). }
  split; [exact Hclean|]. split; [exact Hidem|].
  unfold ValidatePhoneNumber. cbv zeta. now rewrite Hidem.
Qed.

Example format_phone_sample : FormatPhone "+7 (999) 000-00-01" = "+79990000001".
Proof. reflexivity. Qed.

(** ** Proxy paths *)

Lemma Convert_shape (url : string) :
  Minio.ConvertMinIOURLToBackendURL url = url
  \/ exists rest, Minio.ConvertMinIOURLToBackendURL url = "/files/" ++ rest.
Proof.
  unfold Minio.ConvertMinIOURLToBackendURL.
  destruct (String.eqb url ""); [now left|].
  destruct (GoStrings.HasPrefix url "/files/"); [now left|].
  cbv zeta. destruct (Minio.findBucket 0 _); [|now left].
  right. eexists. reflexivity.
Qed.

Lemma prefix_cons (c : ascii) (p s : string) :
  String.prefix (String c p) (String c s) = String.prefix p s.
Proof. cbn [String.prefix]. destruct (ascii_dec c c); [reflexivity|contradiction]. Qed.

Lemma prefix_append (p s : string) : String.prefix p (p ++ s) = true.
Proof.
  induction p as [|c p IH]; [destruct s; reflexivity|].
  cbn [append]. now rewrite prefix_cons.
Qed.

(** X3. [ConvertMinIOURLToBackendURL] returns its argument or a path under
    [/files/], and is idempotent: a URL that went through it once is left
    alone by every later pass. *)
Theorem proxy_path_conversion_is_idempotent (url : string) :
  (Minio.ConvertMinIOURLToBackendURL url = url
   \/ GoStrings.HasPrefix (Minio.ConvertMinIOURLToBackendURL url) "/files/" = true)
  /\ Minio.ConvertMinIOURLToBackendURL (Minio.ConvertMinIOURLToBackendURL url)
     = Minio.ConvertMinIOURLToBackendURL url.
Proof.
  destruct (Convert_shape url) as [Hsame|[rest Hfiles]].
  - split; [now left|]. now rewrite !Hsame.
  - assert (Hpre : GoStrings.HasPrefix ("/files/" ++ rest) "/files/" = true)
      by apply prefix_append.
    rewrite Hfiles. split; [now right|].
    unfold Minio.ConvertMinIOURLToBackendURL.
    rewrite Hpre. reflexivity.
Qed.

(** ** File validators *)

(** X4. The media validator accepts exactly the files that the image
    validator or the video validator accepts, and a file it accepts is
    stored as "video" exactly when the video validator accepts it (as
    "image" otherwise). *)
Theorem media_files_are_images_or_videos (fileHeader : FileHeader) :
  (ValidateMediaFile fileHeader = Ok tt
   <-> ValidateImageFile fileHeader = Ok tt \/ ValidateVideoFile fileHeader = Ok tt)
  /\ (ValidateMediaFile fileHeader = Ok tt ->
      (mediaTypeOf fileHeader = "video" <-> ValidateVideoFile fileHeader = Ok tt)
      /\ (mediaTypeOf fileHeader = "image" <-> ValidateImageFile fileHeader = Ok tt)).
Proof.
  unfold ValidateMediaFile, ValidateImageFile, ValidateVideoFile, mediaTypeOf.
  cbv zeta. cbn [existsb].
  set (ext := GoStrings.ToLower (GoStrings.Ext (Filename fileHeader))).
  destruct (String.eqb_spec ext ".jpg") as [->|_];
    [cbn; intuition (try discriminate; auto)|].
  destruct (String.eqb_spec ext ".jpeg") as [->|_];
    [cbn; intuition (try discriminate; auto)|].
  destruct (String.eqb_spec ext ".png") as [->|_];
    [cbn; intuition (try discriminate; auto)|].
  destruct (String.eqb_spec ext ".webp") as [->|_];
    [cbn; intuition (try discriminate; auto)|].
  destruct (String.eqb_spec ext ".mp4") as [->|_];
    [cbn; intuition (try discriminate; auto)|].
  destruct (String.eqb_spec ext ".webm") as [->|_];
    [cbn; intuition (try discriminate; auto)|].
  cbn [orb]. intuition discriminate.
Qed.

Lemma media_files_are_images_or_videos_witness :
  let clip := {| Filename := "day1/Clip.MP4"; Size := 1; ContentType := "video/mp4";
                 Opens := true |} in
  (mediaTypeOf clip = "video" <-> ValidateVideoFile clip = Ok tt)
  /\ (mediaTypeOf clip = "image" <-> ValidateImageFile clip = Ok tt).
Proof.
  intro clip.
  apply (proj2 (media_files_are_images_or_videos clip)). reflexivity.
Defined.

(** ** Page counts *)

Lemma wrap64_small (z : Z) : - 2 ^ 63 <= z < 2 ^ 63 -> wrap64 z = z.
Proof.
  intros Hz. unfold wrap64. rewrite Z.mod_small; lia.
Qed.

(** X5. As long as [total + limit] fits Go's [int], the page count in the
    pagination envelope is the least number of pages of [limit] rows that
    hold [total] rows: [total <= pages * limit < total + limit]. *)
Theorem total_pages_is_ceiling (total limit : Z) :
  0 <= total ->
  1 <= limit ->
  total + limit < 2 ^ 63 ->
  total <= totalPages total limit * limit < total + limit.
Proof.
  intros Htotal Hlimit Hfit. unfold totalPages.
  rewrite (wrap64_small (total + limit)) by lia.
  rewrite wrap64_small by lia.
  rewrite Z.quot_div_nonneg by lia.
  pose proof (Z.div_mod (total + limit - 1) limit ltac:(lia)) as Hdm.
  pose proof (Z.mod_pos_bound (total + limit - 1) limit ltac:(lia)) as Hmod.
  nia.
Qed.

Lemma total_pages_is_ceiling_witness :
  101 <= totalPages 101 50 * 50 < 101 + 50.
Proof.
  apply (total_pages_is_ceiling 101 50); lia.
Defined.

(** Past that bound the sum wraps: with the uncapped limit of the post list
    at the largest [int] and two rows, the envelope reports a negative
    number of pages. *)
Example total_pages_wraps : totalPages 2 (2 ^ 63 - 1) < 0.
Proof. vm_compute. reflexivity. Qed.

(** ** The leaderboard position *)

Section Counting.
Context {A : Type}.

Lemma count_nonneg (p : A -> bool) (rows : list A) : 0 <= DB.count p rows.
Proof. unfold DB.count. lia. Qed.

Lemma count_le_length (p : A -> bool) (rows : list A) :
  DB.count p rows <= Z.of_nat (List.length rows).
Proof. unfold DB.count. pose proof (filter_length_le p rows). lia. Qed.

Lemma count_mono (p q : A -> bool) (rows : list A) :
  (forall r, In r rows -> p r = true -> q r = true) ->
  DB.count p rows <= DB.count q rows.
Proof.
  unfold DB.count. intros Hpq.
  induction rows as [|r rows IH]; [reflexivity|].
  assert (IH' : Z.of_nat (List.length (filter p rows))
                <= Z.of_nat (List.length (filter q rows))).
  { apply IH. intros x Hx. apply Hpq. now right. }
  cbn [filter]. destruct (p r) eqn:Hp.
  - rewrite (Hpq r (or_introl eq_refl) Hp). cbn [List.length]. lia.
  - destruct (q r); cbn [List.length]; lia.
Qed.

Lemma count_strict (p q : A -> bool) (rows : list A) (x : A) :
  (forall r, In r rows -> p r = true -> q r = true) ->
  In x rows -> p x = false -> q x = true ->
  DB.count p rows < DB.count q rows.
Proof.
  intros Hpq Hin Hpx Hqx.
  induction rows as [|r rows IH]; [contradiction|].
  assert (Hrest : DB.count p rows <= DB.count q rows).
  { apply count_mono. intros y Hy. apply Hpq. now right. }
  unfold DB.count in *. cbn [filter].
  destruct Hin as [->|Hin].
  - rewrite Hpx, Hqx. cbn [List.length]. lia.
  - assert (IH' : Z.of_nat (List.length (filter p rows))
                  < Z.of_nat (List.length (filter q rows))).
    { apply IH; [|exact Hin]. intros y Hy. apply Hpq. now right. }
    destruct (p r) eqn:Hp.
    + rewrite (Hpq r (or_introl eq_refl) Hp). cbn [List.length]. lia.
    + destruct (q r); cbn [List.length]; lia.
Qed.

Lemma count_zero (p : A -> bool) (rows : list A) :
  DB.count p rows = 0 <-> forall r, In r rows -> p r = false.
Proof.
  unfold DB.count. split.
  - intros Hz r Hin. destruct (p r) eqn:Hp; [|reflexivity].
    assert (Hf : In r (filter p rows)) by (apply filter_In; auto).
    destruct (filter p rows); [contradiction|cbn in Hz; lia].
  - intros Hall. induction rows as [|r rows IH]; [reflexivity|].
    cbn [filter]. rewrite (Hall r (or_introl eq_refl)).
    apply IH. intros x Hx. apply Hall. now right.
Qed.

End Counting.

(** X6. The leaderboard position is at least 1 for every user and at most
    the number of rated users for a rated one. Of two rated users the one
    with more points stands strictly higher, equal points share a position,
    and a rated user is first exactly when nobody has more points. *)
Theorem rating_position_follows_points (db : DB.t) :
  (forall userID, 1 <= Gateway.GetRatingPosition db userID)
  /\
  (forall a b : Rating.t,
      ratingOf db (Rating.UserID a) = Some a ->
      ratingOf db (Rating.UserID b) = Some b ->
      Gateway.GetRatingPosition db (Rating.UserID a)
      <= Z.of_nat (List.length (DB.ratings db))
      /\ (Rating.Points b < Rating.Points a ->
          Gateway.GetRatingPosition db (Rating.UserID a)
          < Gateway.GetRatingPosition db (Rating.UserID b))
      /\ (Rating.Points a = Rating.Points b ->
          Gateway.GetRatingPosition db (Rating.UserID a)
          = Gateway.GetRatingPosition db (Rating.UserID b))
      /\ (Gateway.GetRatingPosition db (Rating.UserID a) = 1
          <-> forall r, In r (DB.ratings db) -> Rating.Points r <= Rating.Points a)).
Proof.
  split.
  - intros userID. unfold Gateway.GetRatingPosition.
    destruct (find _ _); [|lia].
    pose proof (count_nonneg (fun r => Rating.Points t <? Rating.Points r)
                  (DB.ratings db)). lia.
  - intros a b Ha Hb. unfold Gateway.GetRatingPosition.
    unfold ratingOf in Ha, Hb. rewrite Ha, Hb.
    pose proof (find_some _ _ Ha) as [Hina _].
    split; [|split; [|split]].
    + assert (DB.count (fun r => Rating.Points a <? Rating.Points r) (DB.ratings db)
              < DB.count (fun _ => true) (DB.ratings db)).
      { apply (count_strict _ _ _ a); auto. apply Z.ltb_irrefl. }
      assert (DB.count (fun _ : Rating.t => true) (DB.ratings db)
              <= Z.of_nat (List.length (DB.ratings db))) by apply count_le_length.
      lia.
    + intros Hlt.
      assert (DB.count (fun r => Rating.Points a <? Rating.Points r) (DB.ratings db)
              < DB.count (fun r => Rating.Points b <? Rating.Points r) (DB.ratings db)).
      { apply (count_strict _ _ _ a); auto.
        - intros r _ Hr. apply Z.ltb_lt. apply Z.ltb_lt in Hr. lia.
        - apply Z.ltb_irrefl.
        - now apply Z.ltb_lt. }
      lia.
    + intros ->. reflexivity.
    + split.
      * intros Hone r Hr.
        assert (Hz : DB.count (fun r => Rating.Points a <? Rating.Points r)
                       (DB.ratings db) = 0) by lia.
        pose proof (proj1 (count_zero _ _) Hz r Hr) as Hnot.
        apply Z.ltb_ge in Hnot. exact Hnot.
      * intros Hall.
        assert (Hz : DB.count (fun r => Rating.Points a <? Rating.Points r)
                       (DB.ratings db) = 0).
        { apply count_zero. intros r Hr. apply Z.ltb_ge. now apply Hall. }
        lia.
Qed.

Lemma rating_position_follows_points_witness :
  Gateway.GetRatingPosition Sample.db 2 <= Z.of_nat (List.length (DB.ratings Sample.db))
  /\ (Rating.Points Sample.rating < Rating.Points Sample.rating ->
      Gateway.GetRatingPosition Sample.db 2 < Gateway.GetRatingPosition Sample.db 2)
  /\ (Rating.Points Sample.rating = Rating.Points Sample.rating ->
      Gateway.GetRatingPosition Sample.db 2 = Gateway.GetRatingPosition Sample.db 2)
  /\ (Gateway.GetRatingPosition Sample.db 2 = 1
      <-> forall r, In r (DB.ratings Sample.db) ->
                    Rating.Points r <= Rating.Points Sample.rating).
Proof.
  apply (proj2 (rating_position_follows_points Sample.db) Sample.rating Sample.rating);
    reflexivity.
Defined.

(** ** Unread counters *)

Section CountingRows.
Context {A : Type}.

Lemma count_update (q p : A -> bool) (f : A -> A) (rows : list A) :
  DB.count q (DB.update p f rows)
  = DB.count (fun r => q (if p r then f r else r)) rows.
Proof.
  unfold DB.count, DB.update. f_equal.
  induction rows as [|r rows IH]; [reflexivity|].
  cbn [map filter]. destruct (q (if p r then f r else r)); cbn [List.length]; auto.
Qed.

Lemma count_ext (p q : A -> bool) (rows : list A) :
  (forall r, In r rows -> p r = q r) -> DB.count p rows = DB.count q rows.
Proof.
  intros Hpq. apply Z.le_antisymm; apply count_mono; intros r Hr;
    rewrite (Hpq r Hr); auto.
Qed.


Lemma delete_none (p : A -> bool) (rows : list A) :
  (forall r, In r rows -> p r = false) -> DB.delete p rows = rows.
Proof.
  unfold DB.delete. intros Hnone.
  induction rows as [|r rows IH]; [reflexivity|].
  cbn [filter]. rewrite (Hnone r (or_introl eq_refl)). cbn [negb]. f_equal.
  apply IH. intros x Hx. apply Hnone. now right.
Qed.

End CountingRows.

Lemma unread_after_mark (db : DB.t) (chatID : Z) (ids : list Z) (c userID : Z) :
  Gateway.GetUnreadCount (fst (DB.MarkMessagesAsRead db chatID ids)) c userID
  = DB.count (fun m => (Message.ChatID m =? c)
                       && negb (Message.SenderID m =? userID)
                       && negb (Message.IsRead m)
                       && negb (DB.markedRows chatID ids m))
      (DB.messages db).
Proof.
  unfold Gateway.GetUnreadCount, DB.MarkMessagesAsRead.
  cbn [fst DB.messages DB.setMessages]. rewrite count_update.
  apply count_ext. intros m _.
  destruct (DB.markedRows chatID ids m); cbn [DB.markRead Message.ChatID
    Message.SenderID Message.IsRead negb];
    rewrite ?andb_false_r, ?andb_true_r; reflexivity.
Qed.

(** X7. Marking a chat read without naming messages brings the unread
    counter of that chat to zero for every user, whoever asked, and leaves
    the counters of all other chats as they were; a second call marks
    nothing.  With or without ids, no unread counter ever grows, and the
    number reported for a whole chat is at least any user's counter. *)
Theorem mark_all_read_clears_every_counter (db : DB.t) (chatID : Z) :
  let db' := fst (DB.MarkMessagesAsRead db chatID []) in
  (forall userID, Gateway.GetUnreadCount db' chatID userID = 0)
  /\ (forall other userID, other <> chatID ->
        Gateway.GetUnreadCount db' other userID = Gateway.GetUnreadCount db other userID)
  /\ snd (DB.MarkMessagesAsRead db' chatID []) = 0
  /\ (forall userID,
        Gateway.GetUnreadCount db chatID userID <= snd (DB.MarkMessagesAsRead db chatID []))
  /\ (forall ids c userID,
        Gateway.GetUnreadCount (fst (DB.MarkMessagesAsRead db chatID ids)) c userID
        <= Gateway.GetUnreadCount db c userID).
Proof.
  cbv zeta. split; [|split; [|split; [|split]]].
  - intros userID. rewrite unread_after_mark. apply count_zero.
    intros m _. cbn [DB.markedRows].
    destruct (Message.ChatID m =? chatID), (Message.SenderID m =? userID),
      (Message.IsRead m); reflexivity.
  - intros other userID Hother. rewrite unread_after_mark.
    unfold Gateway.GetUnreadCount. apply count_ext. intros m _.
    cbn [DB.markedRows].
    destruct (Z.eqb_spec (Message.ChatID m) other) as [Hc|Hc]; [|reflexivity].
    destruct (Z.eqb_spec (Message.ChatID m) chatID) as [Hc'|Hc']; [congruence|].
    cbn [andb negb]. now rewrite andb_true_r.
  - unfold DB.MarkMessagesAsRead. cbn [fst snd DB.messages DB.setMessages].
    rewrite count_update. apply count_zero. intros m _. cbn [DB.markedRows].
    destruct (Message.ChatID m =? chatID) eqn:Hc, (Message.IsRead m) eqn:Hr;
      cbn [andb negb DB.markRead Message.ChatID Message.IsRead];
      rewrite ?Hc, ?Hr; reflexivity.
  - intros userID. unfold Gateway.GetUnreadCount, DB.MarkMessagesAsRead.
    cbn [snd]. apply count_mono. intros m _. cbn [DB.markedRows].
    destruct (Message.ChatID m =? chatID), (Message.SenderID m =? userID),
      (Message.IsRead m); cbn [andb negb]; auto.
  - intros ids c userID. rewrite unread_after_mark.
    unfold Gateway.GetUnreadCount. apply count_mono. intros m _ Hm.
    apply andb_true_iff in Hm as [Hm _]. exact Hm.
Qed.

Example unread_counts_sample :
  Gateway.GetUnreadCount Sample.db 5 2 = 1
  /\ Gateway.GetUnreadCount (fst (DB.MarkMessagesAsRead Sample.db 5 [])) 5 2 = 0
  /\ Gateway.GetUnreadCount (fst (DB.MarkMessagesAsRead Sample.db 5 [])) 6 1 = 1.
Proof. repeat split. Qed.

(** ** Messages that do not exist *)




(** Deleting a message removes the rows with that id and keeps every
    other row, in order; deleting again changes nothing. *)
Lemma DeleteMessage_rows (db : DB.t) (messageID : Z) :
  let db' := DB.DeleteMessage db messageID in
  (forall m, In m (DB.messages db') <->
             In m (DB.messages db) /\ Message.ID m <> messageID)
  /\ DB.messages db' = filter (fun m => negb (Message.ID m =? messageID)) (DB.messages db)
  /\ DB.DeleteMessage db' messageID = db'
  /\ (forall chatID userID,
        Gateway.GetUnreadCount db' chatID userID <= Gateway.GetUnreadCount db chatID userID).
Proof.
  cbv zeta. unfold DB.DeleteMessage. cbn [DB.messages DB.setMessages].
  split; [|split; [|split]].
  - intros m. unfold DB.delete. rewrite filter_In, negb_true_iff, Z.eqb_neq. tauto.
  - reflexivity.
  - assert (Hidem : forall rows : list Message.t,
               DB.delete (fun m => Message.ID m =? messageID)
                 (DB.delete (fun m => Message.ID m =? messageID) rows)
               = DB.delete (fun m => Message.ID m =? messageID) rows).
    { intros rows. apply delete_none. intros m Hm. unfold DB.delete in Hm.
      apply filter_In in Hm as [_ Hm]. now apply negb_true_iff. }
    destruct db; cbn [DB.messages DB.setMessages]. now rewrite Hidem.
  - intros chatID userID. unfold Gateway.GetUnreadCount.
    cbn [DB.messages DB.setMessages]. unfold DB.count, DB.delete.
    set (q := fun m => (Message.ChatID m =? chatID)
                       && negb (Message.SenderID m =? userID)
                       && negb (Message.IsRead m)).
    induction (DB.messages db) as [|m rows IH]; [reflexivity|].
    cbn [filter]. destruct (negb (Message.ID m =? messageID)); cbn [filter];
      destruct (q m); cbn [List.length]; lia.
Qed.

(** ** What a donation review leaves alone *)

Section RowByRow.
Context {A : Type}.

Lemma Forall2_update (R : A -> A -> Prop) (p : A -> bool) (f : A -> A) (rows : list A) :
  (forall r, R r r) -> (forall r, R r (f r)) -> Forall2 R rows (DB.update p f rows).
Proof.
  intros Hrefl Hf. unfold DB.update.
  induction rows as [|r rows IH]; cbn [map]; constructor; auto.
  destruct (p r); auto.
Qed.

Lemma Forall2_same (R : A -> A -> Prop) (rows : list A) :
  (forall r, R r r) -> Forall2 R rows rows.
Proof. intros Hrefl. induction rows; constructor; auto. Qed.

Lemma Forall2_trans (R : A -> A -> Prop) (xs ys zs : list A) :
  (forall x y z, R x y -> R y z -> R x z) ->
  Forall2 R xs ys -> Forall2 R ys zs -> Forall2 R xs zs.
Proof.
  intros Htrans Hxy. revert zs.
  induction Hxy as [|x y xs ys Hxy _ IH]; intros zs Hyz; inversion Hyz; subst;
    constructor; eauto.
Qed.

Lemma map_update (B : Type) (key : A -> B) (p : A -> bool) (f : A -> A) (rows : list A) :
  (forall r, key (f r) = key r) -> map key (DB.update p f rows) = map key rows.
Proof.
  intros Hkey. unfold DB.update. rewrite map_map. apply map_ext.
  intros r. destruct (p r); auto.
Qed.

End RowByRow.

Lemma find_none_not_in (userID : Z) (rows : list Rating.t) :
  find (fun r => Rating.UserID r =? userID) rows = None ->
  ~ In userID (map Rating.UserID rows).
Proof.
  intros Hnone Hin. apply in_map_iff in Hin as [r [Hr Hin]].
  apply (find_none _ _ Hnone) in Hin. apply Z.eqb_neq in Hin. contradiction.
Qed.

(** The rating rows keep one row per user through [GetOrCreateRating] and
    [UpdateRating]. *)
Lemma GetOrCreateRating_unique (db : DB.t) (userID : Z) (now : Time) :
  NoDup (map Rating.UserID (DB.ratings db)) ->
  NoDup (map Rating.UserID (DB.ratings (fst (DB.GetOrCreateRating db userID now)))).
Proof.
  intros Hnd. unfold DB.GetOrCreateRating.
  destruct (find _ (DB.ratings db)) eqn:Hfind; cbn [fst]; [exact Hnd|].
  cbn [DB.ratings DB.setRatings]. rewrite map_app. cbn [map Rating.UserID].
  apply NoDup_rev in Hnd. rewrite <- (rev_involutive (_ ++ _)%list).
  apply NoDup_rev. rewrite rev_app_distr. cbn [rev app].
  constructor; [|exact Hnd].
  rewrite <- in_rev. now apply find_none_not_in.
Qed.

Lemma UpdateRating_users (db : DB.t) (userID points : Z) (total : Money) (now : Time) :
  map Rating.UserID (DB.ratings (DB.UpdateRating db userID points total now))
  = map Rating.UserID (DB.ratings db).
Proof.
  unfold DB.UpdateRating. cbv zeta.
  destruct (DB.ratingFits points total); [|reflexivity].
  cbn [DB.ratings DB.setRatings]. now apply map_update.
Qed.

Lemma confirmCascade_frame (db : DB.t) (d : Donation.t) (now : Time) :
  let db' := confirmCascade db d now in
  DB.users db' = DB.users db /\ DB.verifications db' = DB.verifications db
  /\ DB.post_media db' = DB.post_media db /\ DB.messages db' = DB.messages db
  /\ DB.donations db' = DB.donations db
  /\ Forall2 samePostButCollected (DB.posts db) (DB.posts db')
  /\ (NoDup (map Rating.UserID (DB.ratings db)) ->
      NoDup (map Rating.UserID (DB.ratings db'))).
Proof.
  cbv zeta. destruct (confirmCascade_steps db d now) as [rating ->].
  set (db1 := DB.UpdatePostCollected db (Donation.PostID d) (Donation.Amount d) now).
  set (db2 := fst (DB.GetOrCreateRating db1 (Donation.DonorID d) now)).
  assert (Hposts : Forall2 samePostButCollected (DB.posts db) (DB.posts db1)).
  { subst db1. unfold DB.UpdatePostCollected.
    destruct (forallb _ (DB.posts db)).
    - cbn [DB.posts DB.setPosts].
      apply Forall2_update; intros r; unfold samePostButCollected; cbn; tauto.
    - apply Forall2_same. intros r. unfold samePostButCollected. tauto. }
  pose proof (UpdatePostCollected_frame db (Donation.PostID d) (Donation.Amount d) now)
    as (Hu1 & Hv1 & Hm1 & Hd1 & Hmsg1 & Hr1 & _).
  pose proof (GetOrCreateRating_frame db1 (Donation.DonorID d) now)
    as (Hu2 & Hv2 & Hp2 & Hm2 & Hd2 & Hmsg2).
  pose proof (GetOrCreateRating_unique db1 (Donation.DonorID d) now) as Hunique.
  cbv zeta in *. fold db1 in Hu1, Hv1, Hm1, Hd1, Hmsg1, Hr1.
  fold db2 in Hu2, Hv2, Hp2, Hm2, Hd2, Hmsg2, Hunique.
  match goal with
  | |- context [DB.UpdateRating db2 ?u ?p ?t ?n] =>
      pose proof (UpdateRating_frame db2 u p t n) as (Hu3 & Hv3 & Hp3 & Hm3 & Hd3 & Hmsg3);
      cbv zeta in *; rewrite Hu3, Hv3, Hp3, Hm3, Hd3, Hmsg3, UpdateRating_users
  end.
  rewrite Hu2, Hv2, Hp2, Hm2, Hd2, Hmsg2, Hu1, Hv1, Hm1, Hd1, Hmsg1.
  repeat split; auto.
  intros Hnd. apply Hunique. now rewrite Hr1.
Qed.

Lemma UpdateDonationStatus_frame (db : DB.t) (id : Z) (status : string) (by_ : Z)
      (now : Time) :
  let db' := DB.UpdateDonationStatus db id status by_ now in
  DB.users db' = DB.users db /\ DB.verifications db' = DB.verifications db
  /\ DB.post_media db' = DB.post_media db /\ DB.messages db' = DB.messages db
  /\ Forall2 sameDonationButReview (DB.donations db) (DB.donations db')
  /\ DB.posts db' = DB.posts db /\ DB.ratings db' = DB.ratings db.
Proof.
  cbv zeta. unfold DB.UpdateDonationStatus.
  cbn [DB.users DB.verifications DB.post_media DB.messages DB.donations DB.posts
       DB.ratings DB.setDonations].
  repeat split.
  apply Forall2_update; intros r; unfold sameDonationButReview; cbn; tauto.
Qed.

(** The store after any run of the handler: untouched, or the status
    written and, for "confirmed", the cascade. *)
Lemma UpdateDonation_store (id : option Z) (body : option UpdateDonationRequest)
      (ctx : Ctx) (db : DB.t) :
  fst (serve (Handlers.UpdateDonation id body ctx) db) = db
  \/ exists donationID userID status d,
      fst (serve (Handlers.UpdateDonation id body ctx) db)
      = let db1 := DB.UpdateDonationStatus db donationID status userID (Now ctx) in
        if String.eqb status "confirmed" then confirmCascade db1 d (Now ctx) else db1.
Proof.
  unfold Handlers.UpdateDonation. run_handler.
  destruct id as [donationID|]; cbv beta iota; [|now left].
  destruct (GetUserIDFromContext ctx) as [userID|e]; cbv beta iota; [|now left].
  destruct (DB.GetDonationByID db donationID) as [d|e]; cbv beta iota; [|now left].
  destruct (DB.GetPostByID db (Donation.PostID d)) as [post|e]; cbv beta iota;
    [|now left].
  destruct (negb _ && negb _); cbv beta iota; [now left|].
  destruct body as [req|]; cbv beta iota; [|now left].
  destruct (ValidateStruct _); cbv beta iota; [|now left].
  right. exists donationID, userID, (DonationStatus req), d. cbv zeta.
  destruct (String.eqb (DonationStatus req) "confirmed"); cbv beta iota.
  - unfold confirmCascade. cbv zeta.
    destruct (DB.GetOrCreateRating _ _ _) as [db3 [r|e]]; cbv beta iota;
      match goal with
      | |- context [DB.GetDonationByID ?s ?i] => destruct (DB.GetDonationByID s i)
      end; reflexivity.
  - match goal with
    | |- context [DB.GetDonationByID ?s ?i] => destruct (DB.GetDonationByID s i)
    end; reflexivity.
Qed.

(** X9. Whatever the request, a donation review changes nothing but the
    review fields of donations, the collected amount (and update time) of
    posts and the rating rows: users, verifications, media and messages
    are untouched, no donation changes its post, donor, amount or receipt,
    no post changes owner, target, requisites or status, and the ratings
    keep one row per user if they had so before. *)
Theorem donation_review_touches_only_its_figures
        (id : option Z) (body : option UpdateDonationRequest) (ctx : Ctx) (db : DB.t) :
  let db' := fst (serve (Handlers.UpdateDonation id body ctx) db) in
  DB.users db' = DB.users db /\ DB.verifications db' = DB.verifications db
  /\ DB.post_media db' = DB.post_media db /\ DB.messages db' = DB.messages db
  /\ Forall2 sameDonationButReview (DB.donations db) (DB.donations db')
  /\ Forall2 samePostButCollected (DB.posts db) (DB.posts db')
  /\ (NoDup (map Rating.UserID (DB.ratings db)) ->
      NoDup (map Rating.UserID (DB.ratings db'))).
Proof.
  cbv zeta.
  assert (Hd : forall rows, Forall2 sameDonationButReview rows rows).
  { intros rows. apply Forall2_same. intros r. unfold sameDonationButReview. tauto. }
  assert (Hp : forall rows, Forall2 samePostButCollected rows rows).
  { intros rows. apply Forall2_same. intros r. unfold samePostButCollected. tauto. }
  destruct (UpdateDonation_store id body ctx db)
    as [->|(donationID & userID & status & d & ->)]; [repeat split; auto|].
  cbv zeta.
  destruct (UpdateDonationStatus_frame db donationID status userID (Now ctx))
    as (Hu1 & Hv1 & Hm1 & Hmsg1 & Hd1 & Hp1 & Hr1).
  destruct (String.eqb status "confirmed").
  - destruct (confirmCascade_frame
                (DB.UpdateDonationStatus db donationID status userID (Now ctx))
                d (Now ctx)) as (Hu2 & Hv2 & Hm2 & Hmsg2 & Hd2 & Hp2 & Hr2).
    rewrite Hu2, Hv2, Hm2, Hmsg2, Hd2. rewrite Hp1, Hr1 in *.
    repeat split; auto.
  - rewrite Hp1, Hr1. repeat split; auto.
Qed.

(** X10. A user who is neither an admin nor the owner of the post cannot
    review a donation to it: the answer is 403 and the store is unchanged.
    This holds for the donor too. *)
Theorem donation_review_is_denied_to_others
        (db : DB.t) (id userID : Z) (body : option UpdateDonationRequest) (ctx : Ctx)
        (d : Donation.t) (post : Post.t) :
  CtxUserID ctx = Some userID ->
  DB.GetDonationByID db id = Ok d ->
  DB.GetPostByID db (Donation.PostID d) = Ok post ->
  CtxRole ctx <> Some "admin" ->
  Post.UserID post <> userID ->
  serve (Handlers.UpdateDonation (Some id) body ctx) db
  = (db, WriteError (App (NewForbiddenError "Недостаточно прав"))).
Proof.
  intros Huser Hd Hp Hrole Hown.
  unfold Handlers.UpdateDonation. run_handler.
  unfold GetUserIDFromContext. rewrite Huser, Hd, Hp. cbv beta iota.
  assert (Hgate : negb (String.eqb match GetUserRoleFromContext ctx with
                                   | Ok r => r
                                   | Err _ => ""
                                   end "admin")
                  && negb (Post.UserID post =? userID) = true).
  { apply andb_true_iff. split; apply negb_true_iff.
    - unfold GetUserRoleFromContext. destruct (CtxRole ctx) as [role|]; [|reflexivity].
      apply String.eqb_neq. congruence.
    - now apply Z.eqb_neq. }
  rewrite Hgate. reflexivity.
Qed.

Lemma donation_review_is_denied_to_others_witness :
  serve (Handlers.UpdateDonation (Some 100) (Some {| DonationStatus := "confirmed" |})
           (Sample.asUser 2 "helper")) Sample.db
  = (Sample.db, WriteError (App (NewForbiddenError "Недостаточно прав"))).
Proof.
  apply (donation_review_is_denied_to_others Sample.db 100 2 _ _ Sample.pending
           Sample.post); try reflexivity; cbn; congruence.
Defined.

(** ** The route guards *)

Section Guards.
Variable ParseWithClaims :
  string -> (SigningMethod -> result string) -> result (Claims * bool).
Variable cfg : Config.

Lemma RoleMiddleware_admin (next : Ctx -> H unit) (ctx : Ctx) (role : string) :
  CtxRole ctx = Some role ->
  Middleware.RoleMiddleware ["admin"] next ctx
  = if String.eqb role "admin" then next ctx
    else reply (WriteError (App (NewForbiddenError "Недостаточно прав"))).
Proof.
  intros Hrole. unfold Middleware.RoleMiddleware. rewrite Hrole.
  cbn [existsb]. rewrite orb_false_r. destruct (String.eqb role "admin"); reflexivity.
Qed.

End Guards.

(** X11. Behind the admin-only routes a handler runs exactly when the
    Authorization header carries a token that validates with the role
    "admin"; it then sees the user id and role of the token's claims,
    whatever the incoming context held.  In every other case the answer is
    401 or 403, the store is untouched and the handler is not consulted. *)
Theorem admin_routes_need_an_admin_token
        (ParseWithClaims :
           string -> (SigningMethod -> result string) -> result (Claims * bool))
        (cfg : Config) (next : Ctx -> H unit) (authHeader : string) (ctx : Ctx)
        (db : DB.t) :
  let run := serve (Middleware.adminOnly ParseWithClaims cfg next authHeader ctx) db in
  (forall token claims,
      Auth.ExtractTokenFromHeader authHeader = Ok token ->
      Middleware.ValidateToken ParseWithClaims cfg token = Ok claims ->
      ClaimsRole claims = "admin" ->
      run = serve (next {| CtxUserID := Some (ClaimsUserID claims);
                           CtxRole := Some "admin"; Now := Now ctx |}) db)
  /\ ((forall token claims,
          Auth.ExtractTokenFromHeader authHeader = Ok token ->
          Middleware.ValidateToken ParseWithClaims cfg token = Ok claims ->
          ClaimsRole claims <> "admin") ->
      fst run = db
      /\ (StatusCode (snd run) = StatusUnauthorized
          \/ StatusCode (snd run) = StatusForbidden)
      /\ forall next',
          serve (Middleware.adminOnly ParseWithClaims cfg next' authHeader ctx) db = run).
Proof.
  cbv zeta. unfold Middleware.adminOnly, Middleware.JWTAuthMiddleware. split.
  - intros token claims -> -> Hrole.
    rewrite (RoleMiddleware_admin _ _ "admin") by (cbn; now rewrite Hrole).
    cbn [String.eqb]. rewrite <- Hrole. reflexivity.
  - intros Hdenied.
    destruct (Auth.ExtractTokenFromHeader authHeader) as [token|e];
      [|repeat split; auto].
    destruct (Middleware.ValidateToken ParseWithClaims cfg token) as [claims|e] eqn:Hv;
      [|repeat split; auto].
    specialize (Hdenied token claims eq_refl Hv).
    apply String.eqb_neq in Hdenied.
    assert (Hrole : forall n : Ctx -> H unit,
               Middleware.RoleMiddleware ["admin"] n
                 {| CtxUserID := Some (ClaimsUserID claims);
                    CtxRole := Some (ClaimsRole claims); Now := Now ctx |}
               = reply (WriteError (App (NewForbiddenError "Недостаточно прав")))).
    { intros n. rewrite (RoleMiddleware_admin _ _ (ClaimsRole claims)) by reflexivity.
      now rewrite Hdenied. }
    rewrite Hrole. split; [reflexivity|]. split; [now right|].
    intros next'. now rewrite Hrole.
Qed.

Lemma admin_routes_need_an_admin_token_witness :
  let parse (tokenString : string) (keyFunc : SigningMethod -> result string) :=
    if String.eqb tokenString "admin-token"
    then Ok ({| ClaimsUserID := 3; ClaimsRole := "admin";
                ExpiresAt := 1700090000; IssuedAt := 1700000000 |}, true)
    else Err (Other "token is malformed") in
  serve (Middleware.adminOnly parse Sample.cfg Handlers.GetProfile "Bearer admin-token"
           (Sample.asUser 1 "user")) Sample.db
  = serve (Handlers.GetProfile (Sample.asUser 3 "admin")) Sample.db.
Proof.
  intros parse.
  apply (proj1 (admin_routes_need_an_admin_token parse Sample.cfg Handlers.GetProfile
                  "Bearer admin-token" (Sample.asUser 1 "user") Sample.db)
           "admin-token"
           {| ClaimsUserID := 3; ClaimsRole := "admin";
              ExpiresAt := 1700090000; IssuedAt := 1700000000 |});
    reflexivity.
Defined.

(** Behind the protected routes a handler runs exactly when the header
    carries a token that validates, and then always finds a user id and a
    role in its context; otherwise the answer is 401 and the store is
    untouched. *)
Lemma protected_run
        (ParseWithClaims :
           string -> (SigningMethod -> result string) -> result (Claims * bool))
        (cfg : Config) (next : Ctx -> H unit) (authHeader : string) (ctx : Ctx)
        (db : DB.t) :
  let run := serve (Middleware.protected ParseWithClaims cfg next authHeader ctx) db in
  (exists ctx' userID role,
      run = serve (next ctx') db
      /\ GetUserIDFromContext ctx' = Ok userID
      /\ GetUserRoleFromContext ctx' = Ok role
      /\ Now ctx' = Now ctx
      /\ exists token claims,
          Auth.ExtractTokenFromHeader authHeader = Ok token
          /\ Middleware.ValidateToken ParseWithClaims cfg token = Ok claims
          /\ userID = ClaimsUserID claims /\ role = ClaimsRole claims)
  \/ ((forall token,
          Auth.ExtractTokenFromHeader authHeader = Ok token ->
          exists e, Middleware.ValidateToken ParseWithClaims cfg token = Err e)
      /\ fst run = db
      /\ StatusCode (snd run) = StatusUnauthorized).
Proof.
  cbv zeta. unfold Middleware.protected, Middleware.JWTAuthMiddleware.
  destruct (Auth.ExtractTokenFromHeader authHeader) as [token|e].
  - destruct (Middleware.ValidateToken ParseWithClaims cfg token) as [claims|e] eqn:Hv.
    + left. eexists _, (ClaimsUserID claims), (ClaimsRole claims).
      split; [reflexivity|]. repeat split. exists token, claims. auto.
    + right. split; [|split; reflexivity].
      intros token' Htoken. injection Htoken as <-. eauto.
  - right. split; [|split; reflexivity]. intros token Htoken. discriminate.
Qed.

(** ** Signing in *)

Section SigningIn.
Variable CompareHashAndPassword : string -> string -> bool.
Variable SignedString : Claims -> string -> result string.
Variable ParseWithClaims :
  string -> (SigningMethod -> result string) -> result (Claims * bool).
Variable cfg : Config.

Let Login := Handlers.Login CompareHashAndPassword SignedString cfg.

Lemma Login_store (body : option LoginRequest) (ctx : Ctx) (db : DB.t) :
  fst (serve (Login body ctx) db) = db.
Proof.
  subst Login. unfold Handlers.Login. run_handler.
  destruct body as [req|]; cbv beta iota; [|reflexivity].
  destruct (ValidateStruct _); cbv beta iota; [|reflexivity].
  destruct (DB.GetUserByPhone db _) as [user|e]; cbv beta iota; [|reflexivity].
  destruct (negb (Handlers.CheckPassword _ _ _)); cbv beta iota; [reflexivity|].
  destruct (negb (User.IsActive user)); cbv beta iota; [reflexivity|].
  destruct (Handlers.GenerateToken _ _ _ _ _ _); reflexivity.
Qed.

Lemma Login_rejected (req : LoginRequest) (ctx : Ctx) (db : DB.t) :
  LoginPhone req <> "" -> LoginPassword req <> "" ->
  passwordAccepted CompareHashAndPassword db (Some req) = false ->
  snd (serve (Login (Some req) ctx) db)
  = WriteError (App (NewUnauthorizedError "Неверные учетные данные")).
Proof.
  intros Hphone Hpass Hrej. subst Login. unfold Handlers.Login. run_handler.
  unfold validateLoginRequest, required.
  destruct (String.eqb_spec (LoginPhone req) ""); [contradiction|].
  destruct (String.eqb_spec (LoginPassword req) ""); [contradiction|].
  cbn [app ValidateStruct]. cbv beta iota.
  unfold passwordAccepted in Hrej.
  destruct (DB.GetUserByPhone db _) as [user|e]; cbv beta iota; [|reflexivity].
  rewrite Hrej. reflexivity.
Qed.

Lemma Login_accepted (req : LoginRequest) (ctx : Ctx) (db : DB.t) :
  StatusCode (snd (serve (Login (Some req) ctx) db)) = StatusOK ->
  exists user,
    DB.GetUserByPhone db (FormatPhone (LoginPhone req)) = Ok user
    /\ CompareHashAndPassword (User.PasswordHash user) (LoginPassword req) = true
    /\ User.IsActive user = true.
Proof.
  subst Login. unfold Handlers.Login. run_handler.
  unfold ValidateStruct.
  destruct (validateLoginRequest req); cbv beta iota; [|status_differs].
  destruct (DB.GetUserByPhone db _) as [user|e]; cbv beta iota; [|status_differs].
  unfold Handlers.CheckPassword.
  destruct (CompareHashAndPassword _ _) eqn:Hpw; cbn [negb]; cbv beta iota;
    [|status_differs].
  destruct (User.IsActive user) eqn:Hactive; cbn [negb]; cbv beta iota;
    [|status_differs].
  intros _. eauto.
Qed.

End SigningIn.

(** X12. Login never writes to the store.  A password that bcrypt rejects
    and a phone number that no user has get the very same 401 response, so
    the answer does not tell which phones are registered; a 200 is only
    ever given for an active user whose stored hash bcrypt accepts. *)
Theorem login_failures_are_indistinguishable
        (CompareHashAndPassword : string -> string -> bool)
        (SignedString : Claims -> string -> result string) (cfg : Config)
        (ctx : Ctx) (db : DB.t) :
  let Login := Handlers.Login CompareHashAndPassword SignedString cfg in
  (forall body, fst (serve (Login body ctx) db) = db)
  /\ (forall known unknown : LoginRequest,
        LoginPhone known <> "" -> LoginPassword known <> "" ->
        LoginPhone unknown <> "" -> LoginPassword unknown <> "" ->
        (exists user,
            DB.GetUserByPhone db (FormatPhone (LoginPhone known)) = Ok user
            /\ CompareHashAndPassword (User.PasswordHash user) (LoginPassword known)
               = false) ->
        (exists e, DB.GetUserByPhone db (FormatPhone (LoginPhone unknown)) = Err e) ->
        snd (serve (Login (Some known) ctx) db)
        = snd (serve (Login (Some unknown) ctx) db)
        /\ StatusCode (snd (serve (Login (Some known) ctx) db)) = StatusUnauthorized)
  /\ (forall req,
        StatusCode (snd (serve (Login (Some req) ctx) db)) = StatusOK ->
        exists user,
          DB.GetUserByPhone db (FormatPhone (LoginPhone req)) = Ok user
          /\ CompareHashAndPassword (User.PasswordHash user) (LoginPassword req) = true
          /\ User.IsActive user = true).
Proof.
  cbv zeta. split; [|split].
  - intros body. apply Login_store.
  - intros known unknown Hk1 Hk2 Hu1 Hu2 [user [Hfound Hpw]] [e Hmissing].
    rewrite !Login_rejected; auto.
    + unfold passwordAccepted. now rewrite Hmissing.
    + unfold passwordAccepted, Handlers.CheckPassword. now rewrite Hfound.
  - intros req. apply Login_accepted.
Qed.

Lemma login_failures_are_indistinguishable_witness :
  let Login := Handlers.Login (fun _ _ => false) (fun _ _ => Ok "token") Sample.cfg in
  let ctx := Sample.asUser 0 "" in
  snd (serve (Login (Some {| LoginPhone := "+7 (999) 000-00-01";
                             LoginPassword := "guess" |}) ctx) Sample.db)
  = snd (serve (Login (Some {| LoginPhone := "+7 (999) 555-55-55";
                               LoginPassword := "guess" |}) ctx) Sample.db)
  /\ StatusCode (snd (serve (Login (Some {| LoginPhone := "+7 (999) 000-00-01";
                                            LoginPassword := "guess" |}) ctx) Sample.db))
     = StatusUnauthorized.
Proof.
  intros Login ctx.
  apply (proj1 (proj2 (login_failures_are_indistinguishable
                         (fun _ _ => false) (fun _ _ => Ok "token") Sample.cfg
                         ctx Sample.db))
           {| LoginPhone := "+7 (999) 000-00-01"; LoginPassword := "guess" |}
           {| LoginPhone := "+7 (999) 555-55-55"; LoginPassword := "guess" |});
    try discriminate.
  - exists Sample.ivan. split; reflexivity.
  - eexists. reflexivity.
Defined.

(** X13. A deactivated account cannot log in (403), but any token that
    still validates for it buys a fresh access token: RefreshToken looks
    the user up and signs without looking at [is_active], and the new
    token carries the role stored now, whatever role the presented token
    had.  Neither request changes the store. *)
Theorem refresh_ignores_deactivation
        (CompareHashAndPassword : string -> string -> bool)
        (SignedString : Claims -> string -> result string)
        (ParseWithClaims :
           string -> (SigningMethod -> result string) -> result (Claims * bool))
        (cfg : Config) (ctx : Ctx) (db : DB.t)
        (token fresh : string) (claims : Claims) (user : User.t) (req : LoginRequest) :
  Middleware.ValidateToken ParseWithClaims cfg token = Ok claims ->
  DB.GetUserByID db (ClaimsUserID claims) = Ok user ->
  SignedString {| ClaimsUserID := User.ID user; ClaimsRole := User.Role user;
                  ExpiresAt := Now ctx + JWTAccessExpiry cfg; IssuedAt := Now ctx |}
    (JWTSecret cfg) = Ok fresh ->
  LoginPhone req <> "" -> LoginPassword req <> "" ->
  DB.GetUserByPhone db (FormatPhone (LoginPhone req)) = Ok user ->
  CompareHashAndPassword (User.PasswordHash user) (LoginPassword req) = true ->
  User.IsActive user = false ->
  serve (Api.RefreshToken SignedString ParseWithClaims cfg ("Bearer " ++ token) ctx) db
  = (db, WriteJSON StatusOK (Json.Obj [("token", Json.Str fresh)]))
  /\ serve (Handlers.Login CompareHashAndPassword SignedString cfg (Some req) ctx) db
     = (db, WriteError (App (NewForbiddenError "Аккаунт деактивирован"))).
Proof.
  intros Hvalid Huser Hsign Hphone Hpass Hfound Hpw Hinactive. split.
  - unfold Api.RefreshToken. run_handler.
    assert (Auth.ExtractTokenFromHeader ("Bearer " ++ token) = Ok token) as ->.
    { unfold Auth.ExtractTokenFromHeader.
      change "Bearer " with Auth.bearerPrefix.
      rewrite sliceTo_append, sliceFrom_append, String.eqb_refl. reflexivity. }
    cbv beta iota. rewrite Hvalid. cbv beta iota. rewrite Huser. cbv beta iota.
    unfold Handlers.GenerateToken. rewrite Hsign. reflexivity.
  - unfold Handlers.Login. run_handler.
    unfold validateLoginRequest, required.
    destruct (String.eqb_spec (LoginPhone req) ""); [contradiction|].
    destruct (String.eqb_spec (LoginPassword req) ""); [contradiction|].
    cbn [app ValidateStruct]. cbv beta iota. rewrite Hfound. cbv beta iota.
    unfold Handlers.CheckPassword. rewrite Hpw, Hinactive. reflexivity.
Qed.

Lemma refresh_ignores_deactivation_witness :
  let parse (tokenString : string) (keyFunc : SigningMethod -> result string) :=
    Ok ({| ClaimsUserID := 1; ClaimsRole := "user";
           ExpiresAt := 1700090000; IssuedAt := 1700000000 |}, true) in
  let blocked :=
    DB.setUsers
      (map (fun u => {| User.ID := User.ID u; User.Phone := User.Phone u;
                        User.PasswordHash := User.PasswordHash u;
                        User.FirstName := User.FirstName u;
                        User.LastName := User.LastName u;
                        User.PhotoURL := User.PhotoURL u; User.Role := User.Role u;
                        User.HelperName := User.HelperName u;
                        User.CreatedAt := User.CreatedAt u;
                        User.UpdatedAt := User.UpdatedAt u;
                        User.IsActive := false |}) (DB.users Sample.db))
      Sample.db in
  let ctx := Sample.asUser 0 "" in
  let req := {| LoginPhone := "+79990000001"; LoginPassword := "secret1" |} in
  serve (Api.RefreshToken (fun _ _ => Ok "fresh") parse Sample.cfg "Bearer old" ctx)
    blocked
  = (blocked, WriteJSON StatusOK (Json.Obj [("token", Json.Str "fresh")]))
  /\ serve (Handlers.Login (fun _ _ => true) (fun _ _ => Ok "fresh") Sample.cfg
              (Some req) ctx) blocked
     = (blocked, WriteError (App (NewForbiddenError "Аккаунт деактивирован"))).
Proof.
  intros parse blocked ctx req.
  apply (refresh_ignores_deactivation (fun _ _ => true) (fun _ _ => Ok "fresh") parse
           Sample.cfg ctx blocked "old" "fresh"
           {| ClaimsUserID := 1; ClaimsRole := "user";
              ExpiresAt := 1700090000; IssuedAt := 1700000000 |}
           {| User.ID := 1; User.Phone := "+79990000001";
              User.PasswordHash := "$2a$10$ivanivanivanivanivaniv";
              User.FirstName := "Ivan"; User.LastName := "Petrov";
              User.PhotoURL := Some "http://minio/user-photos/users/1/photo.jpg";
              User.Role := "user"; User.HelperName := None;
              User.CreatedAt := 1700000000; User.UpdatedAt := 1700000000;
              User.IsActive := false |} req);
    try reflexivity; discriminate.
Defined.

(** ** Changing the password *)

Section Passwords.
Variable CompareHashAndPassword : string -> string -> bool.
Variable GenerateFromPassword : string -> result string.
Variable SignedString : Claims -> string -> result string.
Variable RuneCountInString : string -> Z.
Variable cfg : Config.

Let ChangePassword :=
  Api.ChangePassword CompareHashAndPassword GenerateFromPassword RuneCountInString.

(** Every run either leaves the store alone or, the old password accepted,
    writes the new hash to the caller's row. *)
Lemma ChangePassword_store (body : option ChangePasswordRequest) (ctx : Ctx) (db : DB.t) :
  fst (serve (ChangePassword body ctx) db) = db
  \/ exists userID user req newHash,
      CtxUserID ctx = Some userID /\ body = Some req
      /\ DB.GetUserByID db userID = Ok user
      /\ CompareHashAndPassword (User.PasswordHash user) (OldPassword req) = true
      /\ GenerateFromPassword (NewPassword req) = Ok newHash
      /\ serve (ChangePassword body ctx) db
         = (Gateway.UpdateUserPassword db userID newHash (Now ctx),
            WriteSuccess StatusOK "Пароль успешно изменен").
Proof.
  subst ChangePassword. unfold Api.ChangePassword. run_handler.
  unfold GetUserIDFromContext.
  destruct (CtxUserID ctx) as [userID|]; cbv beta iota; [|now left].
  destruct body as [req|]; cbv beta iota; [|now left].
  destruct (ValidateStruct _); cbv beta iota; [|now left].
  destruct (DB.GetUserByID db userID) as [user|e] eqn:Huser; cbv beta iota; [|now left].
  unfold Handlers.CheckPassword.
  destruct (CompareHashAndPassword _ _) eqn:Hpw; cbn [negb]; cbv beta iota; [|now left].
  unfold Api.HashPassword.
  destruct (GenerateFromPassword _) as [newHash|e] eqn:Hhash; cbv beta iota; [|now left].
  right. exists userID, user, req, newHash. repeat split; auto.
Qed.

Lemma UpdateUserPassword_frame (db : DB.t) (userID : Z) (newHash : string) (now : Time) :
  let db' := Gateway.UpdateUserPassword db userID newHash now in
  Forall2 (fun u u' => sameUserButPassword u u'
                       /\ (User.ID u <> userID -> u' = u)) (DB.users db) (DB.users db')
  /\ DB.verifications db' = DB.verifications db /\ DB.posts db' = DB.posts db
  /\ DB.post_media db' = DB.post_media db /\ DB.donations db' = DB.donations db
  /\ DB.messages db' = DB.messages db /\ DB.ratings db' = DB.ratings db.
Proof.
  cbv zeta. unfold Gateway.UpdateUserPassword.
  cbn [DB.users DB.verifications DB.posts DB.post_media DB.donations DB.messages
       DB.ratings DB.setUsers].
  repeat split. unfold DB.update.
  induction (DB.users db) as [|u rows IH]; cbn [map]; constructor; auto.
  destruct (Z.eqb_spec (User.ID u) userID); unfold sameUserButPassword; cbn;
    repeat split; auto; contradiction.
Qed.

Lemma GetUserByPhone_new_hash (db : DB.t) (phone : string) (user : User.t)
      (newHash : string) (now : Time) :
  DB.GetUserByPhone db phone = Ok user ->
  exists user',
    DB.GetUserByPhone (Gateway.UpdateUserPassword db (User.ID user) newHash now) phone
    = Ok user'
    /\ User.PasswordHash user' = newHash /\ User.IsActive user' = User.IsActive user.
Proof.
  intros Hfound. apply queryRow_Ok in Hfound.
  unfold DB.GetUserByPhone, Gateway.UpdateUserPassword, DB.queryRow.
  cbn [DB.users DB.setUsers]. rewrite find_update by reflexivity.
  rewrite Hfound. cbn [option_map]. rewrite Z.eqb_refl.
  eexists. split; [reflexivity|]. split; reflexivity.
Qed.

End Passwords.

(** X14. A password change writes only when bcrypt accepts the old
    password against the caller's stored hash, and what it writes is the
    new hash and the update time of the caller's own row: every other user
    row and every other table is left as it was, whatever the request. *)
Theorem password_change_needs_the_old_password
        (CompareHashAndPassword : string -> string -> bool)
        (GenerateFromPassword : string -> result string)
        (RuneCountInString : string -> Z)
        (body : option ChangePasswordRequest) (ctx : Ctx) (db : DB.t) :
  let run := serve (Api.ChangePassword CompareHashAndPassword GenerateFromPassword
                      RuneCountInString body ctx) db in
  (fst run <> db ->
   exists userID user req,
     CtxUserID ctx = Some userID /\ body = Some req
     /\ DB.GetUserByID db userID = Ok user
     /\ CompareHashAndPassword (User.PasswordHash user) (OldPassword req) = true)
  /\ (forall userID user req,
         CtxUserID ctx = Some userID -> body = Some req ->
         DB.GetUserByID db userID = Ok user ->
         OldPassword req <> "" -> NewPassword req <> "" ->
         6 <= RuneCountInString (NewPassword req) ->
         CompareHashAndPassword (User.PasswordHash user) (OldPassword req) = false ->
         run = (db, WriteError (App (NewUnauthorizedError "Неверный старый пароль"))))
  /\ Forall2 (fun u u' => sameUserButPassword u u'
                          /\ (CtxUserID ctx <> Some (User.ID u) -> u' = u))
       (DB.users db) (DB.users (fst run))
  /\ DB.verifications (fst run) = DB.verifications db
  /\ DB.posts (fst run) = DB.posts db
  /\ DB.post_media (fst run) = DB.post_media db
  /\ DB.donations (fst run) = DB.donations db
  /\ DB.messages (fst run) = DB.messages db
  /\ DB.ratings (fst run) = DB.ratings db.
Proof.
  cbv zeta.
  pose proof (ChangePassword_store CompareHashAndPassword GenerateFromPassword
                RuneCountInString body ctx db) as Hstore.
  split; [|split].
  - intros Hchanged.
    destruct Hstore as [Hsame|(userID & user & req & h & H1 & H2 & H3 & H4 & _)];
      [contradiction|].
    exists userID, user, req. auto.
  - intros userID user req Hctx -> Huser Hold Hnew Hlen Hpw.
    unfold Api.ChangePassword. run_handler.
    unfold GetUserIDFromContext. rewrite Hctx. cbv beta iota.
    unfold Api.validateChangePasswordRequest, required, Api.requiredMin.
    destruct (String.eqb_spec (OldPassword req) ""); [contradiction|].
    destruct (String.eqb_spec (NewPassword req) ""); [contradiction|].
    destruct (Z.ltb_spec (RuneCountInString (NewPassword req)) 6); [lia|].
    cbn [app ValidateStruct]. cbv beta iota. rewrite Huser. cbv beta iota.
    unfold Handlers.CheckPassword. rewrite Hpw. reflexivity.
  - destruct Hstore as [->|(userID & user & req & h & Hctx & _ & _ & _ & _ & ->)].
    + repeat split; auto. apply Forall2_same. intros u.
      unfold sameUserButPassword. repeat split; auto.
    + cbn [fst].
      destruct (UpdateUserPassword_frame db userID h (Now ctx))
        as (Hu & Hv & Hp & Hm & Hd & Hmsg & Hr).
      repeat split; auto.
      eapply Forall2_impl; [|exact Hu].
      intros u u' [Hsame Hother]. split; [exact Hsame|].
      intros Hnot. apply Hother. rewrite Hctx in Hnot. congruence.
Qed.

(** X15. After a successful password change the login verdict for that
    account is bcrypt's verdict against the new hash: a password that
    bcrypt rejects against it gets 401, the old one included, and one that
    bcrypt accepts is not turned away as a wrong password. *)
Theorem changed_password_is_the_login_password
        (CompareHashAndPassword : string -> string -> bool)
        (GenerateFromPassword : string -> result string)
        (SignedString : Claims -> string -> result string)
        (RuneCountInString : string -> Z) (cfg : Config)
        (req : ChangePasswordRequest) (ctx : Ctx) (db : DB.t)
        (user : User.t) (newHash : string) :
  CtxUserID ctx = Some (User.ID user) ->
  DB.GetUserByID db (User.ID user) = Ok user ->
  OldPassword req <> "" -> NewPassword req <> "" ->
  6 <= RuneCountInString (NewPassword req) ->
  CompareHashAndPassword (User.PasswordHash user) (OldPassword req) = true ->
  GenerateFromPassword (NewPassword req) = Ok newHash ->
  let run := serve (Api.ChangePassword CompareHashAndPassword GenerateFromPassword
                      RuneCountInString (Some req) ctx) db in
  StatusCode (snd run) = StatusOK
  /\ forall (login : LoginRequest) (ctx' : Ctx),
      LoginPhone login <> "" -> LoginPassword login <> "" ->
      DB.GetUserByPhone db (FormatPhone (LoginPhone login)) = Ok user ->
      let answer :=
        snd (serve (Handlers.Login CompareHashAndPassword SignedString cfg
                      (Some login) ctx') (fst run)) in
      (CompareHashAndPassword newHash (LoginPassword login) = false ->
       answer = WriteError (App (NewUnauthorizedError "Неверные учетные данные")))
      /\ (CompareHashAndPassword newHash (LoginPassword login) = true ->
          StatusCode answer <> StatusUnauthorized).
Proof.
  intros Hctx Huser Hold Hnew Hlen Hpw Hhash. cbv zeta.
  assert (Hrun : serve (Api.ChangePassword CompareHashAndPassword GenerateFromPassword
                          RuneCountInString (Some req) ctx) db
                 = (Gateway.UpdateUserPassword db (User.ID user) newHash (Now ctx),
                    WriteSuccess StatusOK "Пароль успешно изменен")).
  { unfold Api.ChangePassword. run_handler.
    unfold GetUserIDFromContext. rewrite Hctx. cbv beta iota.
    unfold Api.validateChangePasswordRequest, required, Api.requiredMin.
    destruct (String.eqb_spec (OldPassword req) ""); [contradiction|].
    destruct (String.eqb_spec (NewPassword req) ""); [contradiction|].
    destruct (Z.ltb_spec (RuneCountInString (NewPassword req)) 6); [lia|].
    cbn [app ValidateStruct]. cbv beta iota. rewrite Huser. cbv beta iota.
    unfold Handlers.CheckPassword. rewrite Hpw. cbn [negb]. cbv beta iota.
    unfold Api.HashPassword. rewrite Hhash. reflexivity. }
  rewrite Hrun. cbn [fst snd]. split; [reflexivity|].
  intros login ctx' Hphone Hpass Hfound.
  destruct (GetUserByPhone_new_hash db _ user newHash (Now ctx) Hfound)
    as (user' & Hfound' & Hhash' & Hactive).
  split.
  - intros Hrej. apply Login_rejected; auto.
    unfold passwordAccepted, Handlers.CheckPassword. rewrite Hfound', Hhash'. exact Hrej.
  - intros Hacc. unfold Handlers.Login. run_handler.
    unfold validateLoginRequest, required.
    destruct (String.eqb_spec (LoginPhone login) ""); [contradiction|].
    destruct (String.eqb_spec (LoginPassword login) ""); [contradiction|].
    cbn [app ValidateStruct]. cbv beta iota. rewrite Hfound'. cbv beta iota.
    unfold Handlers.CheckPassword. rewrite Hhash', Hacc. cbn [negb]. cbv beta iota.
    destruct (negb (User.IsActive user')); cbv beta iota; [status_differs|].
    destruct (Handlers.GenerateToken _ _ _ _ _ _); status_differs.
Qed.

Lemma changed_password_is_the_login_password_witness :
  let bcrypt (hash password : string) := String.eqb hash ("hash of " ++ password) in
  let generate (password : string) := Ok ("hash of " ++ password) in
  let runes (s : string) := Z.of_nat (String.length s) in
  let db := DB.setUsers [User.withPasswordHash "hash of old-secret" Sample.ivan]
              Sample.db in
  let run := serve (Api.ChangePassword bcrypt generate runes
                      (Some {| OldPassword := "old-secret";
                               NewPassword := "new-secret" |})
                      (Sample.asUser 1 "user")) db in
  StatusCode (snd run) = StatusOK
  /\ forall (login : LoginRequest) (ctx' : Ctx),
      LoginPhone login <> "" -> LoginPassword login <> "" ->
      DB.GetUserByPhone db (FormatPhone (LoginPhone login))
      = Ok (User.withPasswordHash "hash of old-secret" Sample.ivan) ->
      let answer :=
        snd (serve (Handlers.Login bcrypt (fun _ _ => Ok "token") Sample.cfg
                      (Some login) ctx') (fst run)) in
      (bcrypt "hash of new-secret" (LoginPassword login) = false ->
       answer = WriteError (App (NewUnauthorizedError "Неверные учетные данные")))
      /\ (bcrypt "hash of new-secret" (LoginPassword login) = true ->
          StatusCode answer <> StatusUnauthorized).
Proof.
  intros bcrypt generate runes db.
  apply (changed_password_is_the_login_password bcrypt generate
           (fun _ _ => Ok "token") runes Sample.cfg
           {| OldPassword := "old-secret"; NewPassword := "new-secret" |}
           (Sample.asUser 1 "user") db
           (User.withPasswordHash "hash of old-secret" Sample.ivan)
           "hash of new-secret");
    try reflexivity; try discriminate.
Defined.

(** ** Editing posts *)

Section Posts.
Variable validateUpdatePostRequest : UpdatePostRequest -> list (string * string).
Variable PutObject : string -> string -> FileHeader -> bool.
Variable cfg : Config.

Lemma UpdatePost_store (id : option Z) (body : option UpdatePostRequest) (ctx : Ctx)
      (db : DB.t) :
  fst (serve (Api.UpdatePost validateUpdatePostRequest id body ctx) db) = db
  \/ exists postID post req,
      id = Some postID /\ DB.GetPostByID db postID = Ok post
      /\ CtxUserID ctx = Some (Post.UserID post)
      /\ fst (serve (Api.UpdatePost validateUpdatePostRequest id body ctx) db)
         = Gateway.UpdatePost db postID (PatchTitle req) (PatchDescription req)
             (PatchAmount req) (PatchRecipient req) (PatchBank req) (PatchPhone req)
             (Now ctx).
Proof.
  unfold Api.UpdatePost. run_handler. unfold GetUserIDFromContext.
  destruct id as [postID|]; cbv beta iota; [|now left].
  destruct (CtxUserID ctx) as [userID|]; cbv beta iota; [|now left].
  destruct (DB.GetPostByID db postID) as [post|e] eqn:Hpost; cbv beta iota; [|now left].
  destruct (Z.eqb_spec (Post.UserID post) userID) as [Hown|Hown]; cbn [negb];
    cbv beta iota; [|now left].
  destruct body as [req|]; cbv beta iota; [|now left].
  destruct (ValidateStruct _); cbv beta iota; [|now left].
  right. exists postID, post, req. subst userID. repeat split; auto.
  match goal with
  | |- context [DB.GetPostByID ?s ?i] => destruct (DB.GetPostByID s i)
  end; reflexivity.
Qed.

Lemma Gateway_UpdatePost_frame (db : DB.t) (id : Z) (title description : option string)
      (amount : option Money) (recipient bank phone : option string) (now : Time) :
  let db' := Gateway.UpdatePost db id title description amount recipient bank phone now in
  Forall2 (fun p p' =>
             Post.ID p' = Post.ID p /\ Post.UserID p' = Post.UserID p
             /\ Post.Collected p' = Post.Collected p /\ Post.Status p' = Post.Status p
             /\ Post.CreatedAt p' = Post.CreatedAt p
             /\ Post.IsEditable p' = Post.IsEditable p
             /\ (Post.ID p <> id -> p' = p))
    (DB.posts db) (DB.posts db')
  /\ DB.users db' = DB.users db /\ DB.verifications db' = DB.verifications db
  /\ DB.post_media db' = DB.post_media db /\ DB.donations db' = DB.donations db
  /\ DB.messages db' = DB.messages db /\ DB.ratings db' = DB.ratings db.
Proof.
  cbv zeta.
  assert (Hsame : Forall2 (fun p p' =>
             Post.ID p' = Post.ID p /\ Post.UserID p' = Post.UserID p
             /\ Post.Collected p' = Post.Collected p /\ Post.Status p' = Post.Status p
             /\ Post.CreatedAt p' = Post.CreatedAt p
             /\ Post.IsEditable p' = Post.IsEditable p
             /\ (Post.ID p <> id -> p' = p)) (DB.posts db) (DB.posts db)).
  { apply Forall2_same. intros p. repeat split; auto. }
  unfold Gateway.UpdatePost.
  destruct title, description, amount, recipient, bank, phone;
    try (repeat split; auto; fail);
    cbn [DB.users DB.verifications DB.post_media DB.donations DB.messages DB.ratings
         DB.posts DB.setPosts];
    (split; [|repeat split]);
    unfold DB.update; clear Hsame;
    induction (DB.posts db) as [|p rows IH]; cbn [map]; constructor; auto;
    destruct (Z.eqb_spec (Post.ID p) id); cbn; repeat split; auto; contradiction.
Qed.

End Posts.

(** X16. Only the owner of a post can edit it, add media to it or delete
    media through it: for any other caller, an admin included, the three
    handlers answer 403 and leave the store unchanged. *)
Theorem post_changes_are_for_the_owner_only
        (validateUpdatePostRequest : UpdatePostRequest -> list (string * string))
        (PutObject : string -> string -> FileHeader -> bool) (cfg : Config)
        (db : DB.t) (ctx : Ctx) (userID postID : Z) (post : Post.t) :
  CtxUserID ctx = Some userID ->
  DB.GetPostByID db postID = Ok post ->
  Post.UserID post <> userID ->
  let denied := (db, WriteError (App (NewForbiddenError "Недостаточно прав"))) in
  (forall body,
      serve (Api.UpdatePost validateUpdatePostRequest (Some postID) body ctx) db = denied)
  /\ (forall body,
         serve (Api.AddPostMedia PutObject cfg (Some postID) body ctx) db = denied)
  /\ (forall mediaID,
         serve (Api.DeletePostMedia (Some postID) (Some mediaID) ctx) db = denied).
Proof.
  intros Hctx Hpost Hown. cbv zeta. apply Z.eqb_neq in Hown.
  split; [|split]; intros x;
    [unfold Api.UpdatePost|unfold Api.AddPostMedia|unfold Api.DeletePostMedia];
    run_handler; unfold GetUserIDFromContext; rewrite Hctx; cbv beta iota;
    rewrite Hpost; cbv beta iota; rewrite Hown; reflexivity.
Qed.

Lemma post_changes_are_for_the_owner_only_witness :
  let ctx := Sample.asUser 3 "admin" in
  let denied := (Sample.db, WriteError (App (NewForbiddenError "Недостаточно прав"))) in
  (forall body,
      serve (Api.UpdatePost (fun _ => []) (Some 10) body ctx) Sample.db = denied)
  /\ (forall body,
         serve (Api.AddPostMedia (fun _ _ _ => true) Sample.cfg (Some 10) body ctx)
           Sample.db = denied)
  /\ (forall mediaID,
         serve (Api.DeletePostMedia (Some 10) (Some mediaID) ctx) Sample.db = denied).
Proof.
  intros ctx.
  apply (post_changes_are_for_the_owner_only (fun _ => []) (fun _ _ _ => true)
           Sample.cfg Sample.db ctx 3 10 Sample.post); try reflexivity.
  cbn. lia.
Defined.

(** X17. Whatever the request, editing a post never changes the id, owner,
    collected amount, status, creation time or editable flag of any post,
    changes no post but the one named in the path and no other table; and
    the store changes at all only when the caller owns that post. *)
Theorem post_edit_keeps_owner_and_money
        (validateUpdatePostRequest : UpdatePostRequest -> list (string * string))
        (id : option Z) (body : option UpdatePostRequest) (ctx : Ctx) (db : DB.t) :
  let db' := fst (serve (Api.UpdatePost validateUpdatePostRequest id body ctx) db) in
  Forall2 (fun p p' =>
             Post.ID p' = Post.ID p /\ Post.UserID p' = Post.UserID p
             /\ Post.Collected p' = Post.Collected p /\ Post.Status p' = Post.Status p
             /\ Post.CreatedAt p' = Post.CreatedAt p
             /\ Post.IsEditable p' = Post.IsEditable p
             /\ (id <> Some (Post.ID p) -> p' = p))
    (DB.posts db) (DB.posts db')
  /\ DB.users db' = DB.users db /\ DB.verifications db' = DB.verifications db
  /\ DB.post_media db' = DB.post_media db /\ DB.donations db' = DB.donations db
  /\ DB.messages db' = DB.messages db /\ DB.ratings db' = DB.ratings db
  /\ (db' <> db ->
      exists postID post,
        id = Some postID /\ DB.GetPostByID db postID = Ok post
        /\ CtxUserID ctx = Some (Post.UserID post)).
Proof.
  cbv zeta.
  destruct (UpdatePost_store validateUpdatePostRequest id body ctx db)
    as [->|(postID & post & req & -> & Hpost & Hctx & ->)].
  - repeat split; auto; [|contradiction].
    apply Forall2_same. intros p. repeat split; auto.
  - destruct (Gateway_UpdatePost_frame db postID (PatchTitle req) (PatchDescription req)
                (PatchAmount req) (PatchRecipient req) (PatchBank req) (PatchPhone req)
                (Now ctx)) as (Hposts & Hu & Hv & Hm & Hd & Hmsg & Hr).
    split; [|repeat split; eauto].
    eapply Forall2_impl; [|exact Hposts].
    intros p p' (H1 & H2 & H3 & H4 & H5 & H6 & H7). repeat split; auto.
    intros Hother. apply H7. congruence.
Qed.

(** X18. Deleting media checks that the caller owns the post named in the
    path and then deletes by media id alone: the row with that id goes,
    also when it belongs to a post of somebody else, and nothing else
    changes. *)
Theorem media_deletion_ignores_the_post_in_the_path
        (db : DB.t) (ctx : Ctx) (postID mediaID : Z) (post : Post.t) :
  DB.GetPostByID db postID = Ok post ->
  CtxUserID ctx = Some (Post.UserID post) ->
  let run := serve (Api.DeletePostMedia (Some postID) (Some mediaID) ctx) db in
  StatusCode (snd run) = StatusNoContent
  /\ DB.post_media (fst run)
     = filter (fun m => negb (PostMedia.ID m =? mediaID)) (DB.post_media db)
  /\ (forall m, In m (DB.post_media db) -> PostMedia.ID m = mediaID ->
                ~ In m (DB.post_media (fst run)))
  /\ DB.posts (fst run) = DB.posts db /\ DB.users (fst run) = DB.users db
  /\ DB.verifications (fst run) = DB.verifications db
  /\ DB.donations (fst run) = DB.donations db
  /\ DB.messages (fst run) = DB.messages db /\ DB.ratings (fst run) = DB.ratings db.
Proof.
  intros Hpost Hctx. cbv zeta.
  assert (Hrun : serve (Api.DeletePostMedia (Some postID) (Some mediaID) ctx) db
                 = (Gateway.DeletePostMedia db mediaID,
                    {| StatusCode := StatusNoContent; Body := None |})).
  { unfold Api.DeletePostMedia. run_handler. unfold GetUserIDFromContext.
    rewrite Hctx. cbv beta iota. rewrite Hpost. cbv beta iota.
    rewrite Z.eqb_refl. reflexivity. }
  rewrite Hrun. cbn [fst snd]. unfold Gateway.DeletePostMedia.
  cbn [DB.post_media DB.posts DB.users DB.verifications DB.donations DB.messages
       DB.ratings DB.setPostMedia].
  repeat split.
  intros m _ Hid Hin. unfold DB.delete in Hin. apply filter_In in Hin as [_ Hin].
  apply negb_true_iff, Z.eqb_neq in Hin. contradiction.
Qed.

Lemma media_deletion_ignores_the_post_in_the_path_witness :
  let foreign :=
    {| PostMedia.ID := 7; PostMedia.PostID := 99;
       PostMedia.MediaURL := "http://localhost/post-media/posts/99/media_0.jpg";
       PostMedia.MediaType := "image"; PostMedia.OrderIndex := 0;
       PostMedia.CreatedAt := 1700005000 |} in
  let db := DB.setPostMedia [foreign] 8 Sample.db in
  let run := serve (Api.DeletePostMedia (Some 10) (Some 7) (Sample.asUser 1 "user")) db in
  StatusCode (snd run) = StatusNoContent /\ DB.post_media (fst run) = [].
Proof.
  intros foreign db.
  destruct (media_deletion_ignores_the_post_in_the_path db (Sample.asUser 1 "user")
              10 7 Sample.post eq_refl eq_refl) as (Hstatus & Hrows & _).
  split; [exact Hstatus|exact Hrows].
Defined.

(** ** Reviewing verifications *)



Section PostGate.
Variable ParseFloat : string -> Money.
Variable PutObject : string -> string -> FileHeader -> bool.
Variable cfg : Config.
Variable pg : DB.Server.


End PostGate.





(** ** The profile photo *)

Lemma GetObjectURL_nonempty (cfg : Minio.MinIOConfig) (bucket objectKey : string) :
  String.eqb (Minio.GetObjectURL cfg bucket objectKey) "" = false.
Proof. unfold Minio.GetObjectURL. destruct (Minio.UseSSL cfg); reflexivity. Qed.

Lemma GetObjectURL_proxied (cfg : Minio.MinIOConfig) (bucket objectKey : string) :
  GoStrings.Contains (Minio.Endpoint cfg) "/" = false ->
  Minio.isBucket bucket = true ->
  Minio.ConvertMinIOURLToBackendURL (Minio.GetObjectURL cfg bucket objectKey)
  = "/files/" ++ bucket ++ "/" ++ objectKey.
Proof.
  intros Hslash Hb. unfold Minio.GetObjectURL. cbv zeta. apply Convert_stored.
  - destruct (Minio.UseSSL cfg); auto.
  - now apply storedHost_no_slash.
  - exact Hb.
Qed.

(** X21. A photo upload that passes the checks stores the object under
    [users/{id}/photo{ext}], the extension taken from the Content-Type and
    not from the file name, and answers with the proxy path of that object;
    the profile read afterwards shows the same path as [photo_url], and
    otherwise the user as before with the update time of the upload.  (The
    object-store endpoint has no slash in it.) *)
Theorem uploaded_photo_is_the_profile_photo
        (PutObject : string -> string -> FileHeader -> bool) (cfg : Config)
        (db : DB.t) (ctx : Ctx) (userID : Z) (user : User.t)
        (form : MultipartForm) (header : FileHeader) :
  CtxUserID ctx = Some userID ->
  DB.GetUserByID db userID = Ok user ->
  FormFile form "photo" = Some header ->
  Size header <= 5 * 2 ^ 20 ->
  ValidateImageFile header = Ok tt ->
  GoStrings.Contains (Minio.Endpoint (MinIOConfig cfg)) "/" = false ->
  let objectKey :=
    "users/" ++ GoStrings.itoa userID ++ "/photo"
    ++ getExtensionFromContentType (ContentType header) in
  PutObject Minio.BucketUserPhotos objectKey header = true ->
  let path := "/files/user-photos/" ++ objectKey in
  let run := serve (Api.UploadPhoto PutObject cfg (Parsed form) ctx) db in
  snd run = WriteJSON StatusOK (Json.Obj [("photo_url", Json.Str path)])
  /\ snd (serve (Handlers.GetProfile ctx) (fst run))
     = WriteJSON StatusOK
         (Json.ofUser
            {| User.ID := User.ID user; User.Phone := User.Phone user;
               User.PasswordHash := "";
               User.FirstName := User.FirstName user;
               User.LastName := User.LastName user;
               User.PhotoURL := Some path; User.Role := User.Role user;
               User.HelperName := User.HelperName user;
               User.CreatedAt := User.CreatedAt user; User.UpdatedAt := Now ctx;
               User.IsActive := User.IsActive user |}).
Proof.
  intros Hctx Huser Hfile Hsize Himage Hslash objectKey Hput path. cbv zeta.
  assert (Hrun : serve (Api.UploadPhoto PutObject cfg (Parsed form) ctx) db
                 = (DB.UpdateUser db userID None None None
                      (Some (Minio.GetObjectURL (MinIOConfig cfg) Minio.BucketUserPhotos
                               objectKey)) (Now ctx),
                    WriteJSON StatusOK (Json.Obj [("photo_url", Json.Str path)]))).
  { unfold Api.UploadPhoto. run_handler.
    unfold GetUserIDFromContext. rewrite Hctx. cbn [ParseMultipartForm]. cbv beta iota.
    unfold GetFileFromForm. rewrite Hfile. cbv beta iota.
    unfold ValidateFileSize.
    destruct (Z.ltb_spec (5 * 2 ^ 20) (Size header)); [lia|]. cbv beta iota.
    rewrite Himage. cbv beta iota.
    unfold Api.UploadUserPhoto. cbv zeta. fold objectKey. rewrite Hput. cbv beta iota.
    rewrite GetObjectURL_proxied by (auto; reflexivity). reflexivity. }
  rewrite Hrun. cbn [fst snd]. split; [reflexivity|].
  unfold Handlers.GetProfile. run_handler.
  unfold GetUserIDFromContext. rewrite Hctx. cbv beta iota.
  apply queryRow_Ok in Huser.
  unfold DB.GetUserByID, DB.UpdateUser, DB.queryRow. cbn [DB.users DB.setUsers].
  rewrite find_update by reflexivity. rewrite Huser. cbn [option_map].
  apply find_some in Huser as [_ Hid]. rewrite Hid. cbv beta iota.
  unfold Handlers.proxiedPhoto.
  cbn [User.withPasswordHash User.PhotoURL User.withPhotoURL DB.orElse
       User.ID User.Phone User.FirstName User.LastName User.Role User.HelperName
       User.CreatedAt User.UpdatedAt User.IsActive User.PasswordHash].
  rewrite GetObjectURL_nonempty. cbn [negb].
  rewrite GetObjectURL_proxied by (auto; reflexivity).
  reflexivity.
Qed.

Lemma uploaded_photo_is_the_profile_photo_witness :
  let header := {| Filename := "me.PNG"; Size := 204800;
                   ContentType := "image/jpeg"; Opens := true |} in
  let form := {| Values := []; Files := [("photo", [header])] |} in
  let ctx := Sample.asUser 1 "user" in
  let run := serve (Api.UploadPhoto (fun _ _ _ => true) Sample.cfg (Parsed form) ctx)
               Sample.db in
  snd run = WriteJSON StatusOK
              (Json.Obj [("photo_url",
                          Json.Str "/files/user-photos/users/1/photo.jpg")])
  /\ snd (serve (Handlers.GetProfile ctx) (fst run))
     = WriteJSON StatusOK
         (Json.ofUser
            {| User.ID := 1; User.Phone := "+79990000001"; User.PasswordHash := "";
               User.FirstName := "Ivan"; User.LastName := "Petrov";
               User.PhotoURL := Some "/files/user-photos/users/1/photo.jpg";
               User.Role := "user"; User.HelperName := None;
               User.CreatedAt := 1700000000; User.UpdatedAt := 1700009000;
               User.IsActive := true |}).
Proof.
  intros header form ctx.
  apply (uploaded_photo_is_the_profile_photo (fun _ _ _ => true) Sample.cfg Sample.db
           ctx 1 Sample.ivan form header); try reflexivity.
  cbn. lia.
Defined.

(** ** Reading one's own rating *)

Lemma setRatings_same (db : DB.t) :
  DB.setRatings (DB.ratings db) (DB.ratings_seq db) db = db.
Proof. destruct db; reflexivity. Qed.

Lemma GetOrCreateRating_again (db : DB.t) (userID : Z) (now now' : Time) :
  DB.GetOrCreateRating (fst (DB.GetOrCreateRating db userID now)) userID now'
  = (fst (DB.GetOrCreateRating db userID now), snd (DB.GetOrCreateRating db userID now)).
Proof.
  unfold DB.GetOrCreateRating at 2 3 4.
  destruct (find _ (DB.ratings db)) eqn:Hfind; cbn [fst snd].
  - unfold DB.GetOrCreateRating. now rewrite Hfind.
  - unfold DB.GetOrCreateRating. cbn [DB.ratings DB.setRatings].
    rewrite (find_app_none _ _ _ Hfind). cbn [Rating.UserID].
    now rewrite Z.eqb_refl.
Qed.

(** X22. Reading one's own rating creates the row when there is none: a
    user without a rating gets a fresh row with no points appended, a user
    with one leaves the store as it is, and in both cases no other user's
    row changes.  The answer is 200, and a second read, at any later time,
    changes nothing and answers the same.  (The caller is a user, as the
    foreign key of [user_id] requires.) *)
Theorem own_rating_is_created_on_first_read
        (db : DB.t) (ctx : Ctx) (userID : Z) (user : User.t) :
  CtxUserID ctx = Some userID ->
  DB.GetUserByID db userID = Ok user ->
  let run := serve (Api.GetMyRating ctx) db in
  StatusCode (snd run) = StatusOK
  /\ (ratingOf db userID = None ->
      DB.ratings (fst run)
      = (DB.ratings db
         ++ [{| Rating.ID := DB.ratings_seq db; Rating.UserID := userID;
                Rating.Points := 0; Rating.TotalDonated := 0;
                Rating.Status := None; Rating.UpdatedAt := Now ctx |}])%list)
  /\ (ratingOf db userID <> None -> fst run = db)
  /\ (forall other, other <> userID -> ratingOf (fst run) other = ratingOf db other)
  /\ (forall ctx', CtxUserID ctx' = Some userID ->
                   serve (Api.GetMyRating ctx') (fst run) = run).
Proof.
  intros Hctx _. cbv zeta.
  assert (Hrun : forall (c : Ctx) (s : DB.t),
             CtxUserID c = Some userID ->
             exists body,
               serve (Api.GetMyRating c) s
               = (fst (DB.GetOrCreateRating s userID (Now c)), WriteJSON StatusOK body)
               /\ forall c' s',
                   CtxUserID c' = Some userID ->
                   DB.GetOrCreateRating s' userID (Now c')
                   = (fst (DB.GetOrCreateRating s userID (Now c)),
                      snd (DB.GetOrCreateRating s userID (Now c))) ->
                   serve (Api.GetMyRating c') s'
                   = (fst (DB.GetOrCreateRating s userID (Now c)), WriteJSON StatusOK body)).
  { intros c s Hc. unfold Api.GetMyRating. run_handler.
    unfold GetUserIDFromContext. rewrite Hc. cbv beta iota.
    assert (Hok : exists r, snd (DB.GetOrCreateRating s userID (Now c)) = Ok r).
    { unfold DB.GetOrCreateRating. destruct (find _ _); eexists; reflexivity. }
    destruct Hok as [r Hr].
    destruct (DB.GetOrCreateRating s userID (Now c)) as [s1 created] eqn:Hcreated.
    cbn [fst snd] in *. subst created. cbv beta iota.
    eexists. split; [reflexivity|].
    intros c' s' Hc' Hagain. rewrite Hc'. cbv beta iota. rewrite Hagain.
    reflexivity. }
  destruct (Hrun ctx db Hctx) as [body [Hfirst Hsecond]].
  rewrite Hfirst. cbn [fst snd]. split; [reflexivity|].
  unfold ratingOf, DB.GetOrCreateRating.
  destruct (find (fun r => Rating.UserID r =? userID) (DB.ratings db)) eqn:Hfind;
    cbn [fst DB.ratings DB.setRatings].
  - split; [discriminate|]. split; [reflexivity|]. split; [reflexivity|].
    intros ctx' Hctx'. rewrite (Hsecond ctx' db Hctx').
    + unfold DB.GetOrCreateRating. rewrite Hfind. reflexivity.
    + unfold DB.GetOrCreateRating. rewrite Hfind. reflexivity.
  - split; [reflexivity|]. split; [congruence|]. split.
    + intros other Hother.
      destruct (find (fun r => Rating.UserID r =? other) (DB.ratings db)) eqn:Ho.
      * now apply find_app_some.
      * rewrite (find_app_none _ _ _ Ho). cbn [Rating.UserID].
        apply Z.eqb_neq in Hother. rewrite Z.eqb_sym. now rewrite Hother.
    + intros ctx' Hctx'.
      pose proof (GetOrCreateRating_again db userID (Now ctx) (Now ctx')) as Hagain.
      unfold DB.GetOrCreateRating at 2 3 4 in Hagain. rewrite Hfind in Hagain.
      cbn [fst snd] in Hagain.
      rewrite (Hsecond ctx' _ Hctx').
      * unfold DB.GetOrCreateRating. rewrite Hfind. reflexivity.
      * rewrite Hagain. unfold DB.GetOrCreateRating. rewrite Hfind. reflexivity.
Qed.

Lemma own_rating_is_created_on_first_read_witness :
  let run := serve (Api.GetMyRating (Sample.asUser 1 "user")) Sample.db in
  StatusCode (snd run) = StatusOK
  /\ DB.ratings (fst run)
     = [Sample.rating;
        {| Rating.ID := 2; Rating.UserID := 1; Rating.Points := 0;
           Rating.TotalDonated := 0; Rating.Status := None;
           Rating.UpdatedAt := 1700009000 |}].
Proof.
  intros run.
  destruct (own_rating_is_created_on_first_read Sample.db (Sample.asUser 1 "user") 1
              Sample.ivan eq_refl eq_refl) as (Hstatus & Hnew & _).
  split; [exact Hstatus|exact (Hnew eq_refl)].
Defined.

(** ** Adding media to a post *)

Lemma insertByOrder_length (m : PostMedia.t) (sorted : list PostMedia.t) :
  List.length (DB.insertByOrder m sorted) = S (List.length sorted).
Proof.
  induction sorted as [|x rest IH]; [reflexivity|].
  cbn [DB.insertByOrder]. destruct (_ <? _); cbn [List.length]; auto.
Qed.

Lemma orderByIndex_length (ms : list PostMedia.t) :
  List.length (DB.orderByIndex ms) = List.length ms.
Proof.
  unfold DB.orderByIndex.
  assert (H : forall acc,
             List.length (fold_left (fun acc m => DB.insertByOrder m acc) ms acc)
             = (List.length ms + List.length acc)%nat).
  { induction ms as [|m ms IH]; intros acc; [reflexivity|].
    cbn [fold_left List.length]. rewrite IH, insertByOrder_length. lia. }
  rewrite H. cbn [List.length]. lia.
Qed.

(** The number of media rows of a post. *)
Lemma GetPostMedia_length (db : DB.t) (postID : Z) :
  Z.of_nat (List.length (DB.GetPostMedia db postID))
  = DB.count (fun m => PostMedia.PostID m =? postID) (DB.post_media db).
Proof. unfold DB.GetPostMedia, DB.count. now rewrite orderByIndex_length. Qed.

Section AddingMedia.
Variable PutObject : string -> string -> FileHeader -> bool.
Variable cfg : Config.
Variables (ctx : Ctx) (postID : Z) (post : Post.t).
Variables (form : MultipartForm) (header : FileHeader).
Hypothesis Hctx : CtxUserID ctx = Some (Post.UserID post).
Hypothesis Hfile : FormFile form "media" = Some header.
Hypothesis Hsize : Size header <= 10 * 2 ^ 20.
Hypothesis Hmedia : ValidateMediaFile header = Ok tt.
Hypothesis Hput : forall key, PutObject Minio.BucketPostMedia key header = true.

(** The row that AddPostMedia inserts into a store. *)
Let added (db : DB.t) : PostMedia.t :=
  let n := DB.count (fun m => PostMedia.PostID m =? postID) (DB.post_media db) in
  {| PostMedia.ID := DB.post_media_seq db; PostMedia.PostID := postID;
     PostMedia.MediaURL :=
       Minio.GetObjectURL (MinIOConfig cfg) Minio.BucketPostMedia
         ("posts/" ++ GoStrings.itoa postID ++ "/media_" ++ GoStrings.itoa n
          ++ getExtensionFromContentType (ContentType header));
     PostMedia.MediaType := mediaTypeOf header;
     PostMedia.OrderIndex := n; PostMedia.CreatedAt := Now ctx |}.

Lemma AddPostMedia_run (db : DB.t) :
  DB.GetPostByID db postID = Ok post ->
  serve (Api.AddPostMedia PutObject cfg (Some postID) (Parsed form) ctx) db
  = (DB.setPostMedia (DB.post_media db ++ [added db]) (DB.post_media_seq db + 1) db,
     WriteJSON StatusCreated (Json.ofPostMedia (added db))).
Proof.
  intros Hpost. unfold Api.AddPostMedia. run_handler.
  unfold GetUserIDFromContext. rewrite Hctx. cbv beta iota.
  rewrite Hpost. cbv beta iota. rewrite Z.eqb_refl. cbn [negb ParseMultipartForm].
  cbv beta iota. unfold GetFileFromForm. rewrite Hfile. cbv beta iota.
  unfold ValidateFileSize.
  destruct (Z.ltb_spec (10 * 2 ^ 20) (Size header)); [lia|]. cbv beta iota.
  rewrite Hmedia. cbv beta iota.
  unfold Handlers.UploadPostMedia. cbv zeta. rewrite Hput. cbv beta iota.
  unfold DB.CreatePostMedia. cbv zeta beta iota.
  subst added. cbv beta zeta. rewrite GetPostMedia_length. reflexivity.
Qed.

End AddingMedia.

Lemma count_delete_one (postID : Z) (rows : list PostMedia.t) (m0 : PostMedia.t) :
  NoDup (map PostMedia.ID rows) ->
  In m0 rows ->
  PostMedia.PostID m0 = postID ->
  DB.count (fun m => PostMedia.PostID m =? postID)
    (DB.delete (fun m => PostMedia.ID m =? PostMedia.ID m0) rows) + 1
  = DB.count (fun m => PostMedia.PostID m =? postID) rows.
Proof.
  intros Hnd Hin Hpost. unfold DB.count, DB.delete.
  induction rows as [|m rows IH]; [contradiction|].
  cbn [map] in Hnd. inversion Hnd as [|? ? Hfresh Hnd']; subst.
  cbn [filter]. destruct Hin as [->|Hin].
  - rewrite Z.eqb_refl. cbn [negb]. rewrite Z.eqb_refl. cbn [List.length].
    assert (Hrest : filter (fun m => negb (PostMedia.ID m =? PostMedia.ID m0)) rows
                    = rows).
    { apply (delete_none (fun m => PostMedia.ID m =? PostMedia.ID m0)).
      intros x Hx. apply Z.eqb_neq. intros Heq. apply Hfresh.
      rewrite <- Heq. now apply in_map. }
    rewrite Hrest. lia.
  - assert (Hne : (PostMedia.ID m =? PostMedia.ID m0) = false).
    { apply Z.eqb_neq. intros Heq. apply Hfresh. rewrite Heq. now apply in_map. }
    rewrite Hne. cbn [negb filter].
    specialize (IH Hnd' Hin).
    destruct (PostMedia.PostID m =? PostMedia.PostID m0); cbn [List.length]; lia.
Qed.

(** X23. The order index of a new medium, and with it the object key, is
    the number of media the post has at that moment.  So when the owner
    adds a file, deletes an older medium of the post and adds a file of the
    same content type again, the second upload gets the index and the URL
    of the first, which is still listed: two rows point to one object.
    (Media ids are distinct and below the next value of their sequence.) *)
Theorem media_index_is_reused_after_a_deletion
        (PutObject : string -> string -> FileHeader -> bool) (cfg : Config)
        (db : DB.t) (ctx : Ctx) (postID : Z) (post : Post.t)
        (form : MultipartForm) (header : FileHeader) (old : PostMedia.t) :
  CtxUserID ctx = Some (Post.UserID post) ->
  DB.GetPostByID db postID = Ok post ->
  FormFile form "media" = Some header ->
  Size header <= 10 * 2 ^ 20 ->
  ValidateMediaFile header = Ok tt ->
  (forall key, PutObject Minio.BucketPostMedia key header = true) ->
  In old (DB.post_media db) ->
  PostMedia.PostID old = postID ->
  NoDup (map PostMedia.ID (DB.post_media db)) ->
  (forall m, In m (DB.post_media db) -> PostMedia.ID m < DB.post_media_seq db) ->
  let add := serve (Api.AddPostMedia PutObject cfg (Some postID) (Parsed form) ctx) in
  let db1 := fst (add db) in
  let db2 :=
    fst (serve (Api.DeletePostMedia (Some postID) (Some (PostMedia.ID old)) ctx) db1) in
  let db3 := fst (add db2) in
  exists first second,
    DB.post_media db1 = (DB.post_media db ++ [first])%list
    /\ DB.post_media db3 = (DB.post_media db2 ++ [second])%list
    /\ In first (DB.post_media db3)
    /\ PostMedia.ID first <> PostMedia.ID second
    /\ PostMedia.OrderIndex first
       = DB.count (fun m => PostMedia.PostID m =? postID) (DB.post_media db)
    /\ PostMedia.OrderIndex second = PostMedia.OrderIndex first
    /\ PostMedia.MediaURL second = PostMedia.MediaURL first.
Proof.
  intros Hctx Hpost Hfile Hsize Hmedia Hput Hin Hold Hnd Hseq. cbv zeta.
  rewrite (AddPostMedia_run PutObject cfg ctx postID post form header
             Hctx Hfile Hsize Hmedia Hput db Hpost).
  cbn [fst].
  set (n := DB.count (fun m => PostMedia.PostID m =? postID) (DB.post_media db)).
  set (first :=
         {| PostMedia.ID := DB.post_media_seq db; PostMedia.PostID := postID;
            PostMedia.MediaURL :=
              Minio.GetObjectURL (MinIOConfig cfg) Minio.BucketPostMedia
                ("posts/" ++ GoStrings.itoa postID ++ "/media_" ++ GoStrings.itoa n
                 ++ getExtensionFromContentType (ContentType header));
            PostMedia.MediaType := mediaTypeOf header;
            PostMedia.OrderIndex := n; PostMedia.CreatedAt := Now ctx |}).
  set (db1 := DB.setPostMedia (DB.post_media db ++ [first]) (DB.post_media_seq db + 1) db).
  assert (Hpost1 : DB.GetPostByID db1 postID = Ok post) by exact Hpost.
  assert (Hdelete : serve (Api.DeletePostMedia (Some postID) (Some (PostMedia.ID old)) ctx)
                      db1
                    = (Gateway.DeletePostMedia db1 (PostMedia.ID old),
                       {| StatusCode := StatusNoContent; Body := None |})).
  { unfold Api.DeletePostMedia. run_handler. unfold GetUserIDFromContext.
    rewrite Hctx. cbv beta iota. rewrite Hpost1. cbv beta iota.
    rewrite Z.eqb_refl. reflexivity. }
  rewrite Hdelete. cbn [fst].
  set (db2 := Gateway.DeletePostMedia db1 (PostMedia.ID old)).
  assert (Hpost2 : DB.GetPostByID db2 postID = Ok post) by exact Hpost.
  rewrite (AddPostMedia_run PutObject cfg ctx postID post form header
             Hctx Hfile Hsize Hmedia Hput db2 Hpost2).
  cbn [fst].
  assert (Hfresh : PostMedia.ID old <> DB.post_media_seq db).
  { specialize (Hseq old Hin). lia. }
  assert (Hrows2 : DB.post_media db2
                   = (DB.delete (fun m => PostMedia.ID m =? PostMedia.ID old)
                        (DB.post_media db) ++ [first])%list).
  { subst db2 db1. unfold Gateway.DeletePostMedia.
    cbn [DB.post_media DB.setPostMedia]. unfold DB.delete.
    rewrite filter_app. cbn [filter PostMedia.ID first].
    assert ((DB.post_media_seq db =? PostMedia.ID old) = false) as ->
        by (apply Z.eqb_neq; congruence).
    reflexivity. }
  assert (Hcount2 : DB.count (fun m => PostMedia.PostID m =? postID) (DB.post_media db2)
                    = n).
  { rewrite Hrows2. unfold DB.count. rewrite filter_app, length_app.
    cbn [filter PostMedia.PostID first]. rewrite Z.eqb_refl. cbn [List.length].
    pose proof (count_delete_one postID (DB.post_media db) old Hnd Hin Hold) as Hone.
    unfold DB.count in Hone. subst n. unfold DB.count. lia. }
  eexists first, _. split; [reflexivity|]. split; [reflexivity|].
  cbn [DB.post_media DB.setPostMedia PostMedia.ID PostMedia.OrderIndex
       PostMedia.MediaURL].
  rewrite Hcount2. fold n.
  split; [|split; [|repeat split]].
  - apply in_or_app. left. rewrite Hrows2. apply in_or_app. right. now left.
  - subst db2 db1. unfold Gateway.DeletePostMedia. cbn [DB.post_media_seq DB.setPostMedia
      first PostMedia.ID]. lia.
Qed.

Lemma media_index_is_reused_after_a_deletion_witness :
  let old := {| PostMedia.ID := 1; PostMedia.PostID := 10;
                PostMedia.MediaURL := "http://localhost/post-media/posts/10/media_0.jpg";
                PostMedia.MediaType := "image"; PostMedia.OrderIndex := 0;
                PostMedia.CreatedAt := 1700002000 |} in
  let db := DB.setPostMedia [old] 2 Sample.db in
  let header := {| Filename := "scan.png"; Size := 1024;
                   ContentType := "image/png"; Opens := true |} in
  let form := {| Values := []; Files := [("media", [header])] |} in
  let ctx := Sample.asUser 1 "user" in
  let add := serve (Api.AddPostMedia (fun _ _ _ => true) Sample.cfg (Some 10)
                      (Parsed form) ctx) in
  let db1 := fst (add db) in
  let db2 := fst (serve (Api.DeletePostMedia (Some 10) (Some 1) ctx) db1) in
  let db3 := fst (add db2) in
  exists first second,
    DB.post_media db1 = (DB.post_media db ++ [first])%list
    /\ DB.post_media db3 = (DB.post_media db2 ++ [second])%list
    /\ In first (DB.post_media db3)
    /\ PostMedia.ID first <> PostMedia.ID second
    /\ PostMedia.OrderIndex first
       = DB.count (fun m => PostMedia.PostID m =? 10) (DB.post_media db)
    /\ PostMedia.OrderIndex second = PostMedia.OrderIndex first
    /\ PostMedia.MediaURL second = PostMedia.MediaURL first.
Proof.
  intros old db header form ctx.
  apply (media_index_is_reused_after_a_deletion (fun _ _ _ => true) Sample.cfg db ctx
           10 Sample.post form header old); try reflexivity.
  - cbn. lia.
  - now left.
  - repeat constructor. intros [].
  - intros m Hm. cbn in Hm. destruct Hm as [<-|[]]. cbn. lia.
Defined.

(** ** What a profile update can reach *)

(** X24. A profile update can touch only the first name, last name, helper
    name and update time of the caller's own row: whatever the request, no
    user changes id, phone, password hash, photo, role, creation time or
    active flag, every other user's row is unchanged, and so is every other
    table. *)
Theorem profile_update_cannot_change_role_or_phone
        (body : option UpdateProfileRequest) (ctx : Ctx) (db : DB.t) :
  let db' := fst (serve (Handlers.UpdateProfile body ctx) db) in
  Forall2 (fun u u' =>
             User.ID u' = User.ID u /\ User.Phone u' = User.Phone u
             /\ User.PasswordHash u' = User.PasswordHash u
             /\ User.PhotoURL u' = User.PhotoURL u /\ User.Role u' = User.Role u
             /\ User.CreatedAt u' = User.CreatedAt u
             /\ User.IsActive u' = User.IsActive u
             /\ (CtxUserID ctx <> Some (User.ID u) -> u' = u))
    (DB.users db) (DB.users db')
  /\ DB.verifications db' = DB.verifications db /\ DB.posts db' = DB.posts db
  /\ DB.post_media db' = DB.post_media db /\ DB.donations db' = DB.donations db
  /\ DB.messages db' = DB.messages db /\ DB.ratings db' = DB.ratings db.
Proof.
  cbv zeta.
  assert (Hstore : fst (serve (Handlers.UpdateProfile body ctx) db) = db
                   \/ exists userID req,
                       CtxUserID ctx = Some userID
                       /\ fst (serve (Handlers.UpdateProfile body ctx) db)
                          = DB.UpdateUser db userID (ProfileFirstName req)
                              (ProfileLastName req) (ProfileHelperName req) None
                              (Now ctx)).
  { unfold Handlers.UpdateProfile. run_handler. unfold GetUserIDFromContext.
    destruct (CtxUserID ctx) as [userID|]; cbv beta iota; [|now left].
    destruct body as [req|]; cbv beta iota; [|now left].
    right. exists userID, req. split; [reflexivity|].
    destruct (DB.GetUserByID _ userID); reflexivity. }
  destruct Hstore as [->|(userID & req & Hctx & ->)].
  - repeat split; auto. apply Forall2_same. intros u. repeat split; auto.
  - unfold DB.UpdateUser.
    destruct (ProfileFirstName req), (ProfileLastName req), (ProfileHelperName req);
      cbn [DB.users DB.verifications DB.posts DB.post_media DB.donations DB.messages
           DB.ratings DB.setUsers];
      (split; [|repeat split]);
      try (apply Forall2_same; intros u; repeat split; auto; fail);
      unfold DB.update;
      induction (DB.users db) as [|u rows IH]; cbn [map]; constructor; auto;
      destruct (Z.eqb_spec (User.ID u) userID); cbn; repeat split; auto;
      intros Hnot; exfalso; apply Hnot; congruence.
Qed.

(** ** One verification per user *)

(** The INSERT at the end of CreateVerification, for a caller without a row. *)
Ltac insert_row Hnone userID :=
  right; unfold DB.CreateVerification;
  lazymatch goal with
  | |- context [existsb ?p ?l] =>
      let Hex := fresh "Hex" in
      let Hsome := fresh "Hsome" in
      assert (Hex : existsb p l = false);
      [ destruct (existsb p l) eqn:Hsome; [|reflexivity];
        let w := fresh "w" in
        let Hw := fresh "Hw" in
        let Heq := fresh "Heq" in
        apply existsb_exists in Hsome as [w [Hw Heq]]; apply Z.eqb_eq in Heq;
        exfalso; apply (Hnone w Hw); exact Heq
      | rewrite Hex ]
  end;
  cbv beta iota zeta;
  lazymatch goal with
  | |- context [DB.setVerifications (_ ++ [?row])%list _ _] => exists userID, row
  end;
  repeat split; auto.

Section Verifying.
Variable time_Parse : string -> string -> option Time.
Variable PutObject : string -> string -> FileHeader -> bool.
Variable cfg : Config.

Lemma uploadScans_store (files : list FileHeader) :
  forall (i : Z) (db : DB.t), fst (Handlers.uploadScans PutObject cfg i files db) = db.
Proof.
  induction files as [|f files IH]; intros i db; [reflexivity|].
  cbn [Handlers.uploadScans].
  destruct (negb (Opens f)); [reflexivity|].
  unfold bind, try, tryOr, ret, reply.
  destruct (ValidateImageFile f); [|reflexivity].
  destruct (Handlers.UploadVerificationDoc _ _ _ _ _); [|reflexivity].
  specialize (IH (i + 1) db).
  destruct (Handlers.uploadScans PutObject cfg (i + 1) files db) as [db' [r|urls]];
    cbn [fst] in *; exact IH.
Qed.

(** Every run either leaves the store alone or inserts one pending row for
    the caller, who had none. *)
Lemma CreateVerification_store (body : Multipart) (ctx : Ctx) (db : DB.t) :
  let db' := fst (serve (Handlers.CreateVerification time_Parse PutObject cfg body ctx)
                    db) in
  db' = db
  \/ exists userID row,
      CtxUserID ctx = Some userID
      /\ Verification.UserID row = userID
      /\ Verification.ID row = DB.verifications_seq db
      /\ Verification.Status row = "pending"
      /\ (forall w, In w (DB.verifications db) -> Verification.UserID w <> userID)
      /\ db' = DB.setVerifications (DB.verifications db ++ [row])
                 (DB.verifications_seq db + 1) db.
Proof.
  cbv zeta. unfold Handlers.CreateVerification. run_handler.
  unfold GetUserIDFromContext.
  destruct (CtxUserID ctx) as [userID|]; cbv beta iota; [|now left].
  destruct (DB.GetVerificationByUserID db userID) as [v|e] eqn:Hexisting;
    cbv beta iota; [now left|].
  destruct (ParseMultipartForm body) as [form|e']; cbv beta iota; [|now left].
  destruct (ValidateStruct _); cbv beta iota; [|now left].
  destruct (time_Parse _ _); cbv beta iota; [|now left].
  destruct (time_Parse _ _); cbv beta iota; [|now left].
  assert (Hnone : forall w, In w (DB.verifications db) ->
                            Verification.UserID w <> userID).
  { unfold DB.GetVerificationByUserID, DB.queryRow in Hexisting.
    destruct (find _ (DB.verifications db)) eqn:Hfind; [discriminate|].
    intros w Hw. apply (find_none _ _ Hfind) in Hw. now apply Z.eqb_neq. }
  destruct (FormFile form "user_photo") as [header|]; cbv beta iota.
  - destruct (ValidateImageFile header); cbv beta iota; [|now left].
    destruct (Handlers.UploadVerificationDoc _ _ _ _ _); cbv beta iota; [|now left].
    destruct (FormFiles form "passport_scans") as [files|]; cbv beta iota.
    + destruct (_ <? _)%nat; cbv beta iota; [now left|].
      pose proof (uploadScans_store files 0 db) as Hloop.
      destruct (Handlers.uploadScans PutObject cfg 0 files db) as [s [r|urls]];
        cbn [fst] in Hloop; cbv beta iota; [now left|]. subst s.
      insert_row Hnone userID.
    + insert_row Hnone userID.
  - destruct (FormFiles form "passport_scans") as [files|]; cbv beta iota.
    + destruct (_ <? _)%nat; cbv beta iota; [now left|].
      pose proof (uploadScans_store files 0 db) as Hloop.
      destruct (Handlers.uploadScans PutObject cfg 0 files db) as [s [r|urls]];
        cbn [fst] in Hloop; cbv beta iota; [now left|]. subst s.
      insert_row Hnone userID.
    + insert_row Hnone userID.
Qed.

End Verifying.

(** X25. The verifications keep one row per user through every run of
    CreateVerification, whatever the form: the handler changes nothing, or
    appends one pending row, under the next id, for a caller who had no
    row.  Rows already there are never changed, nor is any other table. *)
Theorem verification_requests_stay_one_per_user
        (time_Parse : string -> string -> option Time)
        (PutObject : string -> string -> FileHeader -> bool) (cfg : Config)
        (body : Multipart) (ctx : Ctx) (db : DB.t) :
  let db' := fst (serve (Handlers.CreateVerification time_Parse PutObject cfg body ctx)
                    db) in
  (NoDup (map Verification.UserID (DB.verifications db)) ->
   NoDup (map Verification.UserID (DB.verifications db')))
  /\ (DB.verifications db' = DB.verifications db
      \/ exists row,
          DB.verifications db' = (DB.verifications db ++ [row])%list
          /\ CtxUserID ctx = Some (Verification.UserID row)
          /\ Verification.ID row = DB.verifications_seq db
          /\ Verification.Status row = "pending"
          /\ DB.IsUserVerified db' (Verification.UserID row) = false)
  /\ DB.users db' = DB.users db /\ DB.posts db' = DB.posts db
  /\ DB.post_media db' = DB.post_media db /\ DB.donations db' = DB.donations db
  /\ DB.messages db' = DB.messages db /\ DB.ratings db' = DB.ratings db.
Proof.
  cbv zeta.
  destruct (CreateVerification_store time_Parse PutObject cfg body ctx db)
    as [->|(userID & row & Hctx & Huser & Hid & Hstatus & Hnone & ->)].
  - repeat split; auto.
  - cbn [DB.verifications DB.users DB.posts DB.post_media DB.donations DB.messages
         DB.ratings DB.setVerifications].
    split; [|split; [|repeat split]].
    + intros Hnd. rewrite map_app. cbn [map].
      apply NoDup_rev in Hnd. rewrite <- (rev_involutive (_ ++ _)%list).
      apply NoDup_rev. rewrite rev_app_distr. cbn [rev app].
      constructor; [|exact Hnd].
      rewrite <- in_rev. intros Hin. apply in_map_iff in Hin as [w [Hw Hin]].
      apply (Hnone w Hin). congruence.
    + right. exists row. split; [reflexivity|]. split; [congruence|].
      split; [exact Hid|]. split; [exact Hstatus|].
      destruct (DB.IsUserVerified _ _) eqn:Hv; [|reflexivity]. exfalso.
      apply IsUserVerified_approved in Hv. destruct Hv as (w & Hw & Hu & Hs).
      cbn [DB.verifications DB.setVerifications] in Hw.
      apply in_app_or in Hw as [Hw|[<-|[]]].
      * apply (Hnone w Hw). congruence.
      * rewrite Hstatus in Hs. discriminate.
Qed.

(** ** The media of a new post *)

Lemma setPostMedia_same (db : DB.t) :
  DB.setPostMedia (DB.post_media db) (DB.post_media_seq db) db = db.
Proof. destruct db; reflexivity. Qed.

Lemma setPostMedia_twice (ms1 ms2 : list PostMedia.t) (s1 s2 : Z) (db : DB.t) :
  DB.setPostMedia ms2 s2 (DB.setPostMedia ms1 s1 db) = DB.setPostMedia ms2 s2 db.
Proof. reflexivity. Qed.

Section NewPostMedia.
Variable PutObject : string -> string -> FileHeader -> bool.
Variable cfg : Config.

(** What the loop may add for a post: rows of that post, with an index
    from [i] up to 9 and one of the two media types. *)
Let attached (postID i : Z) (m : PostMedia.t) : Prop :=
  PostMedia.PostID m = postID
  /\ i <= PostMedia.OrderIndex m < 10
  /\ (PostMedia.MediaType m = "image" \/ PostMedia.MediaType m = "video").

Lemma attachMedia_rows (postID : Z) (now : Time) (i : Z) (f : FileHeader) (db : DB.t) :
  i < 10 ->
  exists added,
    Handlers.attachMedia PutObject cfg postID now i f db
    = (DB.setPostMedia (DB.post_media db ++ added)
         (DB.post_media_seq db + Z.of_nat (List.length added)) db, Next tt)
    /\ (List.length added <= 1)%nat
    /\ Forall (fun m => attached postID i m /\ PostMedia.OrderIndex m = i) added.
Proof.
  intros Hi.
  assert (Hskip : exists added,
             (db, @Next unit tt)
             = (DB.setPostMedia (DB.post_media db ++ added)
                  (DB.post_media_seq db + Z.of_nat (List.length added)) db, Next tt)
             /\ (List.length added <= 1)%nat
             /\ Forall (fun m => attached postID i m /\ PostMedia.OrderIndex m = i) added).
  { exists []. rewrite app_nil_r. cbn [List.length Z.of_nat]. rewrite Z.add_0_r.
    rewrite setPostMedia_same. repeat split; auto. }
  unfold Handlers.attachMedia.
  destruct (negb (Opens f)); [exact Hskip|].
  destruct (ValidateFileSize f _); [|exact Hskip].
  destruct (ValidateMediaFile f); [|exact Hskip].
  destruct (Handlers.UploadPostMedia PutObject postID i f (ContentType f));
    [|exact Hskip].
  unfold exec, DB.CreatePostMedia. cbn [fst].
  eexists [_]. split; [reflexivity|]. split; [cbn; lia|].
  constructor; [|constructor]. unfold attached.
  cbn [PostMedia.PostID PostMedia.OrderIndex PostMedia.MediaType].
  repeat split; try lia.
  destruct (_ || _); auto.
Qed.

Lemma attachAll_rows (postID : Z) (now : Time) (files : list FileHeader) :
  forall (i : Z) (db : DB.t),
  0 <= i ->
  exists added,
    Handlers.attachAll PutObject cfg postID now i files db
    = (DB.setPostMedia (DB.post_media db ++ added)
         (DB.post_media_seq db + Z.of_nat (List.length added)) db, Next tt)
    /\ (List.length added <= List.length files)%nat
    /\ Z.of_nat (List.length added) <= Z.max 0 (10 - i)
    /\ Forall (attached postID i) added
    /\ NoDup (map PostMedia.OrderIndex added).
Proof.
  induction files as [|f files IH]; intros i db Hi.
  - exists []. cbn [Handlers.attachAll]. rewrite app_nil_r.
    cbn [List.length Z.of_nat map]. rewrite Z.add_0_r, setPostMedia_same.
    repeat split; auto; try lia. constructor.
  - cbn [Handlers.attachAll].
    destruct (Z.leb_spec 10 i) as [Hfull|Hroom].
    + exists []. rewrite app_nil_r.
      cbn [List.length Z.of_nat map]. rewrite Z.add_0_r, setPostMedia_same.
      repeat split; auto; try lia. constructor.
    + unfold bind.
      destruct (attachMedia_rows postID now i f db Hroom)
        as (one & -> & Hlen1 & Hone).
      destruct (IH (i + 1) (DB.setPostMedia (DB.post_media db ++ one)
                              (DB.post_media_seq db + Z.of_nat (List.length one)) db)
                  ltac:(lia)) as (more & -> & Hlen & Hmax & Hmore & Hnd).
      exists (one ++ more)%list.
      cbn [DB.post_media DB.post_media_seq DB.setPostMedia]. rewrite setPostMedia_twice.
      rewrite <- app_assoc, length_app, Nat2Z.inj_add, Z.add_assoc.
      split; [reflexivity|]. cbn [List.length].
      split; [lia|]. split; [lia|]. split.
      * apply Forall_app. split.
        -- eapply Forall_impl; [|exact Hone]. intros m [Hm _]. exact Hm.
        -- eapply Forall_impl; [|exact Hmore]. unfold attached.
           intros m (H1 & H2 & H3). repeat split; auto; lia.
      * rewrite map_app.
        destruct one as [|m [|m' rest]]; [exact Hnd| |cbn in Hlen1; lia].
        cbn [map app]. constructor; [|exact Hnd].
        inversion Hone as [|? ? [_ Hindex] _]; subst.
        intros Hin. apply in_map_iff in Hin as [x [Hx Hin]].
        rewrite Forall_forall in Hmore. destruct (Hmore x Hin) as (_ & Hrange & _).
        lia.
Qed.

End NewPostMedia.

(** X26. However many files the form carries, CreatePost attaches at most
    ten media, all of them to the post it has just created, with distinct
    order indexes from 0 to 9 and the type image or video; the rows that
    were there before stay as they are, and without a new post no medium
    is added.  No other table changes. *)
Theorem new_post_gets_at_most_ten_media
        (ParseFloat : string -> Money)
        (PutObject : string -> string -> FileHeader -> bool) (cfg : Config)
        (pg : DB.Server) (body : Multipart) (ctx : Ctx) (db : DB.t) :
  let db' :=
    fst (serve (Handlers.CreatePost ParseFloat PutObject cfg pg body ctx) db) in
  exists added,
    DB.post_media db' = (DB.post_media db ++ added)%list
    /\ (List.length added <= 10)%nat
    /\ Forall (fun m => PostMedia.PostID m = DB.posts_seq db
                        /\ 0 <= PostMedia.OrderIndex m < 10
                        /\ (PostMedia.MediaType m = "image"
                            \/ PostMedia.MediaType m = "video")) added
    /\ NoDup (map PostMedia.OrderIndex added)
    /\ (DB.posts db' = DB.posts db -> added = [])
    /\ DB.users db' = DB.users db /\ DB.verifications db' = DB.verifications db
    /\ DB.donations db' = DB.donations db /\ DB.messages db' = DB.messages db
    /\ DB.ratings db' = DB.ratings db.
Proof.
  cbv zeta.
  assert (Hnothing : exists added,
             DB.post_media db = (DB.post_media db ++ added)%list
             /\ (List.length added <= 10)%nat
             /\ Forall (fun m => PostMedia.PostID m = DB.posts_seq db
                                 /\ 0 <= PostMedia.OrderIndex m < 10
                                 /\ (PostMedia.MediaType m = "image"
                                     \/ PostMedia.MediaType m = "video")) added
             /\ NoDup (map PostMedia.OrderIndex added)
             /\ (DB.posts db = DB.posts db -> added = [])
             /\ DB.users db = DB.users db /\ DB.verifications db = DB.verifications db
             /\ DB.donations db = DB.donations db /\ DB.messages db = DB.messages db
             /\ DB.ratings db = DB.ratings db).
  { exists []. rewrite app_nil_r. repeat split; auto; [cbn; lia|constructor]. }
  unfold Handlers.CreatePost. run_handler. unfold GetUserIDFromContext.
  destruct (CtxUserID ctx) as [userID|]; cbv beta iota; [|exact Hnothing].
  destruct (negb (DB.IsUserVerified db userID)); cbv beta iota; [exact Hnothing|].
  destruct (ParseMultipartForm body) as [form|e]; cbv beta iota; [|exact Hnothing].
  destruct (ValidateStruct _); cbv beta iota; [|exact Hnothing].
  match goal with
  | |- context [DB.CreatePost pg db ?p ?now] =>
      pose proof (CreatePost_insert pg db p now) as Hinsert;
      destruct (DB.CreatePost pg db p now) as [db1 [created|err]]
  end; cbv beta iota; [|destruct Hinsert as (-> & _); exact Hnothing].
  destruct Hinsert as (post & Hdb1 & Hid & _).
  assert (Hgrown : DB.posts db1 <> DB.posts db).
  { subst db1. cbn [DB.posts DB.setPosts]. intros Heq.
    apply (f_equal (@List.length Post.t)) in Heq. rewrite length_app in Heq.
    cbn [List.length] in Heq. lia. }
  assert (Hrest : DB.post_media db1 = DB.post_media db /\ DB.users db1 = DB.users db
                  /\ DB.verifications db1 = DB.verifications db
                  /\ DB.donations db1 = DB.donations db
                  /\ DB.messages db1 = DB.messages db /\ DB.ratings db1 = DB.ratings db).
  { subst db1. repeat split. }
  destruct Hrest as (Hm & Hu & Hv & Hd & Hmsg & Hr).
  rewrite <- Hm, <- Hu, <- Hv, <- Hd, <- Hmsg, <- Hr. clear Hdb1 Hm Hu Hv Hd Hmsg Hr.
  destruct (FormFiles form "media") as [files|]; cbv beta iota.
  - destruct (attachAll_rows PutObject cfg (DB.posts_seq db) (Now ctx) files 0 db1
                ltac:(lia)) as (added & Hrun & _ & Hmax & Hrows & Hnd).
    rewrite Hid. rewrite Hrun. cbn [fst].
    exists added.
    cbn [DB.post_media DB.posts DB.users DB.verifications DB.donations DB.messages
         DB.ratings DB.setPostMedia].
    split; [reflexivity|]. split; [lia|]. split; [exact Hrows|]. split; [exact Hnd|].
    split; [intros Heq; contradiction|]. repeat split.
  - cbn [fst]. exists []. rewrite app_nil_r.
    split; [reflexivity|]. split; [cbn; lia|]. split; [constructor|].
    split; [constructor|]. split; [reflexivity|]. repeat split.
Qed.

(** ** Registration *)

(** A text that is not longer than its column in bytes is stored as it
    is, if it is stored. *)
Lemma varchar_short (pg : DB.Server) (n : Z) (s stored : string) :
  Z.of_nat (String.length s) <= n -> DB.varchar pg n s = Some stored -> stored = s.
Proof.
  unfold DB.varchar. intros Hlen.
  destruct (DB.wellEncoded pg s); [|discriminate].
  destruct (Z.leb_spec (Z.of_nat (String.length s)) n); [|lia]. congruence.
Qed.

(** A validated phone number fits the column in bytes. *)
Lemma ValidatePhoneNumber_length (phone : string) :
  ValidatePhoneNumber phone = Ok tt ->
  (10 <= String.length (FormatPhone phone) <= 20)%nat.
Proof.
  unfold ValidatePhoneNumber. cbv zeta. intros Hphone.
  destruct (Nat.ltb_spec (String.length (FormatPhone phone)) 10); [discriminate|].
  destruct (Nat.ltb_spec 20 (String.length (FormatPhone phone))); [discriminate|].
  lia.
Qed.

(** The INSERT of a user: refused, and nothing changes, or one row is
    appended with the texts as the server stores them. *)
Lemma CreateUser_insert (pg : DB.Server) (db : DB.t) (id : Z)
      (phone passwordHash firstName lastName : string) (now : Time) :
  match Gateway.CreateUser pg db id phone passwordHash firstName lastName now with
  | (db', Ok created) =>
      exists row,
        db' = DB.setUsers (DB.users db ++ [row]) db
        /\ created = User.withPasswordHash "" row
        /\ DB.varchar pg 20 phone = Some (User.Phone row)
        /\ DB.varchar pg 255 passwordHash = Some (User.PasswordHash row)
        /\ DB.varchar pg 100 firstName = Some (User.FirstName row)
        /\ DB.varchar pg 100 lastName = Some (User.LastName row)
        /\ User.ID row = id /\ User.Role row = "user" /\ User.IsActive row = true
        /\ User.PhotoURL row = None /\ User.HelperName row = None
        /\ (forall u, In u (DB.users db) -> User.Phone u <> User.Phone row)
  | (db', Err e) =>
      db' = db
      /\ ((e = App (NewConflictError "Пользователь с таким телефоном уже существует")
           /\ exists u stored, In u (DB.users db) /\ DB.varchar pg 20 phone = Some stored
                               /\ User.Phone u = stored)
          \/ ((exists msg, e = Other msg)
              /\ (DB.varchar pg 20 phone = None \/ DB.varchar pg 255 passwordHash = None
                  \/ DB.varchar pg 100 firstName = None
                  \/ DB.varchar pg 100 lastName = None)))
  end.
Proof.
  unfold Gateway.CreateUser.
  destruct (DB.varchar pg 20 phone) as [phone'|];
    [|split; [reflexivity|right; split; [eexists; reflexivity|auto]]].
  destruct (DB.varchar pg 255 passwordHash) as [hash'|];
    [|split; [reflexivity|right; split; [eexists; reflexivity|auto]]].
  destruct (DB.varchar pg 100 firstName) as [first'|];
    [|split; [reflexivity|right; split; [eexists; reflexivity|auto]]].
  destruct (DB.varchar pg 100 lastName) as [last'|];
    [|split; [reflexivity|right; split; [eexists; reflexivity|auto]]].
  destruct (existsb _ (DB.users db)) eqn:Hdup; cbv zeta.
  - split; [reflexivity|]. left. split; [reflexivity|].
    apply existsb_exists in Hdup as [u [Hu Heq]]. apply String.eqb_eq in Heq.
    exists u, phone'. auto.
  - eexists. split; [reflexivity|].
    cbn [User.Phone User.PasswordHash User.FirstName User.LastName User.ID User.Role
         User.IsActive User.PhotoURL User.HelperName].
    repeat split.
    intros u Hu Heq.
    assert (Hex : existsb (fun u => String.eqb (User.Phone u) phone') (DB.users db)
                  = true).
    { apply existsb_exists. exists u. split; [exact Hu|]. now apply String.eqb_eq. }
    congruence.
Qed.

Section Registering.
Variable CompareHashAndPassword : string -> string -> bool.
Variable GenerateFromPassword : string -> result string.
Variable SignedString : Claims -> string -> result string.
Variable RuneCountInString : string -> Z.
Variable cfg : Config.
Variable pg : DB.Server.

Let Register := Api.Register GenerateFromPassword SignedString RuneCountInString cfg pg.

(** Every run either leaves the store alone or inserts one user. *)
Lemma Register_store (nextID : Z) (body : option RegisterRequest) (ctx : Ctx) (db : DB.t) :
  fst (serve (Register nextID body ctx) db) = db
  \/ exists req passwordHash row,
      body = Some req
      /\ ValidatePhoneNumber (RegPhone req) = Ok tt
      /\ GenerateFromPassword (RegPassword req) = Ok passwordHash
      /\ User.Phone row = FormatPhone (RegPhone req)
      /\ DB.varchar pg 255 passwordHash = Some (User.PasswordHash row)
      /\ DB.varchar pg 100 (RegFirstName req) = Some (User.FirstName row)
      /\ DB.varchar pg 100 (RegLastName req) = Some (User.LastName row)
      /\ User.ID row = nextID /\ User.Role row = "user" /\ User.IsActive row = true
      /\ User.PhotoURL row = None /\ User.HelperName row = None
      /\ (forall u, In u (DB.users db) -> User.Phone u <> FormatPhone (RegPhone req))
      /\ fst (serve (Register nextID body ctx) db)
         = DB.setUsers (DB.users db ++ [row]) db.
Proof.
  subst Register. unfold Api.Register. run_handler.
  destruct body as [req|]; cbv beta iota; [|now left].
  destruct (ValidateStruct _); cbv beta iota; [|now left].
  destruct (ValidatePhoneNumber (RegPhone req)) as [[]|e] eqn:Hphone; cbv beta iota;
    [|now left].
  unfold Api.HashPassword.
  destruct (GenerateFromPassword (RegPassword req)) as [passwordHash|e] eqn:Hhash;
    cbv beta iota; [|now left].
  match goal with
  | |- context [Gateway.CreateUser pg db ?i ?ph ?h ?f ?l ?n] =>
      pose proof (CreateUser_insert pg db i ph h f l n) as Hinsert;
      destruct (Gateway.CreateUser pg db i ph h f l n) as [db1 [created|err]]
  end; cbv beta iota; [|destruct Hinsert as [-> _]; now left].
  destruct Hinsert as (row & -> & _ & Hp & Hh & Hf & Hl & Hid & Hrole & Hact & Hphoto
                       & Hhelper & Hfree).
  assert (Hstored : User.Phone row = FormatPhone (RegPhone req)).
  { apply (varchar_short pg 20); [|exact Hp].
    pose proof (ValidatePhoneNumber_length _ Hphone). lia. }
  right. exists req, passwordHash, row. rewrite <- Hstored.
  repeat split; auto.
  destruct (Handlers.GenerateToken _ _ _ _ _ _); reflexivity.
Qed.

Lemma Register_duplicate (nextID : Z) (body : option RegisterRequest) (ctx : Ctx)
      (db : DB.t) (req : RegisterRequest) (u : User.t) :
  body = Some req -> In u (DB.users db) ->
  User.Phone u = FormatPhone (RegPhone req) ->
  fst (serve (Register nextID body ctx) db) = db
  /\ StatusCode (snd (serve (Register nextID body ctx) db)) <> StatusCreated.
Proof.
  intros -> Hu Hphone.
  subst Register. unfold Api.Register. run_handler.
  unfold ValidateStruct.
  destruct (Api.validateRegisterRequest _ _); cbv beta iota;
    [|split; [reflexivity|status_differs]].
  destruct (ValidatePhoneNumber (RegPhone req)) as [[]|e] eqn:Hvalid; cbv beta iota.
  2:{ unfold ValidatePhoneNumber in Hvalid. cbv zeta in Hvalid.
      destruct (_ || _) in Hvalid; [injection Hvalid as <-|discriminate].
      split; [reflexivity|status_differs]. }
  unfold Api.HashPassword.
  destruct (GenerateFromPassword _); cbv beta iota;
    [|split; [reflexivity|status_differs]].
  match goal with
  | |- context [Gateway.CreateUser pg db ?i ?ph ?h ?f ?l ?n] =>
      pose proof (CreateUser_insert pg db i ph h f l n) as Hinsert;
      destruct (Gateway.CreateUser pg db i ph h f l n) as [db1 [created|err]]
  end; cbv beta iota.
  - exfalso. destruct Hinsert as (row & _ & _ & Hp & _ & _ & _ & _ & _ & _ & _ & _ & Hfree).
    apply (Hfree u Hu). rewrite Hphone. symmetry.
    apply (varchar_short pg 20); [|exact Hp].
    pose proof (ValidatePhoneNumber_length _ Hvalid). lia.
  - destruct Hinsert as [-> [[-> _]|[[msg ->] _]]]; split;
      first [reflexivity | status_differs].
Qed.

End Registering.

(** X27. Whatever the request, registration leaves the store alone or
    appends exactly one user: under the id handed out, with the role
    "user", active, without a photo, and with the phone number in its
    formatted spelling, 10 to 20 bytes long and free of separators, which
    no user had before.  Rows already there and all other tables are
    unchanged; in particular nobody registers as an admin. *)
Theorem registration_adds_one_plain_user
        (GenerateFromPassword : string -> result string)
        (SignedString : Claims -> string -> result string)
        (RuneCountInString : string -> Z) (cfg : Config) (pg : DB.Server)
        (nextID : Z) (body : option RegisterRequest) (ctx : Ctx) (db : DB.t) :
  let db' := fst (serve (Api.Register GenerateFromPassword SignedString RuneCountInString
                           cfg pg nextID body ctx) db) in
  (DB.users db' = DB.users db
   \/ exists user,
       DB.users db' = (DB.users db ++ [user])%list
       /\ User.ID user = nextID /\ User.Role user = "user"
       /\ User.IsActive user = true /\ User.PhotoURL user = None
       /\ FormatPhone (User.Phone user) = User.Phone user
       /\ (10 <= String.length (User.Phone user) <= 20)%nat
       /\ (forall u, In u (DB.users db) -> User.Phone u <> User.Phone user))
  /\ DB.verifications db' = DB.verifications db /\ DB.posts db' = DB.posts db
  /\ DB.post_media db' = DB.post_media db /\ DB.donations db' = DB.donations db
  /\ DB.messages db' = DB.messages db /\ DB.ratings db' = DB.ratings db.
Proof.
  cbv zeta.
  destruct (Register_store GenerateFromPassword SignedString RuneCountInString cfg pg
              nextID body ctx db)
    as [->|(req & h & row & _ & Hphone & _ & Hstored & _ & _ & _ & Hid & Hrole & Hact
            & Hphoto & _ & Hfree & ->)].
  - repeat split; auto.
  - cbn [DB.users DB.verifications DB.posts DB.post_media DB.donations DB.messages
         DB.ratings DB.setUsers].
    split; [|repeat split].
    right. exists row. split; [reflexivity|].
    rewrite Hstored.
    split; [exact Hid|]. split; [exact Hrole|]. split; [exact Hact|].
    split; [exact Hphoto|].
    split.
    + pose proof (FormatPhone_clean (RegPhone req)) as [Hs [Hh [Ho Hc]]].
      unfold FormatPhone at 1. cbv zeta.
      now rewrite (ReplaceAll_absent _ _ Hs), (ReplaceAll_absent _ _ Hh),
        (ReplaceAll_absent _ _ Ho), (ReplaceAll_absent _ _ Hc).
    + split; [|exact Hfree]. now apply ValidatePhoneNumber_length.
Qed.

(** X28. Once a phone number is registered, no spelling of it registers
    again.  A valid request with a new number, whose texts the columns of
    [users] take, appends the user under the formatted number; after that
    a request whose number formats to the same digits is never answered
    201 and leaves the store unchanged.  And the account can log in under
    any such spelling: the login verdict is bcrypt's verdict on the hash
    stored at registration. *)
Theorem registered_phone_is_taken_in_every_spelling
        (CompareHashAndPassword : string -> string -> bool)
        (GenerateFromPassword : string -> result string)
        (SignedString : Claims -> string -> result string)
        (RuneCountInString : string -> Z) (cfg : Config) (pg : DB.Server)
        (nextID : Z) (req : RegisterRequest) (ctx : Ctx) (db : DB.t)
        (passwordHash storedPhone storedHash storedFirst storedLast : string) :
  RegPhone req <> "" -> RegPassword req <> "" -> 6 <= RuneCountInString (RegPassword req) ->
  RegFirstName req <> "" -> RegLastName req <> "" ->
  ValidatePhoneNumber (RegPhone req) = Ok tt ->
  GenerateFromPassword (RegPassword req) = Ok passwordHash ->
  DB.varchar pg 20 (FormatPhone (RegPhone req)) = Some storedPhone ->
  DB.varchar pg 255 passwordHash = Some storedHash ->
  DB.varchar pg 100 (RegFirstName req) = Some storedFirst ->
  DB.varchar pg 100 (RegLastName req) = Some storedLast ->
  (forall u, In u (DB.users db) -> User.Phone u <> FormatPhone (RegPhone req)) ->
  let Register :=
    Api.Register GenerateFromPassword SignedString RuneCountInString cfg pg in
  let db' := fst (serve (Register nextID (Some req) ctx) db) in
  (exists user, DB.users db' = (DB.users db ++ [user])%list
                /\ User.Phone user = FormatPhone (RegPhone req)
                /\ User.PasswordHash user = storedHash
                /\ User.FirstName user = storedFirst
                /\ User.LastName user = storedLast)
  /\ (forall nextID' again ctx',
         FormatPhone (RegPhone again) = FormatPhone (RegPhone req) ->
         fst (serve (Register nextID' (Some again) ctx') db') = db'
         /\ StatusCode (snd (serve (Register nextID' (Some again) ctx') db'))
            <> StatusCreated)
  /\ (forall login ctx',
         LoginPhone login <> "" -> LoginPassword login <> "" ->
         FormatPhone (LoginPhone login) = FormatPhone (RegPhone req) ->
         let answer :=
           snd (serve (Handlers.Login CompareHashAndPassword SignedString cfg
                         (Some login) ctx') db') in
         (CompareHashAndPassword storedHash (LoginPassword login) = false ->
          answer = WriteError (App (NewUnauthorizedError "Неверные учетные данные")))
         /\ (CompareHashAndPassword storedHash (LoginPassword login) = true ->
             StatusCode answer <> StatusUnauthorized
             /\ StatusCode answer <> StatusForbidden)).
Proof.
  intros Hphone Hpass Hlen Hfirst Hlast Hvalid Hhash Hsp Hsh Hsf Hsl Hfree. cbv zeta.
  assert (storedPhone = FormatPhone (RegPhone req)) as ->.
  { apply (varchar_short pg 20); [|exact Hsp].
    pose proof (ValidatePhoneNumber_length _ Hvalid). lia. }
  set (row := {| User.ID := nextID; User.Phone := FormatPhone (RegPhone req);
                 User.PasswordHash := storedHash;
                 User.FirstName := storedFirst; User.LastName := storedLast;
                 User.PhotoURL := None; User.Role := "user"; User.HelperName := None;
                 User.CreatedAt := Now ctx; User.UpdatedAt := Now ctx;
                 User.IsActive := true |}).
  assert (Hrun : fst (serve (Api.Register GenerateFromPassword SignedString
                               RuneCountInString cfg pg nextID (Some req) ctx) db)
                 = DB.setUsers (DB.users db ++ [row]) db).
  { unfold Api.Register. run_handler.
    unfold Api.validateRegisterRequest, required, Api.requiredMin.
    destruct (String.eqb_spec (RegPhone req) ""); [contradiction|].
    destruct (String.eqb_spec (RegPassword req) ""); [contradiction|].
    destruct (String.eqb_spec (RegFirstName req) ""); [contradiction|].
    destruct (String.eqb_spec (RegLastName req) ""); [contradiction|].
    destruct (Z.ltb_spec (RuneCountInString (RegPassword req)) 6); [lia|].
    cbn [app ValidateStruct]. cbv beta iota. rewrite Hvalid. cbv beta iota.
    unfold Api.HashPassword. rewrite Hhash. cbv beta iota.
    unfold Gateway.CreateUser. rewrite Hsp, Hsh, Hsf, Hsl.
    assert (existsb (fun u => String.eqb (User.Phone u) (FormatPhone (RegPhone req)))
              (DB.users db) = false) as ->.
    { destruct (existsb _ _) eqn:Hex; [|reflexivity].
      apply existsb_exists in Hex as [u [Hu Heq]]. apply String.eqb_eq in Heq.
      exfalso. exact (Hfree u Hu Heq). }
    cbv beta iota zeta.
    destruct (Handlers.GenerateToken _ _ _ _ _ _); reflexivity. }
  rewrite Hrun.
  assert (Hin : In row (DB.users (DB.setUsers (DB.users db ++ [row]) db))).
  { cbn [DB.users DB.setUsers]. apply in_or_app. right. now left. }
  split; [|split].
  - exists row. repeat split.
  - intros nextID' again ctx' Hsame.
    apply (Register_duplicate GenerateFromPassword SignedString RuneCountInString cfg pg
             nextID' (Some again) ctx' _ again row eq_refl Hin).
    now rewrite Hsame.
  - intros login ctx' Hlp Hlpw Hsame.
    assert (Hfound : DB.GetUserByPhone (DB.setUsers (DB.users db ++ [row]) db)
                       (FormatPhone (LoginPhone login)) = Ok row).
    { unfold DB.GetUserByPhone, DB.queryRow. cbn [DB.users DB.setUsers].
      rewrite Hsame. rewrite find_app_none.
      - cbn [User.Phone row]. now rewrite String.eqb_refl.
      - destruct (find _ (DB.users db)) eqn:Hfind; [|reflexivity].
        apply find_some in Hfind as [Hu Heq]. apply String.eqb_eq in Heq.
        exfalso. exact (Hfree _ Hu Heq). }
    split.
    + intros Hrej. apply Login_rejected; auto.
      unfold passwordAccepted, Handlers.CheckPassword. rewrite Hfound. exact Hrej.
    + intros Hacc. unfold Handlers.Login. run_handler.
      unfold validateLoginRequest, required.
      destruct (String.eqb_spec (LoginPhone login) ""); [contradiction|].
      destruct (String.eqb_spec (LoginPassword login) ""); [contradiction|].
      cbn [app ValidateStruct]. cbv beta iota. rewrite Hfound. cbv beta iota.
      unfold Handlers.CheckPassword. cbn [User.PasswordHash row User.IsActive].
      rewrite Hacc. cbn [negb]. cbv beta iota.
      destruct (Handlers.GenerateToken _ _ _ _ _ _); split; status_differs.
Qed.

Lemma registered_phone_is_taken_in_every_spelling_witness :
  let bcrypt (hash password : string) := String.eqb hash ("hash of " ++ password) in
  let generate (password : string) := Ok ("hash of " ++ password) in
  let runes (s : string) := Z.of_nat (String.length s) in
  let Register :=
    Api.Register generate (fun _ _ => Ok "token") runes Sample.cfg Sample.pg in
  let req := {| RegPhone := "+7 (999) 123-45-67"; RegPassword := "secret1";
                RegFirstName := "Pavel"; RegLastName := "Orlov" |} in
  let again := {| RegPhone := "+7999 1234567"; RegPassword := "another";
                  RegFirstName := "P"; RegLastName := "O" |} in
  let db' := fst (serve (Register 4 (Some req) (Sample.asUser 0 "")) Sample.db) in
  fst (serve (Register 5 (Some again) (Sample.asUser 0 "")) db') = db'
  /\ StatusCode (snd (serve (Register 5 (Some again) (Sample.asUser 0 "")) db'))
     <> StatusCreated.
Proof.
  intros bcrypt generate runes Register req again db'.
  assert (Hfree : forall u, In u (DB.users Sample.db) ->
                            User.Phone u <> FormatPhone (RegPhone req)).
  { intros u Hu. cbn in Hu. destruct Hu as [<-|[<-|[<-|[]]]]; discriminate. }
  apply (proj1 (proj2 (registered_phone_is_taken_in_every_spelling bcrypt generate
                         (fun _ _ => Ok "token") runes Sample.cfg Sample.pg 4 req
                         (Sample.asUser 0 "") Sample.db "hash of secret1"
                         "+79991234567" "hash of secret1" "Pavel" "Orlov"
                         ltac:(discriminate) ltac:(discriminate) ltac:(cbn; lia)
                         ltac:(discriminate) ltac:(discriminate)
                         eq_refl eq_refl eq_refl eq_refl eq_refl eq_refl Hfree))
           5 again (Sample.asUser 0 "")).
  reflexivity.
Defined.

(** ** New donations *)

Section Donating.
Variable PutObject : string -> string -> FileHeader -> bool.
Variable ParseInt : string -> Z.
Variable ParseFloat : string -> Money.
Variable cfg : Config.
Variable pg : DB.Server.

Let CreateDonation := Api.CreateDonation PutObject ParseInt ParseFloat cfg pg.

(** The row that CreateDonation inserts for a form. *)
Let pledged (nextID userID : Z) (form : MultipartForm) (now : Time) : Donation.t :=
  {| Donation.ID := nextID; Donation.PostID := ParseInt (FormValue form "post_id");
     Donation.DonorID := userID; Donation.Amount := ParseFloat (FormValue form "amount");
     Donation.ReceiptURL := None; Donation.Status := "pending";
     Donation.ConfirmedAt := None; Donation.ConfirmedBy := None;
     Donation.CreatedAt := now |}.

Lemma CreateDonation_store (nextID : Z) (body : Multipart) (ctx : Ctx) (db : DB.t) :
  fst (serve (CreateDonation nextID body ctx) db) = db
  \/ exists userID form post,
      CtxUserID ctx = Some userID /\ body = Parsed form
      /\ DB.GetPostByID db (ParseInt (FormValue form "post_id")) = Ok post
      /\ 0 < ParseFloat (FormValue form "amount")
      /\ fst (serve (CreateDonation nextID body ctx) db)
         = DB.setDonations (DB.donations db ++ [pledged nextID userID form (Now ctx)]) db.
Proof.
  subst CreateDonation. unfold Api.CreateDonation. run_handler.
  unfold GetUserIDFromContext.
  destruct (CtxUserID ctx) as [userID|]; cbv beta iota; [|now left].
  destruct body as [msg|form]; cbn [ParseMultipartForm]; cbv beta iota; [now left|].
  unfold validateCreateDonationRequest, requiredID, requiredPositive.
  cbn [DonationPostID DonationAmount].
  destruct (ParseInt (FormValue form "post_id") =? 0); [now left|].
  destruct (Z.eqb_spec (ParseFloat (FormValue form "amount")) 0); [now left|].
  destruct (Z.ltb_spec 0 (ParseFloat (FormValue form "amount"))); [|now left].
  cbn [app ValidateStruct]. cbv beta iota.
  destruct (DB.GetPostByID db _) as [post|e] eqn:Hpost; cbv beta iota; [|now left].
  assert (Hdone : forall r : Response,
             fst (DB.setDonations
                    (DB.donations db ++ [pledged nextID userID form (Now ctx)]) db, r)
             = db
             \/ exists userID0 form0 post0,
                 Some userID = Some userID0 /\ Parsed form = Parsed form0
                 /\ DB.GetPostByID db (ParseInt (FormValue form0 "post_id")) = Ok post0
                 /\ 0 < ParseFloat (FormValue form0 "amount")
                 /\ fst (DB.setDonations
                           (DB.donations db ++ [pledged nextID userID form (Now ctx)])
                           db, r)
                    = DB.setDonations
                        (DB.donations db ++ [pledged nextID userID0 form0 (Now ctx)]) db).
  { intros r. right. exists userID, form, post. repeat split; auto. }
  destruct (FormFile form "receipt") as [header|]; cbv beta iota.
  - destruct (ValidateFileSize header _); cbv beta iota; [|now left].
    destruct (ValidateDocumentFile header); cbv beta iota; [|now left].
    unfold Gateway.CreateDonation.
    cbn [Donation.ReceiptURL Donation.Amount Donation.PostID Donation.DonorID
         Donation.ConfirmedAt Donation.ConfirmedBy].
    cbv beta iota zeta.
    destruct (DB.inDecimal _ && _); cbv beta iota; [|now left].
    destruct (Api.UploadDonationReceipt _ _ _ _); cbv beta iota; apply Hdone.
  - unfold Gateway.CreateDonation.
    cbn [Donation.ReceiptURL Donation.Amount Donation.PostID Donation.DonorID
         Donation.ConfirmedAt Donation.ConfirmedBy].
    cbv beta iota zeta.
    destruct (DB.inDecimal _ && _); cbv beta iota; [|now left].
    apply Hdone.
Qed.

End Donating.

(** X29. Whatever the request, CreateDonation leaves the store alone or
    appends exactly one donation: pending, unreviewed, by the caller, of a
    positive amount, to a post that exists, under the id handed out, and
    with no receipt stored.  It moves no money: posts, ratings and all
    other tables are unchanged, as are the donations already there. *)
Theorem new_donation_is_pending_and_moves_no_money
        (PutObject : string -> string -> FileHeader -> bool)
        (ParseInt : string -> Z) (ParseFloat : string -> Money) (cfg : Config)
        (pg : DB.Server) (nextID : Z) (body : Multipart) (ctx : Ctx) (db : DB.t) :
  let db' := fst (serve (Api.CreateDonation PutObject ParseInt ParseFloat cfg pg nextID
                           body ctx) db) in
  (DB.donations db' = DB.donations db
   \/ exists d post,
       DB.donations db' = (DB.donations db ++ [d])%list
       /\ Donation.ID d = nextID /\ Donation.Status d = "pending"
       /\ Donation.ConfirmedAt d = None /\ Donation.ConfirmedBy d = None
       /\ Donation.ReceiptURL d = None
       /\ CtxUserID ctx = Some (Donation.DonorID d)
       /\ 0 < Donation.Amount d
       /\ DB.GetPostByID db (Donation.PostID d) = Ok post)
  /\ DB.posts db' = DB.posts db /\ DB.ratings db' = DB.ratings db
  /\ DB.users db' = DB.users db /\ DB.verifications db' = DB.verifications db
  /\ DB.post_media db' = DB.post_media db /\ DB.messages db' = DB.messages db.
Proof.
  cbv zeta.
  destruct (CreateDonation_store PutObject ParseInt ParseFloat cfg pg nextID body ctx db)
    as [->|(userID & form & post & Hctx & _ & Hpost & Hpos & ->)].
  - repeat split; auto.
  - cbn [DB.donations DB.posts DB.ratings DB.users DB.verifications DB.post_media
         DB.messages DB.setDonations].
    split; [|repeat split].
    right. eexists _, post. split; [reflexivity|].
    cbn [Donation.ID Donation.Status Donation.ConfirmedAt Donation.ConfirmedBy
         Donation.ReceiptURL Donation.DonorID Donation.Amount Donation.PostID].
    repeat split; auto.
Qed.


